(** * Home video-surveillance dashboard: front-end state logic

    A shallow embedding of the client-side logic of the dashboard (Vue
    single-file components and Pinia stores) and the properties its
    specification states about it.

    Conventions of the embedding:
    - a component's reactive state is a record; a handler is a function
      from the state (and the inputs the browser or the backend
      supplies) to the new state and the list of effects it performs;
    - an [await] is modelled at its completion: the outcome of the
      awaited request is an argument of the handler;
    - JavaScript objects that are shared between arrays live in an
      explicit heap ([gmap] from locations to records), arrays hold
      locations;
    - counters and pixel sizes are [Z]; the coordinates the geometry
      code computes are JavaScript numbers, that is IEEE 754 binary64
      values with their rounding ([spec_float] of the Standard
      Library);
    - a template ref ([loginSlideRef] and the like) is set exactly
      while the element it names is rendered; what a library component
      does behind a call of this code ([resetFields] of a form) is
      modelled by the state it needs. *)

From Stdlib Require Import ZArith QArith Lia SpecFloat.
From stdpp Require Import gmap list strings.

Close Scope Q_scope.
Open Scope Z_scope.

(** ** Values and effects shared by the components *)

(** A JavaScript number: an IEEE 754 binary64 value (53 bits of
    precision, exponents below 1024): a zero, an infinity, [NaN], or
    [(-1)^s * m * 2^e]. *)
Abbreviation number := spec_float.

(** The number an integer converts to. *)
Definition int (n : Z) : number := binary_normalize 53 1024 n 0 false.

(** [a + b], [a - b], [a * b] and [a / b]: the exact result rounded
    to the nearest number, ties to even. *)
Definition num_add (a b : number) : number := SFadd 53 1024 a b.
Definition num_sub (a b : number) : number := SFsub 53 1024 a b.
Definition num_mul (a b : number) : number := SFmul 53 1024 a b.
Definition num_div (a b : number) : number := SFdiv 53 1024 a b.

(** The value is in the canonical form of the format, as every number
    of a running program is. *)
Definition is_double (a : number) : Prop := valid_binary 53 1024 a = true.

(** A finite number other than zero. *)
Definition is_finite (a : number) : Prop :=
  match a with
  | S754_finite _ _ _ => True
  | _ => False
  end.

(** [Math.max(a, b)] and [Math.min(a, b)]: [NaN] when an argument is
    [NaN]; [+0] is larger than [-0]. *)
Definition Math_max (a b : number) : number :=
  match SFcompare a b with
  | None => S754_nan
  | Some Lt => b
  | Some Gt => a
  | Some Eq => match a with S754_zero true => b | _ => a end
  end.

Definition Math_min (a b : number) : number :=
  match SFcompare a b with
  | None => S754_nan
  | Some Lt => a
  | Some Gt => b
  | Some Eq => match a with S754_zero false => b | _ => a end
  end.

(** [a <= b] and [a < b]; false when an argument is [NaN]. *)
Definition num_le (a b : number) : bool := SFleb a b.
Definition num_lt (a b : number) : bool := SFltb a b.

(** [v || d] on a number that may be [undefined]. *)
Definition or_default (v : option Z) (d : Z) : Z :=
  match v with
  | Some n => if n =? 0 then d else n
  | None => d
  end.

Module Point.
Record t := mk { x : number; y : number }.
End Point.

(** The backing store of a [<canvas>]: assigning [width] or [height]
    resets the bitmap, also when the value does not change; [resets]
    counts these assignments. *)
Module Canvas.
Record t := mk { width : Z; height : Z; resets : nat }.
Definition set_width (v : Z) (c : t) : t :=
  {| width := v; height := height c; resets := S (resets c) |}.
Definition set_height (v : Z) (c : t) : t :=
  {| width := width c; height := v; resets := S (resets c) |}.
End Canvas.

(** The streaming [<img>] element. It has no [videoWidth], [videoHeight]
    or [error] property: reading them gives [undefined]. *)
Module Img.
Record t := mk { complete : bool; naturalWidth : Z; naturalHeight : Z }.
Definition videoWidth (_ : t) : option Z := None.
Definition videoHeight (_ : t) : option Z := None.
Definition error (_ : t) : bool := false.
End Img.

(** The backing store has the native pixel size of the image. *)
Definition sized_to (video : Img.t) (canvas : Canvas.t) : Prop :=
  Canvas.width canvas = Img.naturalWidth video /\
  Canvas.height canvas = Img.naturalHeight video.

(** The rectangle [getBoundingClientRect] reports: the position and the
    CSS display size of an element. *)
Module Rect.
Record t := mk { left : number; top : number; width : number; height : number }.
End Rect.

Module MouseEvent.
Record t := mk { clientX : number; clientY : number }.
End MouseEvent.

(** Levels of an Element Plus toast ([ElMessage.success] and so on). *)
Inductive level := LSuccess | LWarning | LError.

(** [console.log], [console.warn] and [console.error]. *)
Inductive console := Log | Warn | Error.

Inductive method := GET | POST | PUT | DELETE.

(** The REST endpoints the modelled handlers call. *)
Inductive endpoint :=
| ApiZone
| ApiZoneId (id : Z)
| ApiFaceStatus (id : Z)
| ApiEventsRecent
| ApiEventRead (id : Z)
| ApiEventsMarkAllRead
| ApiCameraStatus
| ApiAuthLogin
| ApiAuthRegister.

Inductive body :=
| NoBody
| ZoneData (name zone_type : string) (coordinates : list Point.t)
    (stay_threshold : Z) (is_active : bool)
| StatusData (is_active : bool)
| Credentials (username password : string).

(** Callbacks handed to [setTimeout] or [nextTick]. *)
Inductive task := InitWebSocket | RefreshStream | DrawFrame | DrawVideoFrame.

(** Events a child component emits to its parent. *)
Inductive emitted := VerifySuccess | VerifyFail.

(** What a frame paints, in order. *)
Inductive paint :=
| FillBlack
| ClearRect
| StatusMessage (message color : string)
| DrawImage (w h : Z)
| ExistingZones
| CurrentDrawing
| Overlays
| FaceBoxes.

Inductive effect :=
| Notify (lvl : level) (message : string)
| Request (m : method) (url : endpoint) (data : body)
| SetTimeout (cb : task) (ms : Z)
| NextTick (cb : task)
| Navigate (path : string)
| Emit (e : emitted)
| Console (c : console)
| PreventDefault
| StorageSet (key : string)
| Paint (p : paint).

(** The requests a list of effects contains. *)
Definition requests (fx : list effect) : list effect :=
  List.filter (fun e => match e with Request _ _ _ => true | _ => false end) fx.

(** The toasts a list of effects contains. *)
Definition toasts (fx : list effect) : list effect :=
  List.filter (fun e => match e with Notify _ _ => true | _ => false end) fx.

(** The timers a list of effects registers. *)
Definition timeouts (fx : list effect) : list effect :=
  List.filter (fun e => match e with SetTimeout _ _ => true | _ => false end) fx.

(** The route changes a list of effects contains. *)
Definition navigations (fx : list effect) : list effect :=
  List.filter (fun e => match e with Navigate _ => true | _ => false end) fx.

(** A failure handled in one shot: one error toast, no timer, no route
    change, no request besides the one that failed. *)
Definition one_shot (fx : list effect) : Prop :=
  (exists message, toasts fx = [Notify LError message]) /\
  timeouts fx = [] /\
  navigations fx = [] /\
  (length (requests fx) <= 1)%nat.

(** A reply handled as a success: one success toast, no error toast. *)
Definition taken_as_success (fx : list effect) : Prop :=
  exists message, toasts fx = [Notify LSuccess message].

(** A failure that is only logged. *)
Definition silent (fx : list effect) : Prop :=
  toasts fx = [] /\
  timeouts fx = [] /\
  navigations fx = [] /\
  (length (requests fx) <= 1)%nat.

(** Outcome of an awaited promise. *)
Inductive outcome := Resolved | Rejected.

(** What comes back for a request made with axios: no response, or a
    response with its HTTP status and the [success] flag of the
    envelope in its body. The promise of the request is fulfilled for a
    status from 200 to 299 and rejected otherwise, whatever the
    envelope says. *)
Module Axios.
Inductive reply := NoResponse | Response (status : Z) (success : bool).

Definition settle (r : reply) : outcome :=
  match r with
  | NoResponse => Rejected
  | Response status _ =>
      if (200 <=? status) && (status <? 300) then Resolved else Rejected
  end.
End Axios.

(** Outcome of an awaited request that carries data. *)
Inductive response (A : Type) := Ok (a : A) | Failed.
Arguments Ok {A} a.
Arguments Failed {A}.

(** What an action hands back to its caller. *)
Inductive completion := Returned | Thrown.

(** ** The event store ([stores/events.js]) *)

Module EventStore.

(** Object references. *)
Abbreviation loc := positive.

(** An event object; [is_read] is the truthiness of the property. *)
Record Event := mkEvent { id : Z; is_read : bool; severity : string }.

Record state := mkState {
  heap : gmap positive Event;
  events : list loc;
  recentEvents : list loc;
  unreadCount : Z
}.

Definition mark (e : Event) : Event :=
  {| id := id e; is_read := true; severity := severity e |}.

Definition has_id (h : gmap positive Event) (eventId : Z) (l : loc) : bool :=
  match h !! l with
  | Some e => id e =? eventId
  | None => false
  end.

(** [arr.find(e => e.id === eventId)] *)
Definition find (h : gmap positive Event) (arr : list loc) (eventId : Z)
  : option loc :=
  List.find (has_id h eventId) arr.

(** [if (event) { event.is_read = true }] *)
Definition set_read (h : gmap positive Event) (o : option loc)
  : gmap positive Event :=
  match o with
  | Some l => alter mark l h
  | None => h
  end.

(** What an action did: the state it leaves, the effects it performed
    and whether it returned or rethrew. *)
Record result := mkResult {
  after : state;
  performed : list effect;
  how : completion
}.

Definition markEventAsRead (eventId : Z) (r : outcome) (s : state) : result :=
  let call := Request PUT (ApiEventRead eventId) NoBody in
  match r with
  | Resolved =>
      let h1 := set_read (heap s) (find (heap s) (events s) eventId) in
      let h2 := set_read h1 (find h1 (recentEvents s) eventId) in
      {| after :=
           {| heap := h2;
              events := events s;
              recentEvents := recentEvents s;
              unreadCount :=
                if 0 <? unreadCount s then unreadCount s - 1
                else unreadCount s |};
         performed := [call];
         how := Returned |}
  | Rejected =>
      {| after := s; performed := [call; Console Error]; how := Thrown |}
  end.

(** [arr.forEach(event => { event.is_read = true })] *)
Definition forEach_mark (arr : list loc) (h : gmap positive Event)
  : gmap positive Event :=
  fold_left (fun acc l => alter mark l acc) arr h.

Definition markAllAsRead (r : outcome) (s : state) : result :=
  let call := Request PUT ApiEventsMarkAllRead NoBody in
  match r with
  | Resolved =>
      let h1 := forEach_mark (events s) (heap s) in
      let h2 := forEach_mark (recentEvents s) h1 in
      {| after :=
           {| heap := h2;
              events := events s;
              recentEvents := recentEvents s;
              unreadCount := 0 |};
         performed := [call];
         how := Returned |}
  | Rejected =>
      {| after := s; performed := [call; Console Error]; how := Thrown |}
  end.

(** The pushed object is the freshly parsed payload of a WebSocket
    frame: it is allocated once and both arrays share it. *)
Definition alloc (h : gmap positive Event) : loc := fresh (dom h).

Definition addRealtimeEvent (event : Event) (s : state) : state :=
  let l := alloc (heap s) in
  let h := <[l := event]> (heap s) in
  let recent := l :: recentEvents s in
  let all := l :: events s in
  let recent :=
    if (50 <? Z.of_nat (length recent)) then take 50 recent else recent in
  {| heap := h;
     events := all;
     recentEvents := recent;
     unreadCount :=
       if negb (is_read event) then unreadCount s + 1 else unreadCount s |}.

(** The objects of a parsed response are new: each gets its own
    location. *)
Fixpoint store_all (evs : list Event) (h : gmap positive Event)
  : list loc * gmap positive Event :=
  match evs with
  | [] => ([], h)
  | e :: evs =>
      let l := alloc h in
      let (ls, h) := store_all evs (<[l := e]> h) in
      (l :: ls, h)
  end.

(** [fetchRecentEvents]: the response carries [events || []] and
    [unread_count], which may be missing. *)
Definition fetchRecentEvents (r : response (list Event * option Z)) (s : state)
  : result :=
  let call := Request GET ApiEventsRecent NoBody in
  match r with
  | Ok (evs, unread_count) =>
      let (ls, h) := store_all evs (heap s) in
      {| after :=
           {| heap := h;
              events := events s;
              recentEvents := ls;
              unreadCount := or_default unread_count 0 |};
         performed := [call];
         how := Returned |}
  | Failed =>
      {| after := s; performed := [call; Console Error]; how := Returned |}
  end.

(** Every slot of both arrays points to an object. *)
Definition wf (s : state) : Prop :=
  Forall (fun l => is_Some (heap s !! l)) (events s ++ recentEvents s).

(** The flag of the object an array slot points to. *)
Definition read_at (h : gmap positive Event) (l : loc) : option bool :=
  is_read <$> h !! l.

Definition initial : state :=
  {| heap := ∅; events := []; recentEvents := []; unreadCount := 0 |}.

#[global] Instance wf_dec (s : state) : Decision (wf s).
Proof. unfold wf. apply _. Defined.

(** A store after two pushes: an unread event, then a read one. *)
Definition sample : state :=
  addRealtimeEvent (mkEvent 2 true "low")
    (addRealtimeEvent (mkEvent 1 false "high") initial).

(** The [unreadEvents] getter:
    [state.recentEvents.filter(event => !event.is_read)]. *)
Definition unreadEvents (s : state) : list loc :=
  List.filter
    (fun l => match heap s !! l with
              | Some event => negb (is_read event)
              | None => false
              end)
    (recentEvents s).

(** What is done to the store: a realtime push, the completion of one
    of the two read requests, the completion of the recent-events
    request. *)
Inductive action :=
| Push (event : Event)
| MarkRead (eventId : Z) (r : outcome)
| MarkAll (r : outcome)
| FetchRecent (r : response (list Event * option Z)).

Definition apply (a : action) (s : state) : state :=
  match a with
  | Push event => addRealtimeEvent event s
  | MarkRead eventId r => after (markEventAsRead eventId r s)
  | MarkAll r => after (markAllAsRead r s)
  | FetchRecent r => after (fetchRecentEvents r s)
  end.

Definition run (acts : list action) (s : state) : state :=
  fold_left (fun s a => apply a s) acts s.

(** The unread count a response carries is not negative. *)
Definition sane (a : action) : Prop :=
  match a with
  | FetchRecent (Ok (_, Some unread_count)) => 0 <= unread_count
  | _ => True
  end.

(** The pushed events that are unread. *)
Definition unread_pushes (evs : list Event) : Z :=
  Z.of_nat (length (List.filter (fun e => negb (is_read e)) evs)).

Definition pushes (evs : list Event) (s : state) : state :=
  fold_left (fun s e => addRealtimeEvent e s) evs s.

(** A push, two read requests for an unknown id, a response without an
    unread count, a failed read-all request. *)
Definition sample_run : list action :=
  [Push (mkEvent 1 false "high"); MarkRead 7 Resolved; MarkRead 7 Resolved;
   FetchRecent (Ok ([mkEvent 2 false "low"], None)); MarkAll Rejected].

End EventStore.

(** ** The danger-zone editor ([views/Zones.vue]) *)

Module Zone.
Record t := mk {
  id : Z;
  name : string;
  coordinates : list Point.t;
  stay_threshold : Z;
  is_active : bool
}.
End Zone.

Module ZoneForm.
Record t := mk {
  name : string;
  stay_threshold : Z;
  is_active : bool;
  coordinates : list Point.t
}.
End ZoneForm.

Module Zones.

Record state := mkState {
  zones : list Zone.t;
  selectedZone : option Zone.t;
  loading : bool;
  submitting : bool;
  videoCanvas : option Canvas.t;
  videoStream : option Img.t;
  cameraStatus : string;
  videoError : bool;
  drawMode : bool;
  currentPoints : list Point.t;
  showZoneDialog : bool;
  editingZone : option Zone.t;
  zoneForm : ZoneForm.t;
  zoneFormRef : option (string * Z)
}.

Definition with_zones v s :=
  mkState v (selectedZone s) (loading s) (submitting s) (videoCanvas s)
    (videoStream s) (cameraStatus s) (videoError s) (drawMode s)
    (currentPoints s) (showZoneDialog s) (editingZone s) (zoneForm s)
    (zoneFormRef s).
Definition with_selectedZone v s :=
  mkState (zones s) v (loading s) (submitting s) (videoCanvas s)
    (videoStream s) (cameraStatus s) (videoError s) (drawMode s)
    (currentPoints s) (showZoneDialog s) (editingZone s) (zoneForm s)
    (zoneFormRef s).
Definition with_loading v s :=
  mkState (zones s) (selectedZone s) v (submitting s) (videoCanvas s)
    (videoStream s) (cameraStatus s) (videoError s) (drawMode s)
    (currentPoints s) (showZoneDialog s) (editingZone s) (zoneForm s)
    (zoneFormRef s).
Definition with_submitting v s :=
  mkState (zones s) (selectedZone s) (loading s) v (videoCanvas s)
    (videoStream s) (cameraStatus s) (videoError s) (drawMode s)
    (currentPoints s) (showZoneDialog s) (editingZone s) (zoneForm s)
    (zoneFormRef s).
Definition with_videoCanvas v s :=
  mkState (zones s) (selectedZone s) (loading s) (submitting s) v
    (videoStream s) (cameraStatus s) (videoError s) (drawMode s)
    (currentPoints s) (showZoneDialog s) (editingZone s) (zoneForm s)
    (zoneFormRef s).
Definition with_videoError v s :=
  mkState (zones s) (selectedZone s) (loading s) (submitting s) (videoCanvas s)
    (videoStream s) (cameraStatus s) v (drawMode s)
    (currentPoints s) (showZoneDialog s) (editingZone s) (zoneForm s)
    (zoneFormRef s).
Definition with_drawMode v s :=
  mkState (zones s) (selectedZone s) (loading s) (submitting s) (videoCanvas s)
    (videoStream s) (cameraStatus s) (videoError s) v
    (currentPoints s) (showZoneDialog s) (editingZone s) (zoneForm s)
    (zoneFormRef s).
Definition with_currentPoints v s :=
  mkState (zones s) (selectedZone s) (loading s) (submitting s) (videoCanvas s)
    (videoStream s) (cameraStatus s) (videoError s) (drawMode s)
    v (showZoneDialog s) (editingZone s) (zoneForm s) (zoneFormRef s).
Definition with_showZoneDialog v s :=
  mkState (zones s) (selectedZone s) (loading s) (submitting s) (videoCanvas s)
    (videoStream s) (cameraStatus s) (videoError s) (drawMode s)
    (currentPoints s) v (editingZone s) (zoneForm s) (zoneFormRef s).
Definition with_editingZone v s :=
  mkState (zones s) (selectedZone s) (loading s) (submitting s) (videoCanvas s)
    (videoStream s) (cameraStatus s) (videoError s) (drawMode s)
    (currentPoints s) (showZoneDialog s) v (zoneForm s) (zoneFormRef s).
Definition with_zoneForm v s :=
  mkState (zones s) (selectedZone s) (loading s) (submitting s) (videoCanvas s)
    (videoStream s) (cameraStatus s) (videoError s) (drawMode s)
    (currentPoints s) (showZoneDialog s) (editingZone s) v (zoneFormRef s).
Definition with_zoneFormRef v s :=
  mkState (zones s) (selectedZone s) (loading s) (submitting s) (videoCanvas s)
    (videoStream s) (cameraStatus s) (videoError s) (drawMode s)
    (currentPoints s) (showZoneDialog s) (editingZone s) (zoneForm s) v.

Definition with_coordinates (v : list Point.t) (f : ZoneForm.t) : ZoneForm.t :=
  ZoneForm.mk (ZoneForm.name f) (ZoneForm.stay_threshold f)
    (ZoneForm.is_active f) v.

(** The image is unusable: the ref is unset, the image has not finished
    loading, or it reports a zero natural width. *)
Definition not_ready (video : option Img.t) : bool :=
  match video with
  | None => true
  | Some v => negb (Img.complete v) || (Img.naturalWidth v =? 0)
  end.

(** [drawFrame]; [broken] tells whether [ctx.drawImage] throws. *)
Definition drawFrame (broken : bool) (s : state) : state * list effect :=
  match videoCanvas s with
  | None => (s, [])
  | Some canvas =>
      let canvas := Canvas.set_width 640 canvas in
      let canvas := Canvas.set_height 480 canvas in
      let s := with_videoCanvas (Some canvas) s in
      if negb (String.eqb (cameraStatus s) "running") then
        (s, [Paint FillBlack; Paint (StatusMessage "摄像头未启动" "#999")])
      else if videoError s then
        (s, [Paint FillBlack; Paint (StatusMessage "视频流连接失败" "#ff4444")])
      else if not_ready (videoStream s) then
        (s, [Paint FillBlack; Paint (StatusMessage "视频加载中..." "#409EFF")])
      else if broken then
        (s, [Paint FillBlack; Console Error;
             Paint (StatusMessage "视频绘制失败" "#ff4444")])
      else
        (s, [Paint FillBlack;
             Paint (DrawImage (Canvas.width canvas) (Canvas.height canvas));
             Paint ExistingZones; Paint CurrentDrawing])
  end.

(** The form of the dialog. The dialog renders its body when it is
    first shown; [zoneFormRef] is unset before. Each form item with a
    [prop] ([name] and [stay_threshold]) then records the value its
    field has: these are the values [resetFields] puts back. *)
Definition rendered (s : state) : state :=
  match zoneFormRef s with
  | Some _ => s
  | None =>
      with_zoneFormRef
        (Some (ZoneForm.name (zoneForm s), ZoneForm.stay_threshold (zoneForm s)))
        s
  end.

(** [zoneFormRef.value?.resetFields()] *)
Definition resetFields (s : state) : state :=
  match zoneFormRef s with
  | Some (name, stay_threshold) =>
      with_zoneForm
        (ZoneForm.mk name stay_threshold (ZoneForm.is_active (zoneForm s))
           (ZoneForm.coordinates (zoneForm s))) s
  | None => s
  end.

(** [handleCanvasClick]: [rect] is what [getBoundingClientRect] reports
    for the canvas. Without a canvas the first property access throws
    before anything is changed. *)
Definition handleCanvasClick (event : MouseEvent.t) (rect : Rect.t) (s : state)
  : state * list effect :=
  if negb (drawMode s) then (s, [])
  else
    match videoCanvas s with
    | None => (s, [])
    | Some canvas =>
        let x := num_sub (MouseEvent.clientX event) (Rect.left rect) in
        let y := num_sub (MouseEvent.clientY event) (Rect.top rect) in
        let scaleX := num_div (int (Canvas.width canvas)) (Rect.width rect) in
        let scaleY := num_div (int (Canvas.height canvas)) (Rect.height rect) in
        let adjustedX := num_mul x scaleX in
        let adjustedY := num_mul y scaleY in
        (with_currentPoints
           (currentPoints s ++ [Point.mk adjustedX adjustedY]) s,
         [NextTick DrawFrame])
    end.

Definition handleRightClick (s : state) : state * list effect :=
  if negb (drawMode s) || (Z.of_nat (length (currentPoints s)) <? 3) then
    (s, [PreventDefault; Notify LWarning "至少需要3个点才能完成区域绘制"])
  else
    let s := with_zoneForm (with_coordinates (currentPoints s) (zoneForm s)) s in
    let s := with_showZoneDialog true s in
    let s := with_drawMode false s in
    (rendered s, [PreventDefault]).

Definition handleVideoError (s : state) : state * list effect :=
  (with_videoError true s,
   [Console Error; Notify LError "视频流连接失败，请检查摄像头状态"]).

Definition startDrawing (s : state) : state :=
  with_selectedZone None (with_currentPoints [] (with_drawMode true s)).

Definition toggleDrawMode (s : state) : state :=
  let s := with_drawMode (negb (drawMode s)) s in
  if negb (drawMode s) then with_currentPoints [] s else s.

Definition clearDrawing (broken : bool) (s : state) : state * list effect :=
  drawFrame broken (with_currentPoints [] s).

Definition clearCoordinates (broken : bool) (s : state) : state * list effect :=
  let s := with_zoneForm (with_coordinates [] (zoneForm s)) s in
  drawFrame broken (with_currentPoints [] s).

Definition resetView (broken : bool) (s : state) : state * list effect :=
  let s := with_selectedZone None s in
  let s := with_drawMode false s in
  drawFrame broken (with_currentPoints [] s).

(** [fetchZones]: [r] is the zone list of the response, [response.data.data || []]. *)
Definition fetchZones (r : response (list Zone.t)) (s : state)
  : state * list effect :=
  let s := with_loading true s in
  match r with
  | Ok data =>
      (with_loading false (with_zones data s), [Request GET ApiZone NoBody])
  | Failed =>
      (with_loading false s,
       [Request GET ApiZone NoBody; Console Error;
        Notify LError "获取危险区域列表失败"])
  end.

Definition editZone (zone : Zone.t) (s : state) : state :=
  let s := with_editingZone (Some zone) s in
  let s :=
    with_zoneForm
      (ZoneForm.mk (Zone.name zone) (Zone.stay_threshold zone)
         (Zone.is_active zone) (Zone.coordinates zone)) s in
  let s := with_currentPoints (Zone.coordinates zone) s in
  rendered (with_showZoneDialog true s).

Definition resetZoneForm (s : state) : state :=
  let s := with_zoneForm (ZoneForm.mk "" 10 true []) s in
  let s := with_currentPoints [] s in
  let s := with_editingZone None s in
  resetFields s.

(** The message of the [catch] block of [submitZoneForm]. *)
Definition failure_message (s : state) : string :=
  match editingZone s with
  | Some _ => "更新失败"
  | None => "创建失败"
  end.

(** [submitZoneForm]: [valid] tells whether [zoneFormRef.value.validate()]
    is fulfilled (it is not when the form is invalid, and the call
    throws when there is no form yet), [r] is the outcome of the create
    or update request (fulfilled for every reply with a 2xx status: the
    handler does not read the envelope), [fetched] that of the list
    request that follows a success. *)
Definition submitZoneForm (valid : bool) (r : outcome)
    (fetched : response (list Zone.t)) (s : state) : state * list effect :=
  if negb valid then
    (with_submitting false s, [Notify LError (failure_message s)])
  else if Z.of_nat (length (ZoneForm.coordinates (zoneForm s))) <? 3 then
    (with_submitting false s, [Notify LError "请至少绘制3个顶点"])
  else
    let s := with_submitting true s in
    let zoneData :=
      ZoneData (ZoneForm.name (zoneForm s)) "polygon"
        (ZoneForm.coordinates (zoneForm s))
        (ZoneForm.stay_threshold (zoneForm s))
        (ZoneForm.is_active (zoneForm s)) in
    let call :=
      match editingZone s with
      | Some zone => Request PUT (ApiZoneId (Zone.id zone)) zoneData
      | None => Request POST ApiZone zoneData
      end in
    match r with
    | Rejected =>
        (with_submitting false s, [call; Notify LError (failure_message s)])
    | Resolved =>
        let done :=
          match editingZone s with
          | Some _ => Notify LSuccess "危险区域更新成功"
          | None => Notify LSuccess "危险区域创建成功"
          end in
        let s := with_showZoneDialog false s in
        let s := resetZoneForm s in
        let (s, fx) := fetchZones fetched s in
        (with_submitting false s, [call; done] ++ fx)
    end.

(** The number of points a request submits, if it submits a polygon. *)
Definition submitted_points (e : effect) : option nat :=
  match e with
  | Request _ _ (ZoneData _ _ coordinates _ _) => Some (length coordinates)
  | _ => None
  end.

(** The sizes of the polygons a list of effects submits. *)
Definition polygons (fx : list effect) : list nat := omap submitted_points fx.

(** A running editor: a canvas of the default size, displayed at
    320x240, over a loaded 1280x720 stream, in drawing mode with two
    points collected. *)
Definition sample : state :=
  {| zones := [];
     selectedZone := None;
     loading := false;
     submitting := false;
     videoCanvas := Some (Canvas.mk 300 150 0);
     videoStream := Some (Img.mk true 1280 720);
     cameraStatus := "running";
     videoError := false;
     drawMode := true;
     currentPoints :=
       [Point.mk (int 10) (int 10); Point.mk (int 50) (int 10)];
     showZoneDialog := false;
     editingZone := None;
     zoneForm := ZoneForm.mk "Pool" 10 true [];
     zoneFormRef := None |}.

(** The cancel button of the dialog: [showZoneDialog = false]. *)
Definition cancelDialog (s : state) : state := with_showZoneDialog false s.

(** What reaches the canvas while a polygon is drawn: clicks, each with
    the rectangle the canvas then occupies on screen, and frames. *)
Inductive input :=
| Click (event : MouseEvent.t) (rect : Rect.t)
| Tick (broken : bool).

Definition feed_one (i : input) (s : state) : state :=
  match i with
  | Click event rect => fst (handleCanvasClick event rect s)
  | Tick broken => fst (drawFrame broken s)
  end.

Definition feed (ins : list input) (s : state) : state :=
  fold_left (fun s i => feed_one i s) ins s.

(** The point a click gives on the 640x480 backing store. *)
Definition on_store (event : MouseEvent.t) (rect : Rect.t) : Point.t :=
  Point.mk
    (num_mul (num_sub (MouseEvent.clientX event) (Rect.left rect))
       (num_div (int 640) (Rect.width rect)))
    (num_mul (num_sub (MouseEvent.clientY event) (Rect.top rect))
       (num_div (int 480) (Rect.height rect))).

(** The points of the clicks among the inputs, in order. *)
Fixpoint clicked (ins : list input) : list Point.t :=
  match ins with
  | [] => []
  | Click event rect :: ins => on_store event rect :: clicked ins
  | Tick _ :: ins => clicked ins
  end.

(** The request that submits the form of [s]. *)
Definition submission (s : state) : effect :=
  let zoneData :=
    ZoneData (ZoneForm.name (zoneForm s)) "polygon"
      (ZoneForm.coordinates (zoneForm s))
      (ZoneForm.stay_threshold (zoneForm s))
      (ZoneForm.is_active (zoneForm s)) in
  match editingZone s with
  | Some zone => Request PUT (ApiZoneId (Zone.id zone)) zoneData
  | None => Request POST ApiZone zoneData
  end.

(** The canvas displayed at 320x240, with its corner at (50, 30). *)
Definition shown : Rect.t := Rect.mk (int 50) (int 30) (int 320) (int 240).

(** Three clicks on that canvas, with frames in between. *)
Definition sample_inputs : list input :=
  [Tick false;
   Click (MouseEvent.mk (int 55) (int 35)) shown; Tick false;
   Click (MouseEvent.mk (int 75) (int 35)) shown;
   Click (MouseEvent.mk (int 75) (int 55)) shown; Tick true].

(** A stored zone. *)
Definition pool : Zone.t :=
  Zone.mk 7 "Pool"
    [Point.mk (int 10) (int 10); Point.mk (int 50) (int 10);
     Point.mk (int 50) (int 50)] 10 true.

End Zones.

(** ** The face-recognition page ([FaceRecognition.vue]) *)

Module Face.
Record t := mk { is_stranger : bool; match_name : option string }.
End Face.

Module FaceRecognition.

Record state := mkState {
  videoCanvas : option Canvas.t;
  videoStream : option Img.t;
  cameraStatus : string;
  videoLoaded : bool;
  detectedFaces : list Face.t
}.

Definition with_videoCanvas v s :=
  mkState v (videoStream s) (cameraStatus s) (videoLoaded s) (detectedFaces s).
Definition with_videoLoaded v s :=
  mkState (videoCanvas s) (videoStream s) (cameraStatus s) v (detectedFaces s).

(** The conditional resize at the head of the [try] block. *)
Definition fit (video : Img.t) (canvas : Canvas.t) : Canvas.t :=
  if negb (Canvas.width canvas =? Img.naturalWidth video)
     || negb (Canvas.height canvas =? Img.naturalHeight video)
  then
    let canvas :=
      Canvas.set_width (or_default (Some (Img.naturalWidth video)) 640) canvas in
    Canvas.set_height (or_default (Some (Img.naturalHeight video)) 480) canvas
  else canvas.

(** [drawVideoFrame]; [broken] tells whether [ctx.drawImage] throws. *)
Definition drawVideoFrame (broken : bool) (s : state) : state * list effect :=
  match videoCanvas s, videoStream s with
  | Some canvas, Some video =>
      if negb (Img.complete video) || (Img.naturalWidth video =? 0) then (s, [])
      else
        let canvas := fit video canvas in
        let s := with_videoCanvas (Some canvas) s in
        if broken then (s, [Paint ClearRect; Console Error])
        else
          (with_videoLoaded true s,
           [Paint ClearRect;
            Paint (DrawImage (Canvas.width canvas) (Canvas.height canvas));
            Paint FaceBoxes])
  | _, _ => (s, [])
  end.

(** One tick of the [requestAnimationFrame] loop started on mount. *)
Definition frameUpdate (broken : bool) (s : state) : state * list effect :=
  if String.eqb (cameraStatus s) "running" then drawVideoFrame broken s
  else (s, []).

Definition handleVideoError (s : state) : state * list effect :=
  (with_videoLoaded false s, [Notify LError "视频流连接失败"]).

(** A running page: a canvas of the default size over a loaded
    1280x720 stream. *)
Definition sample : state :=
  {| videoCanvas := Some (Canvas.mk 300 150 0);
     videoStream := Some (Img.mk true 1280 720);
     cameraStatus := "running";
     videoLoaded := false;
     detectedFaces := [] |}.

(** The same page over a broken image: loading is over, the natural
    size is 0x0. *)
Definition sample_broken : state :=
  {| videoCanvas := Some (Canvas.mk 300 150 0);
     videoStream := Some (Img.mk true 0 0);
     cameraStatus := "running";
     videoLoaded := false;
     detectedFaces := [] |}.

(** The [location] of a detected face. *)
Module Box.
Record t := mk { left : number; top : number; right : number; bottom : number }.
End Box.

(** The rectangle [fillRect] gets for the background of a label. *)
Module Label.
Record t := mk { x : number; y : number; w : number; h : number }.
End Label.

(** The label background of [drawFaceBoxes]: [textWidth] is what
    [measureText] reports for the label, [canvasWidth] is
    [ctx.canvas.width]. *)
Definition textHeight : number := int 25.

Definition labelTop (location : Box.t) : number :=
  Math_max (num_sub (Box.top location) textHeight) (int 0).

Definition labelLeft (location : Box.t) : number :=
  Math_max (Box.left location) (int 0).

Definition labelRight (location : Box.t) (textWidth : number) (canvasWidth : Z)
  : number :=
  Math_min (num_add (num_add (labelLeft location) textWidth) (int 20))
    (int canvasWidth).

Definition label_box (location : Box.t) (textWidth : number) (canvasWidth : Z)
  : Label.t :=
  Label.mk (labelLeft location) (labelTop location)
    (num_sub (labelRight location textWidth canvasWidth) (labelLeft location))
    textHeight.

End FaceRecognition.

(** ** The live monitor ([LiveMonitor.vue]) *)

Module Alert.
Record t := mk { id : Z; title : string; severity : string }.
End Alert.

Module LiveMonitor.

Record state := mkState {
  videoCanvas : option Canvas.t;
  videoStream : option Img.t;
  videoStreamUrl : string;
  cameraStatus : string;
  detectedFaces : list Face.t;
  recognizedFaces : list Face.t;
  strangers : list Face.t;
  dangerZones : list Zone.t;
  dangerZoneViolations : list Z;
  realtimeAlerts : list Alert.t;
  videoErrorRetry : Z
}.

Definition with_videoCanvas v s :=
  mkState v (videoStream s) (videoStreamUrl s) (cameraStatus s)
    (detectedFaces s) (recognizedFaces s) (strangers s) (dangerZones s)
    (dangerZoneViolations s) (realtimeAlerts s) (videoErrorRetry s).
Definition with_videoStreamUrl v s :=
  mkState (videoCanvas s) (videoStream s) v (cameraStatus s)
    (detectedFaces s) (recognizedFaces s) (strangers s) (dangerZones s)
    (dangerZoneViolations s) (realtimeAlerts s) (videoErrorRetry s).
Definition with_cameraStatus v s :=
  mkState (videoCanvas s) (videoStream s) (videoStreamUrl s) v
    (detectedFaces s) (recognizedFaces s) (strangers s) (dangerZones s)
    (dangerZoneViolations s) (realtimeAlerts s) (videoErrorRetry s).
Definition with_faces d r st s :=
  mkState (videoCanvas s) (videoStream s) (videoStreamUrl s) (cameraStatus s)
    d r st (dangerZones s)
    (dangerZoneViolations s) (realtimeAlerts s) (videoErrorRetry s).
Definition with_dangerZones v s :=
  mkState (videoCanvas s) (videoStream s) (videoStreamUrl s) (cameraStatus s)
    (detectedFaces s) (recognizedFaces s) (strangers s) v
    (dangerZoneViolations s) (realtimeAlerts s) (videoErrorRetry s).
Definition with_dangerZoneViolations v s :=
  mkState (videoCanvas s) (videoStream s) (videoStreamUrl s) (cameraStatus s)
    (detectedFaces s) (recognizedFaces s) (strangers s) (dangerZones s)
    v (realtimeAlerts s) (videoErrorRetry s).
Definition with_realtimeAlerts v s :=
  mkState (videoCanvas s) (videoStream s) (videoStreamUrl s) (cameraStatus s)
    (detectedFaces s) (recognizedFaces s) (strangers s) (dangerZones s)
    (dangerZoneViolations s) v (videoErrorRetry s).
Definition with_videoErrorRetry v s :=
  mkState (videoCanvas s) (videoStream s) (videoStreamUrl s) (cameraStatus s)
    (detectedFaces s) (recognizedFaces s) (strangers s) (dangerZones s)
    (dangerZoneViolations s) (realtimeAlerts s) v.

Definition MJPEG_API : string :=
  "http://localhost:8000/api/stream/mjpeg?rtmp_url=rtmp://121.41.28.35:9090/live/obs_stream".

Definition running (s : state) : bool :=
  String.eqb (cameraStatus s) "running" && negb (String.eqb (videoStreamUrl s) "").

(** [drawVideoFrame]; [broken] tells whether [ctx.drawImage] throws. *)
Definition drawVideoFrame (broken : bool) (s : state) : state * list effect :=
  if negb (running s) then (s, [])
  else
    match videoCanvas s, videoStream s with
    | Some canvas, Some video =>
        if negb (Img.complete video) || (Img.naturalWidth video =? 0) then (s, [])
        else if Img.error video then (s, [Console Warn])
        else
          let canvas := Canvas.set_width (or_default (Img.videoWidth video) 640) canvas in
          let canvas := Canvas.set_height (or_default (Img.videoHeight video) 480) canvas in
          let s := with_videoCanvas (Some canvas) s in
          if broken then (s, [Paint ClearRect; Console Warn])
          else
            (s, [Paint ClearRect;
                 Paint (DrawImage (Canvas.width canvas) (Canvas.height canvas));
                 Paint Overlays])
    | _, _ => (s, [])
    end.

(** One tick of the [requestAnimationFrame] loop started on mount. *)
Definition frameUpdate (broken : bool) (s : state) : state * list effect :=
  if running s then drawVideoFrame broken s else (s, []).

(** [handleVideoError], the [@error] handler of the stream image. *)
Definition handleVideoError (s : state) : state * list effect :=
  if videoErrorRetry s <? 3 then
    let s := with_videoErrorRetry (videoErrorRetry s + 1) s in
    (s, [SetTimeout RefreshStream (1000 * videoErrorRetry s)])
  else (s, [Notify LError "视频流连接失败，请稍后重试"]).

Definition refreshStream (s : state) : state :=
  if String.eqb (cameraStatus s) "running" then with_videoStreamUrl MJPEG_API s
  else s.

(** [checkCameraStatus]: the response carries the camera status. *)
Definition checkCameraStatus (r : response string) (s : state)
  : state * list effect :=
  match r with
  | Ok status =>
      let s := with_cameraStatus status s in
      (with_videoStreamUrl
         (if String.eqb (cameraStatus s) "running" then MJPEG_API else "") s,
       [Request GET ApiCameraStatus NoBody])
  | Failed => (s, [Request GET ApiCameraStatus NoBody; Console Error])
  end.

(** [loadDangerZones]: [r] is [response.data.zones || []]. *)
Definition loadDangerZones (r : response (list Zone.t)) (s : state)
  : state * list effect :=
  match r with
  | Ok zones => (with_dangerZones zones s, [Request GET ApiZone NoBody])
  | Failed => (s, [Request GET ApiZone NoBody; Console Error])
  end.

(** The parsed WebSocket frame, by its [type] tag. *)
Inductive message :=
| face_detection (faces : list Face.t)
| zone_violation (violations : list Z)
| realtime_alert (data : Alert.t)
| event_alert (data : Alert.t)
| other.

(** The alert branch of [ws.onmessage]. *)
Definition push_alert (data : Alert.t) (s : state) : state :=
  let alerts := data :: realtimeAlerts s in
  let alerts :=
    if 10 <? Z.of_nat (length alerts) then take 10 alerts else alerts in
  with_realtimeAlerts alerts s.

Definition onmessage (m : message) (s : state) : state * list effect :=
  let s :=
    match m with
    | face_detection faces =>
        with_faces faces
          (List.filter (fun f => negb (Face.is_stranger f)) faces)
          (List.filter Face.is_stranger faces) s
    | zone_violation violations => with_dangerZoneViolations violations s
    | realtime_alert data | event_alert data => push_alert data s
    | other => s
    end in
  (s, [NextTick DrawVideoFrame]).

(** A running monitor whose stream has not failed yet. *)
Definition sample : state :=
  {| videoCanvas := Some (Canvas.mk 300 150 0);
     videoStream := Some (Img.mk true 1280 720);
     videoStreamUrl := MJPEG_API;
     cameraStatus := "running";
     detectedFaces := [];
     recognizedFaces := [];
     strangers := [];
     dangerZones := [];
     dangerZoneViolations := [];
     realtimeAlerts := [];
     videoErrorRetry := 0 |}.

(** A burst of [n] stream errors, one [handleVideoError] each. *)
Fixpoint stream_errors (n : nat) (s : state) : state * list effect :=
  match n with
  | O => (s, [])
  | S n =>
      let (s, fx) := handleVideoError s in
      let (s, fx') := stream_errors n s in
      (s, fx ++ fx')
  end.

(** The refreshes the handler registers on its first three errors. *)
Definition retry_plan : list effect :=
  [SetTimeout RefreshStream 1000; SetTimeout RefreshStream 2000;
   SetTimeout RefreshStream 3000].

(** The page with the two refs the camera and recording controls use. *)
Record page := mkPage {
  core : state;
  controlLoading : bool;
  isRecording : bool
}.

(** What the control handlers do: a toast or a console line, or a
    POST to a path of the video API. *)
Inductive io := Did (e : effect) | Post (path : string).

(** The reply to a camera command: the request fails, or the envelope
    [{ success, message }] arrives. *)
Inductive reply := Unreachable | Answer (success : bool) (message : string).

Definition or_message (message fallback : string) : string :=
  if String.eqb message "" then fallback else message.

Definition startCamera (r : reply) (p : page) : page * list io :=
  let call := Post "/api/video/camera/start" in
  match r with
  | Answer true _ =>
      let s := with_cameraStatus "running" (core p) in
      let s := with_videoStreamUrl MJPEG_API s in
      (mkPage s false (isRecording p),
       [call; Did (Notify LSuccess "监控已启动")])
  | Answer false message =>
      (mkPage (core p) false (isRecording p),
       [call; Did (Notify LError (or_message message "启动失败"))])
  | Unreachable =>
      (mkPage (core p) false (isRecording p),
       [call; Did (Console Error);
        Did (Notify LError "启动失败，请检查摄像头连接")])
  end.

Definition stopCamera (r : reply) (p : page) : page * list io :=
  let call := Post "/api/video/camera/stop" in
  match r with
  | Answer true _ =>
      let s := with_cameraStatus "stopped" (core p) in
      let s := with_videoStreamUrl "" s in
      (mkPage s false (isRecording p),
       [call; Did (Notify LSuccess "监控已停止")])
  | Answer false message =>
      (mkPage (core p) false (isRecording p),
       [call; Did (Notify LError (or_message message "停止失败"))])
  | Unreachable =>
      (mkPage (core p) false (isRecording p),
       [call; Did (Console Error); Did (Notify LError "停止失败")])
  end.

(** [toggleRecording]: [r] is the outcome of the request. *)
Definition toggleRecording (r : outcome) (p : page) : page * list io :=
  let call :=
    if isRecording p then Post "http://localhost:8000/api/video/stop-recording"
    else Post "http://localhost:8000/api/video/start-recording" in
  match r with
  | Resolved =>
      (mkPage (core p) (controlLoading p) (negb (isRecording p)),
       [call;
        Did (Notify LSuccess
               (if isRecording p then "录制已停止" else "录制已开始"))])
  | Rejected => (p, [call; Did (Notify LError "录制操作失败")])
  end.

(** What the user, the backend and the browser make the page do to the
    camera state. *)
Inductive control :=
| StartCamera (r : reply)
| StopCamera (r : reply)
| CheckCameraStatus (r : response string)
| Refresh
| StreamError
| Frame (m : message)
| ToggleRecording (r : outcome).

Definition operate (k : control) (p : page) : page :=
  match k with
  | StartCamera r => fst (startCamera r p)
  | StopCamera r => fst (stopCamera r p)
  | CheckCameraStatus r =>
      mkPage (fst (checkCameraStatus r (core p))) (controlLoading p) (isRecording p)
  | Refresh => mkPage (refreshStream (core p)) (controlLoading p) (isRecording p)
  | StreamError =>
      mkPage (fst (handleVideoError (core p))) (controlLoading p) (isRecording p)
  | Frame m => mkPage (fst (onmessage m (core p))) (controlLoading p) (isRecording p)
  | ToggleRecording r => fst (toggleRecording r p)
  end.

Definition operations (ks : list control) (p : page) : page :=
  fold_left (fun p k => operate k p) ks p.

(** The page as it is set up: camera stopped, no stream address. *)
Definition initial : page :=
  mkPage
    {| videoCanvas := Some (Canvas.mk 300 150 0);
       videoStream := None;
       videoStreamUrl := "";
       cameraStatus := "stopped";
       detectedFaces := [];
       recognizedFaces := [];
       strangers := [];
       dangerZones := [];
       dangerZoneViolations := [];
       realtimeAlerts := [];
       videoErrorRetry := 0 |}
    false false.

(** The stream address goes with the camera status. *)
Definition coupled (s : state) : Prop :=
  videoStreamUrl s =
  if String.eqb (cameraStatus s) "running" then MJPEG_API else "".

(** The notifications and console lines among what a control did. *)
Definition did (fx : list io) : list effect :=
  omap (fun a => match a with Did e => Some e | Post _ => None end) fx.

(** The requests among what a control did. *)
Definition posts (fx : list io) : list string :=
  omap (fun a => match a with Post path => Some path | Did _ => None end) fx.

(** A series of ticks of the animation loop; each flag tells whether
    [ctx.drawImage] throws on that tick. *)
Definition ticks (bs : list bool) (s : state) : state :=
  fold_left (fun s broken => fst (frameUpdate broken s)) bs s.

End LiveMonitor.

(** ** The realtime channel ([initWebSocket] of the application shell,
    the live monitor and the face-recognition page)

    The browser side is explicit: [live] holds the sockets that have
    been created and have not yet fired [close] (a socket fires it
    once), [timers] the pending [setTimeout] callbacks. *)

Module Realtime.

Inductive page := AppShell | LiveMonitorPage | FaceRecognitionPage.

Record channel := mkChannel {
  wsConnected : bool;
  ws : option nat;
  live : list nat;
  created : nat;
  timers : list (task * Z)
}.

Definition with_wsConnected v c :=
  mkChannel v (ws c) (live c) (created c) (timers c).

(** Only the face-recognition page keeps a connection flag. *)
Definition flag (p : page) (v : bool) (c : channel) : channel :=
  match p with
  | FaceRecognitionPage => with_wsConnected v c
  | AppShell | LiveMonitorPage => c
  end.

(** [ws = new WebSocket(wsUrl)] and the registration of its handlers. *)
Definition initWebSocket (c : channel) : channel :=
  mkChannel (wsConnected c) (Some (created c)) (created c :: live c)
    (S (created c)) (timers c).

Definition onopen (p : page) (c : channel) : channel * list effect :=
  match p with
  | LiveMonitorPage => (c, [])
  | AppShell => (c, [Console Log])
  | FaceRecognitionPage => (with_wsConnected true c, [Console Log])
  end.

Definition onclose (p : page) (c : channel) : channel * list effect :=
  match p with
  | LiveMonitorPage => (c, [SetTimeout InitWebSocket 3000])
  | AppShell => (c, [Console Log; SetTimeout InitWebSocket 3000])
  | FaceRecognitionPage =>
      (with_wsConnected false c,
       [Console Log; SetTimeout InitWebSocket 3000])
  end.

Definition onerror (p : page) (c : channel) : channel * list effect :=
  match p with
  | LiveMonitorPage => (c, [])
  | AppShell => (c, [Console Error])
  | FaceRecognitionPage => (with_wsConnected false c, [Console Error])
  end.

(** The timers a list of effects registers. *)
Fixpoint scheduled (fx : list effect) : list (task * Z) :=
  match fx with
  | [] => []
  | SetTimeout cb ms :: fx => (cb, ms) :: scheduled fx
  | _ :: fx => scheduled fx
  end.

Definition enqueue (fx : list effect) (c : channel) : channel :=
  mkChannel (wsConnected c) (ws c) (live c) (created c)
    (timers c ++ scheduled fx).

Inductive event :=
| SocketOpened (sock : nat)
| SocketError (sock : nat)
| SocketClosed (sock : nat)
| TimerFired (i : nat).

Definition is_live (sock : nat) (c : channel) : bool :=
  bool_decide (sock ∈ live c).

(** One turn of the event loop: the browser delivers [e], the handler
    runs, the timers it registers are queued. [None]: the browser cannot
    deliver [e] in this state. *)
Definition step (p : page) (e : event) (c : channel)
  : option (channel * list effect) :=
  match e with
  | SocketOpened sock =>
      if is_live sock c then Some (onopen p c) else None
  | SocketError sock =>
      if is_live sock c then Some (onerror p c) else None
  | SocketClosed sock =>
      if is_live sock c then
        let c :=
          mkChannel (wsConnected c) (ws c)
            (List.filter (fun k => negb (Nat.eqb k sock)) (live c))
            (created c) (timers c) in
        let (c, fx) := onclose p c in
        Some (enqueue fx c, fx)
      else None
  | TimerFired i =>
      match timers c !! i with
      | Some (InitWebSocket, _) =>
          let c :=
            mkChannel (wsConnected c) (ws c) (live c) (created c)
              (delete i (timers c)) in
          Some (initWebSocket c, [])
      | _ => None
      end
  end.

Fixpoint run (p : page) (es : list event) (c : channel)
  : option (channel * list effect) :=
  match es with
  | [] => Some (c, [])
  | e :: es =>
      match step p e c with
      | Some (c, fx) =>
          match run p es c with
          | Some (c, fx') => Some (c, fx ++ fx')
          | None => None
          end
      | None => None
      end
  end.

(** The channel once [onMounted] has called [initWebSocket]. *)
Definition mounted : channel :=
  initWebSocket (mkChannel false None [] 0 []).

(** One socket or one pending reconnect, never both, never two; the
    pending timer is a reconnect due after 3000 ms. *)
Definition balanced (c : channel) : Prop :=
  (exists sock, live c = [sock] /\ timers c = []) \/
  (live c = [] /\ timers c = [(InitWebSocket, 3000)]).

(** The number of close events of a run. *)
Definition closes (es : list event) : nat :=
  length (List.filter (fun e => match e with SocketClosed _ => true | _ => false end) es).

(** The [ws] variable holds the newest socket, no other socket can be
    live, and the connection flag is up only on the face-recognition
    page and only while a socket is live. *)
Definition linked (p : page) (c : channel) : Prop :=
  balanced c /\
  (0 < created c)%nat /\
  ws c = Some (Nat.pred (created c)) /\
  (forall sock, sock ∈ live c -> sock = Nat.pred (created c)) /\
  (wsConnected c = true -> p = FaceRecognitionPage /\ live c <> []).

(** The number of timers of a run that fired. *)
Definition fires (es : list event) : nat :=
  length (List.filter (fun e => match e with TimerFired _ => true | _ => false end) es).

(** [onUnmounted]: [if (ws) { ws.close() }]; the socket [close] is
    called on, if any. *)
Definition onUnmounted (c : channel) : option nat := ws c.

(** What the browser delivers after the teardown: the close event of
    the socket if it was live, then the timer that is pending. *)
Definition after_teardown (c : channel) : list event :=
  match live c with
  | sock :: _ => [SocketClosed sock; TimerFired 0]
  | [] => [TimerFired 0]
  end.

End Realtime.

(** ** The slide-to-verify control ([components/SlideVerify.vue]) *)

Module SlideVerify.

Record state := mkState {
  trackWidth : Z;
  thumbLeft : Z;
  isDragging : bool;
  isVerified : bool;
  startX : Z
}.

Definition thumbWidth : Z := 40.

Definition initial : state := mkState 300 0 false false 0.

Definition startSlide (clientX : Z) (s : state) : state :=
  if isVerified s then s
  else mkState (trackWidth s) (thumbLeft s) true (isVerified s) clientX.

Definition onSlide (clientX : Z) (s : state) : state :=
  if negb (isDragging s) then s
  else
    let deltaX := clientX - startX s in
    let newLeft := Z.max 0 (Z.min deltaX (trackWidth s - thumbWidth)) in
    mkState (trackWidth s) newLeft (isDragging s) (isVerified s) (startX s).

Definition endSlide (s : state) : state * list effect :=
  if negb (isDragging s) then (s, [])
  else
    let threshold := trackWidth s - thumbWidth - 5 in
    if threshold <=? thumbLeft s then
      (mkState (trackWidth s) (trackWidth s - thumbWidth) false true (startX s),
       [Emit VerifySuccess])
    else
      (mkState (trackWidth s) 0 false (isVerified s) (startX s),
       [Emit VerifyFail]).

Definition reset (s : state) : state :=
  mkState (trackWidth s) 0 (isDragging s) false (startX s).

(** A thumb dragged from x = 100 to x = 400 (released at the end of
    the track) and one dragged to x = 200 only. *)
Definition dragged_to_end : state := onSlide 400 (startSlide 100 initial).
Definition dragged_halfway : state := onSlide 200 (startSlide 100 initial).

(** The [progressWidth] computed property. *)
Definition progressWidth (s : state) : Z := thumbLeft s + thumbWidth.

(** What happens to the control: the three pointer handlers and the
    [reset] the parent calls. *)
Inductive gesture := Press (clientX : Z) | Move (clientX : Z) | Release | Reset.

Definition act (g : gesture) (s : state) : state :=
  match g with
  | Press clientX => startSlide clientX s
  | Move clientX => onSlide clientX s
  | Release => fst (endSlide s)
  | Reset => reset s
  end.

Definition gestures (gs : list gesture) (s : state) : state :=
  fold_left (fun s g => act g s) gs s.

(** What every gesture keeps: the track is 300 wide, the thumb is on
    it, and a verified control has its thumb at the end of the track
    and is not being dragged. *)
Definition settled (s : state) : Prop :=
  trackWidth s = 300 /\
  0 <= thumbLeft s <= 260 /\
  (isVerified s = true -> thumbLeft s = 260 /\ isDragging s = false).

End SlideVerify.

(** ** The login page ([views/Login.vue]) *)

Module LoginForm.
Record t := mk { username : string; password : string }.
End LoginForm.

Module RegisterForm.
Record t := mk { username : string; password : string; confirmPassword : string }.
End RegisterForm.

(** What [handleLogin] reads of the [data] of a reply: [token] is the
    access token of [data.token], [None] when [data.token] is missing. *)
Module LoginData.
Record t := mk { token : option string }.
End LoginData.

Module Login.

Record state := mkState {
  activeTab : string;
  loginLoading : bool;
  registerLoading : bool;
  isLoginSlideVerified : bool;
  isRegisterSlideVerified : bool;
  loginForm : LoginForm.t;
  registerForm : RegisterForm.t;
  loginSlide : SlideVerify.state;
  registerSlide : SlideVerify.state;
  registerFields : RegisterForm.t
}.

Definition with_activeTab v s :=
  mkState v (loginLoading s) (registerLoading s) (isLoginSlideVerified s)
    (isRegisterSlideVerified s) (loginForm s) (registerForm s) (loginSlide s)
    (registerSlide s) (registerFields s).
Definition with_loginLoading v s :=
  mkState (activeTab s) v (registerLoading s) (isLoginSlideVerified s)
    (isRegisterSlideVerified s) (loginForm s) (registerForm s) (loginSlide s)
    (registerSlide s) (registerFields s).
Definition with_registerLoading v s :=
  mkState (activeTab s) (loginLoading s) v (isLoginSlideVerified s)
    (isRegisterSlideVerified s) (loginForm s) (registerForm s) (loginSlide s)
    (registerSlide s) (registerFields s).
Definition with_isLoginSlideVerified v s :=
  mkState (activeTab s) (loginLoading s) (registerLoading s) v
    (isRegisterSlideVerified s) (loginForm s) (registerForm s) (loginSlide s)
    (registerSlide s) (registerFields s).
Definition with_isRegisterSlideVerified v s :=
  mkState (activeTab s) (loginLoading s) (registerLoading s)
    (isLoginSlideVerified s) v (loginForm s) (registerForm s) (loginSlide s)
    (registerSlide s) (registerFields s).
Definition with_registerForm v s :=
  mkState (activeTab s) (loginLoading s) (registerLoading s)
    (isLoginSlideVerified s) (isRegisterSlideVerified s) (loginForm s) v
    (loginSlide s) (registerSlide s) (registerFields s).
Definition with_loginSlide v s :=
  mkState (activeTab s) (loginLoading s) (registerLoading s)
    (isLoginSlideVerified s) (isRegisterSlideVerified s) (loginForm s)
    (registerForm s) v (registerSlide s) (registerFields s).
Definition with_registerSlide v s :=
  mkState (activeTab s) (loginLoading s) (registerLoading s)
    (isLoginSlideVerified s) (isRegisterSlideVerified s) (loginForm s)
    (registerForm s) (loginSlide s) v (registerFields s).
Definition with_registerFields v s :=
  mkState (activeTab s) (loginLoading s) (registerLoading s)
    (isLoginSlideVerified s) (isRegisterSlideVerified s) (loginForm s)
    (registerForm s) (loginSlide s) (registerSlide s) v.

(** The two forms sit under [v-if="activeTab === 'login'"] and
    [v-if="activeTab === 'register'"]: the refs into a form are set
    exactly while its tab is the active one. [loginSlide] is the state
    of the login slider while there is one. *)
Definition loginFormRef (s : state) : bool := String.eqb (activeTab s) "login".

Definition registerFormRef (s : state) : bool :=
  String.eqb (activeTab s) "register".

Definition loginSlideRef (s : state) : option SlideVerify.state :=
  if loginFormRef s then Some (loginSlide s) else None.

Definition registerSlideRef (s : state) : option SlideVerify.state :=
  if registerFormRef s then Some (registerSlide s) else None.

(** A click on a tab header, once the page is rendered again. When the
    tab changes, the form that appears is new: its slider is in its
    initial state, and the items of the register form record the
    values the fields then have ([registerFields]); the other form is
    gone. A click on the tab that is already shown changes nothing. *)
Definition selectTab (tab : string) (s : state) : state :=
  if String.eqb tab (activeTab s) then s
  else
    let s := with_activeTab tab s in
    if String.eqb tab "login" then with_loginSlide SlideVerify.initial s
    else if String.eqb tab "register" then
      with_registerFields (registerForm s)
        (with_registerSlide SlideVerify.initial s)
    else s.

(** The parsed reply of [fetch]: the call or the parsing of the body
    fails (or the body is no object, so that reading [success]
    throws), or the envelope [{ success, message, data }] arrives;
    [success] is the truthiness of the property, [data] is [None] when
    the envelope has none. [fetch] is fulfilled whatever the HTTP
    status. *)
Inductive reply :=
| NetworkError
| Envelope (success : bool) (message : string) (data : option LoginData.t).

(** [message || fallback] *)
Definition or_message (message fallback : string) : string :=
  if String.eqb message "" then fallback else message.

(** What a handler did after its request was answered: the state it
    leaves, the effects it performed and whether it returned or threw. *)
Record result := mkResult {
  after : state;
  performed : list effect;
  how : completion
}.

Definition handleLoginSlideSuccess (s : state) : state :=
  with_isLoginSlideVerified true s.

Definition handleRegisterSlideSuccess (s : state) : state :=
  with_isRegisterSlideVerified true s.

Definition handleSlideFail (s : state) : state * list effect :=
  (s, [Notify LWarning "请完成滑块验证"]).

(** The [catch] block of [handleLogin], entered after the effects
    [fx]: [loginSlideRef.value.reset()] throws when the ref is unset,
    before the flag is lowered. *)
Definition login_catch (fx : list effect) (s : state) : result :=
  let fx := fx ++ [Console Error; Notify LError "网络错误，请稍后重试"] in
  match loginSlideRef s with
  | Some slide =>
      let s := with_loginSlide (SlideVerify.reset slide) s in
      mkResult (with_isLoginSlideVerified false s) fx Returned
  | None => mkResult s fx Thrown
  end.

(** [handleLogin] from the reply [r] on; [s] is the page as it is when
    the reply arrives. Reading [result.data.token.access_token] throws
    when [data] or [data.token] is missing. *)
Definition handleLogin_resume (r : reply) (s : state) : result :=
  let done :=
    match r with
    | Envelope true _ (Some {| LoginData.token := Some _ |}) =>
        mkResult s
          [StorageSet "admin_token"; StorageSet "admin_info";
           Notify LSuccess "登录成功"; Navigate "/live"]
          Returned
    | Envelope true _ _ => login_catch [] s
    | Envelope false message _ =>
        let fx := [Notify LError (or_message message "登录失败")] in
        match loginSlideRef s with
        | Some slide =>
            let s := with_loginSlide (SlideVerify.reset slide) s in
            mkResult (with_isLoginSlideVerified false s) fx Returned
        | None => login_catch fx s
        end
    | NetworkError => login_catch [] s
    end in
  mkResult (with_loginLoading false (after done)) (performed done) (how done).

(** [handleLogin], answered before anything else happens on the page:
    [valid] tells whether the validation of the form is fulfilled (the
    call throws without a form, which the first [catch] turns into a
    return), [r] is the reply to the login request. *)
Definition handleLogin (valid : bool) (r : reply) (s : state)
  : state * list effect :=
  if negb (isLoginSlideVerified s) then
    (s, [Notify LWarning "请先完成滑块验证"])
  else if negb (loginFormRef s && valid) then (s, [])
  else
    let s := with_loginLoading true s in
    let call :=
      Request POST ApiAuthLogin
        (Credentials (LoginForm.username (loginForm s))
           (LoginForm.password (loginForm s))) in
    let done := handleLogin_resume r s in
    (after done, call :: performed done).

(** The [catch] block of [handleRegister]. *)
Definition register_catch (fx : list effect) (s : state) : result :=
  let fx := fx ++ [Console Error; Notify LError "网络错误，请稍后重试"] in
  match registerSlideRef s with
  | Some slide =>
      let s := with_registerSlide (SlideVerify.reset slide) s in
      mkResult (with_isRegisterSlideVerified false s) fx Returned
  | None => mkResult s fx Thrown
  end.

(** [handleRegister] from the reply on. On success the tab is set to
    "login" first; the refs still are what they were when the reply
    arrived, the page is rendered again after the handler.
    [resetFields] puts back the values the fields had when the form was
    rendered. *)
Definition handleRegister_resume (r : reply) (s : state) : result :=
  let done :=
    match r with
    | Envelope true _ _ =>
        let fx := [Notify LSuccess "注册成功，请登录"] in
        match registerSlideRef s with
        | Some slide =>
            let s := with_registerForm (registerFields s) s in
            let s := with_registerSlide (SlideVerify.reset slide) s in
            let s := with_isRegisterSlideVerified false s in
            mkResult (selectTab "login" s) fx Returned
        | None =>
            let failed := register_catch fx s in
            mkResult (selectTab "login" (after failed)) (performed failed)
              (how failed)
        end
    | Envelope false message _ =>
        let fx := [Notify LError (or_message message "注册失败")] in
        match registerSlideRef s with
        | Some slide =>
            let s := with_registerSlide (SlideVerify.reset slide) s in
            mkResult (with_isRegisterSlideVerified false s) fx Returned
        | None => register_catch fx s
        end
    | NetworkError => register_catch [] s
    end in
  mkResult (with_registerLoading false (after done)) (performed done) (how done).

(** [handleRegister], answered before anything else happens on the
    page. *)
Definition handleRegister (valid : bool) (r : reply) (s : state)
  : state * list effect :=
  if negb (isRegisterSlideVerified s) then
    (s, [Notify LWarning "请先完成滑块验证"])
  else if negb (registerFormRef s && valid) then (s, [])
  else
    let s := with_registerLoading true s in
    let call :=
      Request POST ApiAuthRegister
        (Credentials (RegisterForm.username (registerForm s))
           (RegisterForm.password (registerForm s))) in
    let done := handleRegister_resume r s in
    (after done, call :: performed done).

(** The page reacting to what a slider emits. *)
Definition on_login_slide (e : effect) (s : state) : state * list effect :=
  match e with
  | Emit VerifySuccess => (handleLoginSlideSuccess s, [])
  | Emit VerifyFail => handleSlideFail s
  | _ => (s, [])
  end.

Definition on_register_slide (e : effect) (s : state) : state * list effect :=
  match e with
  | Emit VerifySuccess => (handleRegisterSlideSuccess s, [])
  | Emit VerifyFail => handleSlideFail s
  | _ => (s, [])
  end.

(** What the user and the backend can make the page do. *)
Inductive action :=
| LoginStartSlide (clientX : Z)
| LoginOnSlide (clientX : Z)
| LoginEndSlide
| RegisterStartSlide (clientX : Z)
| RegisterOnSlide (clientX : Z)
| RegisterEndSlide
| ClickLogin (valid : bool) (r : reply)
| ClickRegister (valid : bool) (r : reply)
| SelectTab (tab : string).

Definition dispatch (on : effect -> state -> state * list effect)
    (emits : list effect) (s : state) : state * list effect :=
  fold_left
    (fun acc e => let (s', fx) := on e (fst acc) in (s', snd acc ++ fx))
    emits (s, []).

(** A gesture reaches a slider only while the slider is on the page. *)
Definition perform (a : action) (s : state) : state * list effect :=
  match a with
  | LoginStartSlide x =>
      match loginSlideRef s with
      | Some slide => (with_loginSlide (SlideVerify.startSlide x slide) s, [])
      | None => (s, [])
      end
  | LoginOnSlide x =>
      match loginSlideRef s with
      | Some slide => (with_loginSlide (SlideVerify.onSlide x slide) s, [])
      | None => (s, [])
      end
  | LoginEndSlide =>
      match loginSlideRef s with
      | Some slide =>
          let (slide, emits) := SlideVerify.endSlide slide in
          dispatch on_login_slide emits (with_loginSlide slide s)
      | None => (s, [])
      end
  | RegisterStartSlide x =>
      match registerSlideRef s with
      | Some slide =>
          (with_registerSlide (SlideVerify.startSlide x slide) s, [])
      | None => (s, [])
      end
  | RegisterOnSlide x =>
      match registerSlideRef s with
      | Some slide => (with_registerSlide (SlideVerify.onSlide x slide) s, [])
      | None => (s, [])
      end
  | RegisterEndSlide =>
      match registerSlideRef s with
      | Some slide =>
          let (slide, emits) := SlideVerify.endSlide slide in
          dispatch on_register_slide emits (with_registerSlide slide s)
      | None => (s, [])
      end
  | ClickLogin valid r => handleLogin valid r s
  | ClickRegister valid r => handleRegister valid r s
  | SelectTab tab => (selectTab tab s, [])
  end.

Definition initial : state :=
  mkState "login" false false false false (LoginForm.mk "" "")
    (RegisterForm.mk "" "" "") SlideVerify.initial SlideVerify.initial
    (RegisterForm.mk "" "" "").

Definition performs (acts : list action) (s : state) : state :=
  fold_left (fun s a => fst (perform a s)) acts s.

(** The page once both sliders have been dragged to the end, the
    register slider first; the login tab is shown. *)
Definition verified : state :=
  performs
    [SelectTab "register";
     RegisterStartSlide 100; RegisterOnSlide 400; RegisterEndSlide;
     SelectTab "login";
     LoginStartSlide 100; LoginOnSlide 400; LoginEndSlide]
    initial.

(** The same page with the register tab shown and its slider dragged
    to the end. *)
Definition verified_register : state :=
  performs
    [SelectTab "register";
     RegisterStartSlide 100; RegisterOnSlide 400; RegisterEndSlide]
    verified.

(** The local-storage writes a list of effects contains. *)
Definition stored (fx : list effect) : list effect :=
  List.filter (fun e => match e with StorageSet _ => true | _ => false end) fx.

(** The reply is an envelope with [success: true]. *)
Definition succeeded (r : reply) : bool :=
  match r with
  | Envelope true _ _ => true
  | _ => false
  end.

(** The reply logs the administrator in: [success] is true and the
    envelope carries [data.token]. *)
Definition granted (r : reply) : bool :=
  match r with
  | Envelope true _ (Some {| LoginData.token := Some _ |}) => true
  | _ => false
  end.

(** A reply that grants the login. *)
Definition welcome : reply :=
  Envelope true "" (Some (LoginData.mk (Some "token"))).

End Login.

(** ** The face registry ([views/Faces.vue]) *)

Module FaceRecord.
Record t := mk { id : Z; name : string; is_active : bool }.
Definition flip (u : t) : t := mk (id u) (name u) (negb (is_active u)).
End FaceRecord.

Module Faces.

(** The rows of the table; a row object is named by its index. *)
Abbreviation state := (list FaceRecord.t).

(** The switch of row [i] is operated: [v-model] writes the new value
    into the row, then [@change] calls [toggleUserStatus], which sends
    the request and suspends. *)
Definition change (i : nat) (faces : state) : state * list effect :=
  let faces := alter FaceRecord.flip i faces in
  match faces !! i with
  | Some user =>
      (faces,
       [Request PUT (ApiFaceStatus (FaceRecord.id user))
          (StatusData (FaceRecord.is_active user))])
  | None => (faces, [])
  end.

(** [toggleUserStatus] resumes with the outcome [r] of the request. *)
Definition toggleUserStatus (i : nat) (r : outcome) (faces : state)
  : state * list effect :=
  match r with
  | Resolved =>
      match faces !! i with
      | Some user =>
          (faces,
           [Notify LSuccess
              (if FaceRecord.is_active user then "用户已启用" else "用户已禁用")])
      | None => (faces, [])
      end
  | Rejected =>
      (alter FaceRecord.flip i faces, [Notify LError "状态更新失败"])
  end.

Definition sample : state :=
  [FaceRecord.mk 1 "Ann" true; FaceRecord.mk 2 "Bob" false].

(** The file the upload control hands to [beforeUpload]: its MIME type
    and its size in bytes. *)
Module UploadFile.
Record t := mk { type : string; size : Z }.
End UploadFile.

(** [beforeUpload]: whether the upload may start, and the toast. The
    size is an integer and the two divisions by 1024 lose nothing:
    the comparison is that of the exact quotient with 2. *)
Definition beforeUpload (file : UploadFile.t) : bool * list effect :=
  let isJPGOrPNG :=
    String.eqb (UploadFile.type file) "image/jpeg"
    || String.eqb (UploadFile.type file) "image/png" in
  let isLt2M :=
    negb (Qle_bool 2 (inject_Z (UploadFile.size file) / 1024 / 1024)) in
  if negb isJPGOrPNG then
    (false, [Notify LError "上传头像图片只能是 JPG/PNG 格式!"])
  else if negb isLt2M then
    (false, [Notify LError "上传头像图片大小不能超过 2MB!"])
  else (true, []).

(** The form of the add dialog; an [image] that is [null] or empty is
    the empty string. *)
Module AddForm.
Record t := mk {
  name : string;
  image : string;
  imageUrl : string;
  description : string
}.
End AddForm.

(** The body of the upload response; a property that is missing is the
    empty string. *)
Module UploadResponse.
Record t := mk {
  success : bool;
  message : string;
  url : string;
  file_path : string
}.
End UploadResponse.

Definition or_message (message fallback : string) : string :=
  if String.eqb message "" then fallback else message.

(** [handleUploadSuccess]; [None] is a missing response. *)
Definition handleUploadSuccess (response : option UploadResponse.t)
    (addForm : AddForm.t) : AddForm.t * list effect :=
  match response with
  | Some r =>
      if UploadResponse.success r then
        let imageUrl := UploadResponse.url r in
        (AddForm.mk (AddForm.name addForm) (UploadResponse.file_path r)
           (if String.prefix "http" imageUrl then imageUrl
            else String.append "http://localhost:8000" imageUrl)
           (AddForm.description addForm),
         [Notify LSuccess (or_message (UploadResponse.message r) "图片上传成功")])
      else
        (addForm,
         [Notify LError (or_message (UploadResponse.message r) "图片上传失败")])
  | None => (addForm, [Notify LError "图片上传失败"])
  end.

(** The filters above the table. *)
Module Filters.
Record t := mk { name : string; status : string }.
End Filters.

(** [hay.includes(needle)] *)
Definition includes (hay needle : string) : bool :=
  match String.index 0 needle hay with
  | Some _ => true
  | None => false
  end.

(** The [filteredFaces] computed property. [toLowerCase] is the
    method of the language, a function of the string: the property is
    modelled for each such function. *)
Definition filteredFaces (toLowerCase : string -> string)
    (filters : Filters.t) (faces : state) : state :=
  let filtered := faces in
  let filtered :=
    if negb (String.eqb (Filters.name filters) "") then
      List.filter
        (fun face =>
           includes (toLowerCase (FaceRecord.name face))
             (toLowerCase (Filters.name filters)))
        filtered
    else filtered in
  if negb (String.eqb (Filters.status filters) "") then
    let isActive := String.eqb (Filters.status filters) "active" in
    List.filter (fun face => Bool.eqb (FaceRecord.is_active face) isActive)
      filtered
  else filtered.

(** The [activeFaces] computed property. *)
Definition activeFaces (faces : state) : state :=
  List.filter FaceRecord.is_active faces.

(** What [toLowerCase] does to a string of ASCII characters: the
    letters A to Z are lowered. *)
Definition lower (c : Ascii.ascii) : Ascii.ascii :=
  let n := Ascii.nat_of_ascii c in
  if (65 <=? n)%nat && (n <=? 90)%nat then Ascii.ascii_of_nat (n + 32) else c.

Fixpoint ascii_toLowerCase (s : string) : string :=
  match s with
  | EmptyString => EmptyString
  | String c s => String (lower c) (ascii_toLowerCase s)
  end.

End Faces.

(** ** The router ([router/index.js]) and the shell's menu *)

Module Router.

(** [meta.title] of the route of a path; [None] where the route has no
    title or the path has no route. *)
Definition meta_title (path : string) : option string :=
  if String.eqb path "/login" then Some "管理员登录"
  else if String.eqb path "/live" then Some "实时监控"
  else if String.eqb path "/events" then Some "事件告警"
  else if String.eqb path "/face-recognition" then Some "人脸识别"
  else if String.eqb path "/zones" then Some "危险区域"
  else None.

(** The paths of the route table. *)
Definition paths : list string :=
  ["/"; "/login"; "/live"; "/events"; "/faces"; "/face-management";
   "/face-recognition"; "/zones"].

(** The [redirect] of the root route. *)
Definition resolve (path : string) : string :=
  if String.eqb path "/" then "/login" else path.

(** The browser state a navigation touches: the document title, the
    keys present in local storage, the current path. *)
Record browser := mkBrowser {
  title : string;
  storage : gset string;
  current : string
}.

Inductive verdict := Next | Blocked.

(** The [beforeEach] guard: the title to show and the verdict. *)
Definition beforeEach (to : string) (b : browser) : string * verdict :=
  match meta_title to with
  | Some t => (String.append t " - 家庭视频监控系统", Next)
  | None => (title b, Next)
  end.

(** [router.push(path)] for a path of the table. *)
Definition push (path : string) (b : browser) : browser :=
  let to := resolve path in
  match beforeEach to b with
  | (t, Next) => mkBrowser t (storage b) to
  | (t, Blocked) => mkBrowser t (storage b) (current b)
  end.

(** The browser after the effects of a handler: storage writes and
    navigations. *)
Definition perform (fx : list effect) (b : browser) : browser :=
  fold_left
    (fun b e =>
       match e with
       | StorageSet key => mkBrowser (title b) ({[ key ]} ∪ storage b) (current b)
       | Navigate path => push path b
       | _ => b
       end)
    fx b.

(** [handleMenuSelect] of the shell. *)
Definition handleMenuSelect (index : string) (b : browser) : browser :=
  if String.eqb index "/logout" then
    push "/login"
      (mkBrowser (title b)
         (storage b ∖ {[ "admin_token" ]} ∖ {[ "admin_info" ]}) (current b))
  else b.

End Router.

(** ** The events page ([views/Events.vue]) calling the store *)

Module EventsPage.

Definition markAsRead (eventId : Z) (r : outcome) (s : EventStore.state)
  : EventStore.state * list effect :=
  let done := EventStore.markEventAsRead eventId r s in
  (EventStore.after done,
   EventStore.performed done ++
   match EventStore.how done with
   | Returned => [Notify LSuccess "标记已读成功"]
   | Thrown => [Notify LError "标记已读失败"]
   end).

Definition markAllAsRead (r : outcome) (s : EventStore.state)
  : EventStore.state * list effect :=
  let done := EventStore.markAllAsRead r s in
  (EventStore.after done,
   EventStore.performed done ++
   match EventStore.how done with
   | Returned => [Notify LSuccess "全部标记已读成功"]
   | Thrown => [Notify LError "批量标记失败"]
   end).

End EventsPage.

(** ** The system store ([stores/system.js]) *)

Module SystemStatus.
Record t := mk {
  overall_status : string;
  video_service : string;
  ai_service : string;
  database : string;
  last_update : string
}.
End SystemStatus.

(** The payload of a [system_status] frame: the properties it carries. *)
Module StatusPatch.
Record t := mk {
  overall_status : option string;
  video_service : option string;
  ai_service : option string;
  database : option string;
  last_update : option string
}.
Definition empty : t := mk None None None None None.
End StatusPatch.

Module SystemStore.

Record state := mkState {
  systemStatus : SystemStatus.t;
  loading : bool;
  error : option string
}.

(** Outcome of the status request: the body of the response, or the
    message of the error. *)
Inductive fetched := Body (data : SystemStatus.t) | Broke (message : string).

Definition with_overall_status (v : string) (t : SystemStatus.t) : SystemStatus.t :=
  SystemStatus.mk v (SystemStatus.video_service t) (SystemStatus.ai_service t)
    (SystemStatus.database t) (SystemStatus.last_update t).

Definition fetchSystemStatus (r : fetched) (s : state) : state * list effect :=
  let s := mkState (systemStatus s) true None in
  match r with
  | Body data => (mkState data false (error s), [])
  | Broke message =>
      (mkState (with_overall_status "error" (systemStatus s)) false (Some message),
       [Console Error])
  end.

(** One property of [{ ...old, ...new }]. *)
Definition spread (old : string) (new : option string) : string :=
  match new with
  | Some v => v
  | None => old
  end.

Definition merge (old : SystemStatus.t) (new : StatusPatch.t) : SystemStatus.t :=
  SystemStatus.mk
    (spread (SystemStatus.overall_status old) (StatusPatch.overall_status new))
    (spread (SystemStatus.video_service old) (StatusPatch.video_service new))
    (spread (SystemStatus.ai_service old) (StatusPatch.ai_service new))
    (spread (SystemStatus.database old) (StatusPatch.database new))
    (spread (SystemStatus.last_update old) (StatusPatch.last_update new)).

Definition updateSystemStatus (newStatus : StatusPatch.t) (s : state) : state :=
  mkState (merge (systemStatus s) newStatus) (loading s) (error s).

Definition clearError (s : state) : state :=
  mkState (systemStatus s) (loading s) None.

Definition isSystemHealthy (s : state) : bool :=
  String.eqb (SystemStatus.overall_status (systemStatus s)) "healthy".

Definition hasError (s : state) : bool :=
  match error s with
  | Some _ => true
  | None => false
  end.

(** The patch that carries what [q] carries, and else what [p] carries. *)
Definition over (q p : StatusPatch.t) : StatusPatch.t :=
  let pick (a b : option string) :=
    match a with Some _ => a | None => b end in
  StatusPatch.mk
    (pick (StatusPatch.overall_status q) (StatusPatch.overall_status p))
    (pick (StatusPatch.video_service q) (StatusPatch.video_service p))
    (pick (StatusPatch.ai_service q) (StatusPatch.ai_service p))
    (pick (StatusPatch.database q) (StatusPatch.database p))
    (pick (StatusPatch.last_update q) (StatusPatch.last_update p)).

(** What happens to the store between two status requests: the error
    is cleared, or a status frame is merged in. *)
Inductive action := ClearError | Update (newStatus : StatusPatch.t).

Definition apply (a : action) (s : state) : state :=
  match a with
  | ClearError => clearError s
  | Update newStatus => updateSystemStatus newStatus s
  end.

Definition run (acts : list action) (s : state) : state :=
  fold_left (fun s a => apply a s) acts s.

(** The action carries no overall status. *)
Definition quiet (a : action) : Prop :=
  match a with
  | ClearError => True
  | Update newStatus => StatusPatch.overall_status newStatus = None
  end.

Definition sample : state :=
  mkState (SystemStatus.mk "healthy" "running" "running" "connected" "t0")
    false None.

End SystemStore.

(** ** The application shell ([App.vue]) *)

Module AppShell.

(** The two stores the shell feeds. *)
Record state := mkState {
  eventStore : EventStore.state;
  systemStore : SystemStore.state
}.

(** The parsed WebSocket frame, by its [type] tag. *)
Inductive message :=
| event_alert (data : EventStore.Event)
| system_status (data : StatusPatch.t)
| other.

Definition onmessage (m : message) (s : state) : state :=
  match m with
  | event_alert data =>
      mkState (EventStore.addRealtimeEvent data (eventStore s)) (systemStore s)
  | system_status data =>
      mkState (eventStore s) (SystemStore.updateSystemStatus data (systemStore s))
  | other => s
  end.

(** The badge of the header: [eventStore.unreadCount]. *)
Definition unreadEvents (s : state) : Z := EventStore.unreadCount (eventStore s).

Definition receive (ms : list message) (s : state) : state :=
  fold_left (fun s m => onmessage m s) ms s.

(** The unread event alerts among the frames. *)
Definition unread_alerts (ms : list message) : Z :=
  Z.of_nat
    (length
       (List.filter
          (fun m => match m with
                    | event_alert data => negb (EventStore.is_read data)
                    | _ => false
                    end) ms)).

End AppShell.
(* ===================================================================== *)
(** * Properties *)

(** ** JavaScript numbers *)

Section NumberFacts.

Lemma int_1 : int 1 = S754_finite false 4503599627370496 (-52).
Proof. reflexivity. Qed.

(** A finite number other than zero divided by itself is 1: the
    quotient of the mantissas is exact. *)
Lemma num_div_self (a : number) : is_finite a -> num_div a a = int 1.
Proof.
  destruct a as [s|s| |s m e]; try contradiction. intros _.
  rewrite int_1. unfold num_div, SFdiv, SFdiv_core_binary.
  rewrite !Z.sub_diag.
  change (Z.min (fexp 53 1024 0) 0) with (-53).
  change (0 - -53) with 53.
  cbv beta iota zeta.
  rewrite Z.shiftl_mul_pow2 by lia.
  assert (H : Z.div_eucl (Z.pos m * 2 ^ 53) (Z.pos m) = (2 ^ 53, 0)).
  { generalize (Z.div_eucl_eq (Z.pos m * 2 ^ 53) (Z.pos m) ltac:(lia)).
    generalize (Z.mod_pos_bound (Z.pos m * 2 ^ 53) (Z.pos m) ltac:(lia)).
    unfold Z.modulo, Z.div.
    destruct (Z.div_eucl _ _) as [q r]. intros Hr Hq.
    assert (r = 0).
    { assert (Z.pos m * (2 ^ 53 - q) = r) by lia.
      assert (2 ^ 53 - q = 0 \/ 2 ^ 53 - q >= 1 \/ 2 ^ 53 - q <= -1) by lia.
      nia. }
    subst r. f_equal. nia. }
  rewrite H.
  assert (Hl : new_location (Z.pos m) 0 = loc_Exact).
  { unfold new_location. by destruct (Z.even (Z.pos m)). }
  rewrite Hl. by destruct s.
Qed.

(** Multiplying by 1 changes no number: the product of the mantissas
    is the mantissa shifted by 52 bits, which the rounding shifts
    back without loss. *)
Lemma num_mul_one (a : number) : is_double a -> num_mul a (int 1) = a.
Proof.
  rewrite int_1.
  destruct a as [s|s| |s m e]; try (intros _; try destruct s; reflexivity).
  unfold is_double, valid_binary, bounded, canonical_mantissa.
  intros H. apply andb_true_iff in H as [Hc He].
  apply Z.eqb_eq in Hc. apply Z.leb_le in He.
  unfold num_mul, SFmul.
  rewrite Pos.mul_comm. cbv [Pos.mul].
  unfold binary_round_aux, shr_fexp.
  cbn [Zdigits2 digits2_pos shr_record_of_loc].
  match goal with
  | |- context [fexp 53 1024 ?a] =>
      replace a with (Z.pos (digits2_pos m) + e) by lia
  end.
  rewrite Hc. replace (e - (e + -52)) with 52 by lia.
  cbn [shr SpecFloat.iter_pos shr_1 shr_m shr_r shr_s loc_of_shr_record orb
       round_nearest_even Zdigits2].
  replace (e + -52 + 52) with e by lia.
  rewrite Hc, Z.sub_diag. cbn [shr shr_m].
  rewrite (proj2 (Z.leb_le _ _) He). by destruct s.
Qed.

(** A division by zero gives an infinity or [NaN], and so does a
    product with the quotient. *)
Lemma num_mul_div_zero (x a : number) (sgn : bool) :
  let p := num_mul x (num_div a (S754_zero sgn)) in
  p = S754_nan \/ exists s, p = S754_infinity s.
Proof.
  destruct a as [sa|sa| |sa ma ea], x as [sx|sx| |sx mx ex]; simpl; eauto.
Qed.

Lemma SFcompare_refl (a : number) : a <> S754_nan -> SFcompare a a = Some Eq.
Proof.
  destruct a as [s|s| |s m e]; intros Ha; try done.
  - by destruct s.
  - simpl. rewrite Z.compare_refl.
    change (Pos.compare_cont Eq m m) with (m ?= m)%positive.
    rewrite Pos.compare_refl. by destruct s.
Qed.

(** [Math.max(a, 0)] is [NaN] or at least 0. *)
Lemma Math_max_zero (a : number) :
  Math_max a (int 0) = S754_nan \/ num_le (int 0) (Math_max a (int 0)) = true.
Proof. destruct a as [[]|[]| |[] m e]; simpl; auto. Qed.

(** [Math.min(a, b)] is [NaN] or at most [b]. *)
Lemma Math_min_right (a b : number) :
  Math_min a b = S754_nan \/ num_le (Math_min a b) b = true.
Proof.
  unfold Math_min, num_le, SFleb.
  destruct (SFcompare a b) as [[]|] eqn:E; [| | |by left]; right.
  - assert (Hb : SFcompare b b = Some Eq).
    { apply SFcompare_refl. intros ->. by destruct a. }
    destruct a as [[]|[]| |[] m e]; by rewrite ?E, ?Hb.
  - by rewrite E.
  - rewrite SFcompare_refl; [done|]. intros ->. by destruct a.
Qed.

(** The comparison orders the numbers that are not [NaN]: below or
    equal, then strictly below, gives strictly below. *)
Lemma num_le_lt_trans (a b c : number) :
  num_le a b = true -> num_lt b c = true -> num_lt a c = true.
Proof.
  unfold num_le, num_lt, SFleb, SFltb.
  destruct a as [sa|sa| |sa ma ea], b as [sb|sb| |sb mb eb],
    c as [sc|sc| |sc mc ec];
    repeat match goal with s : bool |- _ => destruct s end;
    simpl; try congruence;
    change (Pos.compare_cont Eq ma mb) with (ma ?= mb)%positive;
    change (Pos.compare_cont Eq mb mc) with (mb ?= mc)%positive;
    change (Pos.compare_cont Eq ma mc) with (ma ?= mc)%positive;
    destruct (Z.compare_spec ea eb), (Z.compare_spec eb ec),
      (Z.compare_spec ea ec); simpl; try congruence; try lia;
    destruct (Pos.compare_spec ma mb), (Pos.compare_spec mb mc),
      (Pos.compare_spec ma mc); simpl; try congruence; lia.
Qed.

(** A number above 0 is its own maximum with 0. *)
Lemma Math_max_positive (a : number) :
  num_lt (int 0) a = true -> Math_max a (int 0) = a.
Proof.
  unfold num_lt, SFltb, Math_max.
  destruct a as [[]|[]| |[] m e]; simpl; congruence.
Qed.

End NumberFacts.


(** ** The event store *)

Section EventStoreFacts.
Import EventStore.

Lemma mark_read (e : Event) : is_read (mark e) = true.
Proof. reflexivity. Qed.

Lemma mark_id (e : Event) : id (mark e) = id e.
Proof. reflexivity. Qed.

Lemma mark_fixes_read (e : Event) : is_read e = true -> mark e = e.
Proof. destruct e as [i r sv]; simpl; intros ->; reflexivity. Qed.

(** [forEach] marks exactly the objects the array points to. *)
Lemma forEach_mark_lookup (arr : list loc) (h : gmap positive Event) (l : loc) :
  forEach_mark arr h !! l =
  (if bool_decide (l ∈ arr) then mark else (fun e => e)) <$> h !! l.
Proof.
  revert h. induction arr as [|a arr IH]; intros h.
  - case_bool_decide as Hin; [by apply elem_of_nil in Hin|].
    simpl. by destruct (h !! l).
  - change (forEach_mark (a :: arr) h) with (forEach_mark arr (alter mark a h)).
    rewrite IH, lookup_alter.
    destruct (decide (a = l)) as [Hal|Hal].
    + subst a. rewrite (bool_decide_eq_true_2 (l ∈ l :: arr)) by set_solver.
      destruct (h !! l) as [e|]; simpl; [|done].
      by case_bool_decide.
    + rewrite (bool_decide_ext (l ∈ a :: arr) (l ∈ arr)); [done|].
      rewrite elem_of_cons. split; [intros [Heq|Hin]|]; auto. by destruct Hal.
Qed.

Lemma forEach_mark_read_at (arr : list loc) (h : gmap positive Event) (l : loc) :
  read_at h l = Some true -> read_at (forEach_mark arr h) l = Some true.
Proof.
  unfold read_at. rewrite forEach_mark_lookup.
  destruct (h !! l) as [e|]; simpl; [|done].
  intros [= Hr]. by case_bool_decide; simpl; rewrite ?Hr.
Qed.

Lemma forEach_mark_marks (arr : list loc) (h : gmap positive Event) (l : loc) :
  l ∈ arr -> is_Some (h !! l) -> read_at (forEach_mark arr h) l = Some true.
Proof.
  intros Hin [e He]. unfold read_at. rewrite forEach_mark_lookup, He.
  by rewrite bool_decide_eq_true_2.
Qed.

(** [find] only returns a slot whose object carries the id. *)
Lemma find_Some (h : gmap positive Event) (arr : list loc) (eventId : Z) (l : loc) :
  find h arr eventId = Some l ->
  l ∈ arr /\ exists e, h !! l = Some e /\ id e = eventId.
Proof.
  unfold find. intros H. apply find_some in H as [Hin Hid].
  split; [by apply list_elem_of_In|].
  unfold has_id in Hid. destruct (h !! l) as [e|]; [|done].
  exists e. split; [done|]. by apply Z.eqb_eq.
Qed.

(** Marking an object that is already read changes nothing. *)
Lemma set_read_already (h : gmap positive Event) (arr : list loc) (eventId : Z) :
  (forall l e, h !! l = Some e -> id e = eventId -> is_read e = true) ->
  set_read h (find h arr eventId) = h.
Proof.
  intros Hread. destruct (find h arr eventId) as [l|] eqn:Hf; [|done].
  apply find_Some in Hf as (_ & e & He & Hid). simpl.
  apply map_eq. intros k. rewrite lookup_alter.
  case_decide as Hk; [|done]. subst k.
  rewrite He. simpl. f_equal. apply mark_fixes_read. eauto.
Qed.

Lemma alloc_fresh (h : gmap positive Event) : h !! alloc h = None.
Proof. apply not_elem_of_dom. unfold alloc. apply is_fresh. Qed.

(** The three mutations keep the unread count non-negative. *)
Lemma unreadCount_nonneg_markEventAsRead (eventId : Z) (r : outcome) (s : state) :
  0 <= unreadCount s -> 0 <= unreadCount (after (markEventAsRead eventId r s)).
Proof. destruct r; simpl; [|done]. destruct (0 <? unreadCount s) eqn:E; lia. Qed.

Lemma unreadCount_nonneg_markAllAsRead (r : outcome) (s : state) :
  0 <= unreadCount s -> 0 <= unreadCount (after (markAllAsRead r s)).
Proof. destruct r; simpl; [lia|done]. Qed.

Lemma unreadCount_nonneg_addRealtimeEvent (event : Event) (s : state) :
  0 <= unreadCount s -> 0 <= unreadCount (addRealtimeEvent event s).
Proof. unfold addRealtimeEvent. simpl. destruct (is_read event); simpl; lia. Qed.

(** Pushing an event keeps every slot pointing to an object. *)
Lemma wf_addRealtimeEvent (event : Event) (s : state) :
  wf s -> wf (addRealtimeEvent event s).
Proof.
  unfold wf. rewrite !Forall_forall. intros Hwf l Hin.
  unfold addRealtimeEvent in *. cbn [heap events recentEvents] in *.
  apply elem_of_app in Hin. rewrite lookup_insert.
  case_decide as Hl; [by eexists|].
  assert (Hcons : forall arr : list loc, l ∈ alloc (heap s) :: arr -> l ∈ arr).
  { intros arr Harr. apply elem_of_cons in Harr as [Heq|Harr]; [|done].
    by destruct Hl. }
  apply Hwf, elem_of_app. destruct Hin as [Hin|Hin].
  - left. by apply Hcons.
  - right. apply Hcons. destruct (50 <? _) in Hin; [|done].
    apply elem_of_take in Hin as (i & Hi & _).
    by apply list_elem_of_lookup_2 in Hi.
Qed.

Lemma set_read_is_Some (h : gmap positive Event) (o : option loc) (l : loc) :
  is_Some (h !! l) -> is_Some (set_read h o !! l).
Proof.
  intros [e He]. destruct o as [k|]; simpl; [|by eexists].
  rewrite lookup_alter. case_decide as Hk; [subst k|]; rewrite He; by eexists.
Qed.

Lemma forEach_mark_is_Some (arr : list loc) (h : gmap positive Event) (l : loc) :
  is_Some (h !! l) -> is_Some (forEach_mark arr h !! l).
Proof. intros [e He]. rewrite forEach_mark_lookup, He. by eexists. Qed.

Lemma wf_markEventAsRead (eventId : Z) (r : outcome) (s : state) :
  wf s -> wf (after (markEventAsRead eventId r s)).
Proof.
  destruct r; [|done]. unfold wf. simpl. intros Hwf.
  eapply Forall_impl; [exact Hwf|].
  intros l Hl. by do 2 apply set_read_is_Some.
Qed.

Lemma wf_markAllAsRead (r : outcome) (s : state) :
  wf s -> wf (after (markAllAsRead r s)).
Proof.
  destruct r; [|done]. unfold wf. simpl. intros Hwf.
  eapply Forall_impl; [exact Hwf|].
  intros l Hl. by do 2 apply forEach_mark_is_Some.
Qed.

(** Storing the objects of a response keeps the old objects and returns
    slots that point to objects. *)
Lemma store_all_is_Some (evs : list Event) :
  forall (h h' : gmap positive Event) (ls : list loc),
    store_all evs h = (ls, h') ->
    Forall (fun l => is_Some (h' !! l)) ls /\
    (forall l, is_Some (h !! l) -> is_Some (h' !! l)).
Proof.
  induction evs as [|e evs IH]; intros h h' ls Hst; simpl in Hst.
  - injection Hst as <- <-. by split.
  - destruct (store_all evs (<[alloc h := e]> h)) as [ls0 h0] eqn:Hrest.
    injection Hst as <- <-.
    destruct (IH _ _ _ Hrest) as [Hls Hkeep]. split.
    + constructor; [|done]. apply Hkeep. rewrite lookup_insert_eq. by eexists.
    + intros l Hl. apply Hkeep. rewrite lookup_insert.
      case_decide; [by eexists|done].
Qed.

Lemma wf_fetchRecentEvents (r : response (list Event * option Z)) (s : state) :
  wf s -> wf (after (fetchRecentEvents r s)).
Proof.
  destruct r as [[evs unread]|]; [|done]. unfold wf, fetchRecentEvents.
  destruct (store_all evs (heap s)) as [ls h] eqn:Hst. simpl.
  destruct (store_all_is_Some evs _ _ _ Hst) as [Hls Hkeep].
  rewrite !Forall_app. intros [Hev _]. split; [|done].
  eapply Forall_impl; [exact Hev|]. intros l. apply Hkeep.
Qed.

(** C6: when the read request succeeds, marking one event as read takes
    exactly one off a positive unread count and leaves a count of zero
    at zero, so the count never turns negative; marking all events as
    read sets the count to zero and leaves every object of the events
    array and of the recent-events array flagged as read, the arrays
    themselves unchanged. When the request fails, either action leaves
    the store as it was. *)
Theorem mark_read_updates_unread_count_and_flags :
  forall (s : state) (eventId : Z),
    0 <= unreadCount s ->
    wf s ->
    let one := after (markEventAsRead eventId Resolved s) in
    let all := after (markAllAsRead Resolved s) in
    unreadCount one = Z.max 0 (unreadCount s - 1) /\
    0 <= unreadCount one /\
    unreadCount all = 0 /\
    events all = events s /\
    recentEvents all = recentEvents s /\
    Forall (fun l => read_at (heap all) l = Some true) (events all) /\
    Forall (fun l => read_at (heap all) l = Some true) (recentEvents all) /\
    after (markEventAsRead eventId Rejected s) = s /\
    after (markAllAsRead Rejected s) = s.
Proof.
  intros s eventId Hpos Hwf one all. subst one all. simpl.
  unfold wf in Hwf. rewrite Forall_app in Hwf. destruct Hwf as [Hev Hrec].
  repeat split.
  - destruct (0 <? unreadCount s) eqn:E; lia.
  - destruct (0 <? unreadCount s) eqn:E; lia.
  - rewrite Forall_forall in *. intros l Hin.
    apply forEach_mark_read_at, forEach_mark_marks; auto.
  - rewrite Forall_forall in *. intros l Hin.
    apply forEach_mark_marks; [done|].
    destruct (Hrec l Hin) as [e He].
    rewrite forEach_mark_lookup, He. by eexists.
Qed.

Lemma mark_read_updates_unread_count_and_flags_witness :
  let s := sample in
  (0 <= unreadCount s /\ wf s) /\
  unreadCount (after (markEventAsRead 1 Resolved s)) = 0 /\
  unreadCount (after (markAllAsRead Resolved s)) = 0 /\
  Forall (fun l => read_at (heap (after (markAllAsRead Resolved s))) l = Some true)
    (recentEvents s).
Proof.
  assert (Hpos : 0 <= unreadCount sample) by (vm_compute; discriminate).
  assert (Hwf : wf sample) by (apply (bool_decide_unpack _); vm_compute; exact I).
  destruct (mark_read_updates_unread_count_and_flags sample 1 Hpos Hwf)
    as (H1 & _ & H3 & _ & H5 & _ & H7 & _).
  rewrite H5 in H7. cbv zeta. repeat split; assumption.
Defined.

(** C8 (store half and monitor half): [addRealtimeEvent] puts the new
    object at the front of both arrays, keeps at most 50 entries in the
    recent-events array (the new one followed by the 49 most recent old
    ones) and adds one to the unread count exactly when the event's read
    flag is false; an alert message puts the alert at the front of the
    live monitor's list and keeps at most 10 entries. *)
Theorem realtime_lists_are_bounded_newest_first :
  forall (event : Event) (s : state) (data : Alert.t) (m : LiveMonitor.state),
    let s' := addRealtimeEvent event s in
    let pushed := alloc (heap s) in
    (length (recentEvents s') <= 50)%nat /\
    recentEvents s' = pushed :: take 49 (recentEvents s) /\
    events s' = pushed :: events s /\
    heap s' !! pushed = Some event /\
    heap s !! pushed = None /\
    unreadCount s' =
      (if is_read event then unreadCount s else unreadCount s + 1) /\
    Forall
      (fun msg =>
         let m' := fst (LiveMonitor.onmessage msg m) in
         (length (LiveMonitor.realtimeAlerts m') <= 10)%nat /\
         LiveMonitor.realtimeAlerts m' =
           data :: take 9 (LiveMonitor.realtimeAlerts m))
      [LiveMonitor.realtime_alert data; LiveMonitor.event_alert data].
Proof.
  intros event s data m s' pushed. subst s' pushed.
  unfold addRealtimeEvent. simpl.
  assert (Hcut : forall (A : Type) (n : nat) (x : A) (l : list A),
    let r := if Z.of_nat (S n) <? Z.of_nat (length (x :: l))
             then take (S n) (x :: l) else x :: l in
    (length r <= S n)%nat /\ r = x :: take n l).
  { intros A n x l. simpl. destruct (Z.of_nat (S n) <? _) eqn:E.
    - split; [|done]. simpl. rewrite length_take. lia.
    - apply Z.ltb_ge in E. simpl in E. split; [simpl; lia|].
      rewrite take_ge by lia. done. }
  destruct (Hcut loc 49%nat (alloc (heap s)) (recentEvents s)) as [H1 H2].
  pose proof (Hcut Alert.t 9%nat data (LiveMonitor.realtimeAlerts m)) as Halerts.
  split; [exact H1|]. split; [exact H2|]. split; [reflexivity|].
  split; [by rewrite lookup_insert_eq|]. split; [apply alloc_fresh|].
  split; [by destruct (is_read event)|].
  constructor; [exact Halerts|]. constructor; [exact Halerts|]. constructor.
Qed.

(** C10: when the read request succeeds and the unread count is
    positive, [markEventAsRead] takes one off the count although the id
    is in neither array, or although every object carrying the id is
    already read; in both cases nothing else changes. *)
Theorem markEventAsRead_decrements_without_a_match :
  forall (s : state) (eventId : Z),
    0 < unreadCount s ->
    (find (heap s) (events s) eventId = None /\
     find (heap s) (recentEvents s) eventId = None) \/
    (forall l e, heap s !! l = Some e -> id e = eventId -> is_read e = true) ->
    after (markEventAsRead eventId Resolved s) =
    {| heap := heap s;
       events := events s;
       recentEvents := recentEvents s;
       unreadCount := unreadCount s - 1 |}.
Proof.
  intros s eventId Hpos Hcase. simpl.
  apply Z.ltb_lt in Hpos. rewrite Hpos.
  destruct Hcase as [[H1 H2] | Hread].
  - rewrite H1. simpl. rewrite H2. reflexivity.
  - rewrite (set_read_already _ _ _ Hread).
    rewrite (set_read_already _ _ _ Hread). reflexivity.
Qed.

Lemma markEventAsRead_decrements_without_a_match_witness :
  unreadCount sample = 1 /\
  find (heap sample) (events sample) 99 = None /\
  unreadCount (after (markEventAsRead 99 Resolved sample)) = 0.
Proof.
  split; [reflexivity|]. split; [reflexivity|].
  rewrite (markEventAsRead_decrements_without_a_match sample 99).
  - reflexivity.
  - vm_compute. reflexivity.
  - left. split; vm_compute; reflexivity.
Defined.

End EventStoreFacts.

(** ** The canvas: backing-store size and click coordinates *)

Section CanvasFacts.

Lemma or_default_nonzero (n d : Z) : n <> 0 -> or_default (Some n) d = n.
Proof. intros Hn. unfold or_default. by rewrite (proj2 (Z.eqb_neq n 0) Hn). Qed.

(** The conditional resize of the face-recognition page fits the canvas
    to an image of non-zero size, and assigns nothing when it fits. *)
Lemma fit_sized (video : Img.t) (canvas : Canvas.t) :
  Img.naturalWidth video <> 0 -> Img.naturalHeight video <> 0 ->
  sized_to video (FaceRecognition.fit video canvas).
Proof.
  intros Hw Hh. unfold FaceRecognition.fit, sized_to.
  destruct (Canvas.width canvas =? Img.naturalWidth video) eqn:Ew;
    destruct (Canvas.height canvas =? Img.naturalHeight video) eqn:Eh;
    cbn [negb orb Canvas.width Canvas.height Canvas.set_width Canvas.set_height];
    rewrite ?or_default_nonzero by done; try done.
  by apply Z.eqb_eq in Ew, Eh.
Qed.

Lemma fit_unchanged (video : Img.t) (canvas : Canvas.t) :
  sized_to video canvas -> FaceRecognition.fit video canvas = canvas.
Proof.
  intros [Hw Hh]. unfold FaceRecognition.fit.
  by rewrite (proj2 (Z.eqb_eq _ _) Hw), (proj2 (Z.eqb_eq _ _) Hh).
Qed.

Lemma fit_resets (video : Img.t) (canvas : Canvas.t) :
  ~ sized_to video canvas ->
  Canvas.resets (FaceRecognition.fit video canvas) = S (S (Canvas.resets canvas)).
Proof.
  intros Hn. unfold FaceRecognition.fit, sized_to in *.
  destruct (Canvas.width canvas =? Img.naturalWidth video) eqn:Ew;
    destruct (Canvas.height canvas =? Img.naturalHeight video) eqn:Eh;
    simpl; try done.
  apply Z.eqb_eq in Ew, Eh. by destruct Hn.
Qed.

(** On every tick that draws, the live monitor assigns the size it
    reads from [videoWidth] and [videoHeight], which an image element
    does not have: the canvas gets the fallback size. *)
Lemma live_monitor_canvas_size (broken : bool) (m : LiveMonitor.state)
    (c : Canvas.t) (video : Img.t) :
  LiveMonitor.running m = true ->
  LiveMonitor.videoCanvas m = Some c ->
  LiveMonitor.videoStream m = Some video ->
  Img.complete video = true ->
  Img.naturalWidth video <> 0 ->
  LiveMonitor.videoCanvas (fst (LiveMonitor.frameUpdate broken m))
    = Some (Canvas.mk 640 480 (S (S (Canvas.resets c)))).
Proof.
  intros Hm Hmc Hmv Hcomplete Hw.
  unfold LiveMonitor.frameUpdate, LiveMonitor.drawVideoFrame.
  rewrite Hm, Hmc, Hmv, Hcomplete. simpl.
  rewrite (proj2 (Z.eqb_neq _ _) Hw). simpl. by destruct broken.
Qed.

(** Counterexample to C1 as stated: on the zone editor a tick over a
    loaded 1280x720 image leaves the canvas at 640x480; and on the
    face-recognition page a tick over an image that has finished
    loading broken (natural size 0x0) leaves the canvas as it was. *)
Lemma canvas_is_not_always_sized_to_the_image :
  (exists video canvas,
     Zones.videoStream Zones.sample = Some video /\
     Img.complete video = true /\
     Zones.videoCanvas (fst (Zones.drawFrame false Zones.sample)) = Some canvas /\
     ~ sized_to video canvas) /\
  (exists video canvas,
     FaceRecognition.videoStream FaceRecognition.sample_broken = Some video /\
     Img.complete video = true /\
     FaceRecognition.videoCanvas
       (fst (FaceRecognition.frameUpdate false FaceRecognition.sample_broken))
       = Some canvas /\
     ~ sized_to video canvas).
Proof.
  split.
  - exists (Img.mk true 1280 720), (Canvas.mk 640 480 2).
    repeat split; try reflexivity.
    intros [Hw _]. discriminate Hw.
  - exists (Img.mk true 0 0), (Canvas.mk 300 150 0).
    repeat split; try reflexivity.
    intros [Hw _]. discriminate Hw.
Qed.

(** C1, amended: on the face-recognition page, a tick of the animation
    loop over an image that has finished loading with a non-zero
    natural size leaves the canvas backing store at the natural size of
    the image, also when drawing the image fails; width and height are
    assigned only when the canvas does not already have that size. The
    size at which the canvas is displayed is no input of the tick. The
    zone editor instead assigns 640x480 on every tick, whatever the
    image's natural size. *)
Theorem canvas_backing_store_size_after_a_tick :
  forall (broken : bool) (s : FaceRecognition.state)
         (canvas : Canvas.t) (video : Img.t),
    FaceRecognition.cameraStatus s = "running" ->
    FaceRecognition.videoCanvas s = Some canvas ->
    FaceRecognition.videoStream s = Some video ->
    Img.complete video = true ->
    Img.naturalWidth video <> 0 ->
    Img.naturalHeight video <> 0 ->
    (exists canvas',
       FaceRecognition.videoCanvas (fst (FaceRecognition.frameUpdate broken s))
         = Some canvas' /\
       sized_to video canvas' /\
       (sized_to video canvas -> canvas' = canvas) /\
       (~ sized_to video canvas ->
        Canvas.resets canvas' = S (S (Canvas.resets canvas)))) /\
    (forall (z : Zones.state) (c : Canvas.t),
       Zones.videoCanvas z = Some c ->
       Zones.videoCanvas (fst (Zones.drawFrame broken z))
         = Some (Canvas.mk 640 480 (S (S (Canvas.resets c))))).
Proof.
  intros broken s canvas video Hrun Hc Hv Hcomplete Hw Hh.
  assert (Hready : negb (Img.complete video) || (Img.naturalWidth video =? 0) = false).
  { rewrite Hcomplete. simpl. by apply Z.eqb_neq. }
  split.
  - exists (FaceRecognition.fit video canvas).
    split; [|split; [by apply fit_sized|split; [apply fit_unchanged|apply fit_resets]]].
    unfold FaceRecognition.frameUpdate, FaceRecognition.drawVideoFrame.
    rewrite Hrun, Hc, Hv, Hready. simpl. by destruct broken.
  - intros z c Hz. unfold Zones.drawFrame. rewrite Hz.
    repeat match goal with |- context [if ?b then _ else _] => destruct b end;
      reflexivity.
Qed.

Lemma canvas_backing_store_size_after_a_tick_witness :
  exists canvas',
    FaceRecognition.videoCanvas
      (fst (FaceRecognition.frameUpdate false FaceRecognition.sample))
      = Some canvas' /\
    Canvas.width canvas' = 1280 /\ Canvas.height canvas' = 720.
Proof.
  destruct (canvas_backing_store_size_after_a_tick false FaceRecognition.sample
              (Canvas.mk 300 150 0) (Img.mk true 1280 720))
    as [(canvas' & Hc & Hsized & _) _];
    [reflexivity | reflexivity | reflexivity | reflexivity
    | simpl; lia | simpl; lia |].
  exists canvas'. split; [exact Hc | exact Hsized].
Defined.

End CanvasFacts.

(** ** The polygon editor *)

Section ZonesFacts.
Import Zones.

Lemma with_submitting_same (s : state) : with_submitting (submitting s) s = s.
Proof. by destruct s. Qed.

(** [resetFields] touches the name and the threshold of the form
    only. *)
Lemma resetFields_keeps (s : state) :
  with_zoneForm (zoneForm s) (resetFields s) = s /\
  ZoneForm.coordinates (zoneForm (resetFields s))
    = ZoneForm.coordinates (zoneForm s) /\
  ZoneForm.is_active (zoneForm (resetFields s))
    = ZoneForm.is_active (zoneForm s).
Proof.
  unfold resetFields. destruct (zoneFormRef s) as [[name threshold]|];
    by destruct s.
Qed.

(** Rendering the dialog records the values of the form, nothing
    else. *)
Lemma rendered_as_update (s : state) :
  exists ref, rendered s = with_zoneFormRef ref s.
Proof.
  unfold rendered. destruct (zoneFormRef s) as [fields|] eqn:E; [|by eexists].
  exists (Some fields). destruct s; simpl in *. by subst.
Qed.

Lemma resetZoneForm_fields (s : state) :
  showZoneDialog (resetZoneForm s) = showZoneDialog s /\
  currentPoints (resetZoneForm s) = [] /\
  editingZone (resetZoneForm s) = None /\
  zones (resetZoneForm s) = zones s /\
  ZoneForm.coordinates (zoneForm (resetZoneForm s)) = [] /\
  ZoneForm.is_active (zoneForm (resetZoneForm s)) = true.
Proof.
  unfold resetZoneForm, resetFields. simpl.
  by destruct (zoneFormRef s) as [[name threshold]|].
Qed.

(** Counterexample to C3 as stated: a click at offset 154 on a canvas
    displayed 308 wide over a backing store 640 wide. The exact
    x W / w is 320 (154 * 640 = 320 * 308); the abscissa appended is
    5629499534213119 * 2^-44, the number just below 320, that is
    319.99999999999994. *)
Lemma handleCanvasClick_rounds_below_the_exact_point :
  let event := MouseEvent.mk (int 154) (int 120) in
  let rect := Rect.mk (int 0) (int 0) (int 308) (int 240) in
  let s := with_videoCanvas (Some (Canvas.mk 640 480 2)) sample in
  154 * 640 = 320 * 308 /\
  exists px py,
    currentPoints (fst (handleCanvasClick event rect s)) =
      currentPoints s ++ [Point.mk px py] /\
    px = S754_finite false 5629499534213119 (-44) /\
    px <> int 320 /\
    num_lt px (int 320) = true /\
    py = int 240.
Proof.
  intros event rect s. split; [reflexivity|].
  exists (S754_finite false 5629499534213119 (-44)), (int 240).
  split; [vm_compute; reflexivity|]. split; [reflexivity|].
  split; [vm_compute; discriminate|]. split; vm_compute; reflexivity.
Qed.

(** C3, amended: a click in drawing mode appends the point
    (x * (W / w), y * (H / h)) and asks for a redraw, where x and y
    are the client coordinates of the click less the corner of the
    rectangle the canvas occupies on screen, w and h the size of that
    rectangle, W and H the size of the backing store, and every
    operation is the binary64 one: the scale is rounded before the
    product is, so the point is x W / w, y H / h up to these roundings
    only. On a canvas displayed at the size of its backing store the
    point is exactly (x, y). *)
Theorem handleCanvasClick_rescales_to_backing_store :
  forall (event : MouseEvent.t) (rect : Rect.t) (s : state) (canvas : Canvas.t),
    drawMode s = true ->
    videoCanvas s = Some canvas ->
    let x := num_sub (MouseEvent.clientX event) (Rect.left rect) in
    let y := num_sub (MouseEvent.clientY event) (Rect.top rect) in
    let W := int (Canvas.width canvas) in
    let H := int (Canvas.height canvas) in
    let px := num_mul x (num_div W (Rect.width rect)) in
    let py := num_mul y (num_div H (Rect.height rect)) in
    handleCanvasClick event rect s =
      (with_currentPoints (currentPoints s ++ [Point.mk px py]) s,
       [NextTick DrawFrame]) /\
    (is_double x -> is_finite (Rect.width rect) -> Rect.width rect = W ->
     px = x) /\
    (is_double y -> is_finite (Rect.height rect) -> Rect.height rect = H ->
     py = y).
Proof.
  intros event rect s canvas Hmode Hcanvas x y W H px py.
  split; [|split].
  - unfold handleCanvasClick. by rewrite Hmode, Hcanvas.
  - intros Hx Hfin Hw. subst px. rewrite <- Hw.
    rewrite (num_div_self _ Hfin). by apply num_mul_one.
  - intros Hy Hfin Hh. subst py. rewrite <- Hh.
    rewrite (num_div_self _ Hfin). by apply num_mul_one.
Qed.

Lemma handleCanvasClick_rescales_to_backing_store_witness :
  let event := MouseEvent.mk (int 210) (int 150) in
  let rect := Rect.mk (int 50) (int 30) (int 640) (int 480) in
  let s := with_videoCanvas (Some (Canvas.mk 640 480 2)) sample in
  currentPoints (fst (handleCanvasClick event rect s)) =
    currentPoints s ++ [Point.mk (int 160) (int 120)].
Proof.
  intros event rect s.
  destruct (handleCanvasClick_rescales_to_backing_store event rect s
              (Canvas.mk 640 480 2) eq_refl eq_refl) as (Hclick & Hx & Hy).
  rewrite Hclick. cbn [fst currentPoints with_currentPoints].
  rewrite Hx, Hy; [|reflexivity|exact I|reflexivity|reflexivity|exact I|reflexivity].
  vm_compute. reflexivity.
Defined.

(** A canvas displayed with zero width gives an abscissa that is an
    infinity or [NaN]. *)
Lemma handleCanvasClick_zero_width (event : MouseEvent.t) (rect : Rect.t)
    (s : state) (canvas : Canvas.t) (sgn : bool) :
  drawMode s = true -> videoCanvas s = Some canvas ->
  Rect.width rect = S754_zero sgn ->
  exists px py,
    currentPoints (fst (handleCanvasClick event rect s)) =
      currentPoints s ++ [Point.mk px py] /\
    (px = S754_nan \/ exists s', px = S754_infinity s').
Proof.
  intros Hmode Hcanvas Hw. unfold handleCanvasClick.
  rewrite Hmode, Hcanvas, Hw. simpl. eexists _, _. split; [reflexivity|].
  apply num_mul_div_zero.
Qed.

(** Outside drawing mode a click changes nothing. *)
Lemma handleCanvasClick_idle (event : MouseEvent.t) (rect : Rect.t) (s : state) :
  drawMode s = false -> handleCanvasClick event rect s = (s, []).
Proof. intros H. unfold handleCanvasClick. by rewrite H. Qed.

(** The accepted finishing gesture hands the buffer to the form. *)
Lemma handleRightClick_accepted (s : state) :
  drawMode s = true -> (3 <= length (currentPoints s))%nat ->
  let s' := fst (handleRightClick s) in
  ZoneForm.coordinates (zoneForm s') = currentPoints s' /\
  currentPoints s' = currentPoints s /\
  showZoneDialog s' = true /\ drawMode s' = false.
Proof.
  intros Hmode Hlen. unfold handleRightClick, rendered. rewrite Hmode.
  rewrite (proj2 (Z.ltb_ge _ _)) by lia. simpl.
  by destruct (zoneFormRef s).
Qed.

(** A submission sends at most one polygon: the coordinates of the
    form, which are then at least 3. *)
Lemma submitZoneForm_polygons (valid : bool) (r : outcome)
    (fetched : response (list Zone.t)) (s : state) :
  let n := length (ZoneForm.coordinates (zoneForm s)) in
  polygons (snd (submitZoneForm valid r fetched s)) = [] \/
  (polygons (snd (submitZoneForm valid r fetched s)) = [n] /\ (3 <= n)%nat).
Proof.
  unfold submitZoneForm.
  destruct valid; [|by left].
  destruct (Z.of_nat (length (ZoneForm.coordinates (zoneForm s))) <? 3) eqn:Elen;
    [by left|].
  apply Z.ltb_ge in Elen. right. split; [|lia].
  destruct r; [destruct fetched|]; simpl; by destruct (editingZone s).
Qed.

(** C2: the finishing right-click on a buffer of fewer than 3 points
    only shows a warning: the state is unchanged and no request is
    sent. Submitting the zone form while it holds fewer than 3 points
    only shows an error message: no request is sent and the state is
    unchanged but for the [submitting] flag, which is set to false (so
    the state is unchanged when no submission was in flight). Whatever
    the state, every polygon a submission sends has at least 3 points,
    and the right-click itself never sends a request. *)
Theorem polygon_submission_needs_three_points :
  forall (s : state) (valid : bool) (r : outcome)
         (fetched : response (list Zone.t)),
    ((length (currentPoints s) < 3)%nat ->
     handleRightClick s =
       (s, [PreventDefault; Notify LWarning "至少需要3个点才能完成区域绘制"])) /\
    ((length (ZoneForm.coordinates (zoneForm s)) < 3)%nat ->
     let (s', fx) := submitZoneForm valid r fetched s in
     s' = with_submitting false s /\
     (submitting s = false -> s' = s) /\
     requests fx = [] /\
     exists message, fx = [Notify LError message]) /\
    requests (snd (handleRightClick s)) = [] /\
    Forall (fun n => (3 <= n)%nat)
      (polygons (snd (submitZoneForm valid r fetched s))).
Proof.
  intros s valid r fetched. split; [|split; [|split]].
  - intros Hlen. unfold handleRightClick.
    rewrite (proj2 (Z.ltb_lt (Z.of_nat (length (currentPoints s))) 3)) by lia.
    by rewrite orb_true_r.
  - intros Hlen. unfold submitZoneForm.
    rewrite (proj2 (Z.ltb_lt _ 3)) by lia.
    destruct valid; simpl.
    + repeat split; [|by eexists].
      intros Hs. rewrite <- Hs. apply with_submitting_same.
    + repeat split; [|by eexists].
      intros Hs. rewrite <- Hs. apply with_submitting_same.
  - unfold handleRightClick. by destruct (_ || _).
  - destruct (submitZoneForm_polygons valid r fetched s) as [-> | [-> Hn]];
      repeat constructor. exact Hn.
Qed.

Lemma polygon_submission_needs_three_points_witness :
  (length (currentPoints sample) < 3)%nat /\
  (length (ZoneForm.coordinates (zoneForm sample)) < 3)%nat /\
  handleRightClick sample =
    (sample, [PreventDefault; Notify LWarning "至少需要3个点才能完成区域绘制"]) /\
  submitZoneForm true Resolved Failed sample =
    (sample, [Notify LError "请至少绘制3个顶点"]).
Proof.
  destruct (polygon_submission_needs_three_points sample true Resolved Failed)
    as (Hright & Hsubmit & _).
  assert (H1 : (length (currentPoints sample) < 3)%nat) by (simpl; lia).
  assert (H2 : (length (ZoneForm.coordinates (zoneForm sample)) < 3)%nat)
    by (simpl; lia).
  split; [exact H1|]. split; [exact H2|]. split; [exact (Hright H1)|].
  specialize (Hsubmit H2).
  destruct (submitZoneForm true Resolved Failed sample) as [s' fx] eqn:E.
  destruct Hsubmit as (_ & Hsame & _ & _).
  rewrite (Hsame eq_refl).
  vm_compute in E. by injection E as _ <-.
Defined.

End ZonesFacts.

(** ** The face registry *)

Section FacesFacts.
Import Faces.

Lemma flip_flip (u : FaceRecord.t) : FaceRecord.flip (FaceRecord.flip u) = u.
Proof. destruct u as [i n a]. unfold FaceRecord.flip. simpl. by rewrite negb_involutive. Qed.

(** The [catch] branch negates the flag the row shows at that moment. *)
Lemma toggleUserStatus_rejected_lookup (i : nat) (faces : state) :
  fst (toggleUserStatus i Rejected faces) !! i = FaceRecord.flip <$> faces !! i.
Proof. simpl. apply list_lookup_alter_eq. Qed.

(** C7: operating the switch of a row flips the flag the row shows at
    once and sends the new value; when the request fails the handler
    shows one error message and flips the flag back, so the table is
    what it was before the switch was operated; when the request
    succeeds the flipped flag stays. *)
Theorem toggle_flips_then_rolls_back_on_failure :
  forall (faces : state) (i : nat) (user : FaceRecord.t),
    faces !! i = Some user ->
    let shown := fst (change i faces) in
    shown !! i = Some (FaceRecord.flip user) /\
    snd (change i faces) =
      [Request PUT (ApiFaceStatus (FaceRecord.id user))
         (StatusData (negb (FaceRecord.is_active user)))] /\
    toggleUserStatus i Rejected shown = (faces, [Notify LError "状态更新失败"]) /\
    fst (toggleUserStatus i Resolved shown) = shown.
Proof.
  intros faces i user Hi shown.
  assert (Hshown : alter FaceRecord.flip i faces !! i = Some (FaceRecord.flip user)).
  { by rewrite list_lookup_alter_eq, Hi. }
  assert (Heq : shown = alter FaceRecord.flip i faces).
  { subst shown. unfold change. by rewrite Hshown. }
  split; [by rewrite Heq|]. split; [|split].
  - unfold change. by rewrite Hshown.
  - rewrite Heq. simpl. f_equal.
    rewrite list_alter_alter_eq. apply list_alter_id. apply flip_flip.
  - rewrite Heq. simpl. by rewrite Hshown.
Qed.

Lemma toggle_flips_then_rolls_back_on_failure_witness :
  fst (change 0 sample) !! 0%nat = Some (FaceRecord.mk 1 "Ann" false) /\
  fst (toggleUserStatus 0 Rejected (fst (change 0 sample))) = sample.
Proof.
  destruct (toggle_flips_then_rolls_back_on_failure sample 0
              (FaceRecord.mk 1 "Ann" true) eq_refl) as (H1 & _ & H3 & _).
  split; [exact H1|]. by rewrite H3.
Defined.

End FacesFacts.

(** ** The slide verification and the login page *)

Section LoginFacts.
Import SlideVerify Login.

(** While the thumb is being dragged it stays on the track. *)
Lemma onSlide_clamped (clientX : Z) (s : SlideVerify.state) :
  isDragging s = true -> thumbWidth <= trackWidth s ->
  0 <= thumbLeft (onSlide clientX s) <= trackWidth s - thumbWidth.
Proof. intros Hd Hw. unfold onSlide. rewrite Hd. simpl. lia. Qed.

(** A release that is not the end of a drag does nothing. *)
Lemma endSlide_idle (s : SlideVerify.state) :
  isDragging s = false -> endSlide s = (s, []).
Proof. intros Hd. unfold endSlide. by rewrite Hd. Qed.

Lemma dispatch_one on (e : effect) (s : Login.state) :
  dispatch on [e] s = on e s.
Proof. unfold dispatch. simpl. by destruct (on e s). Qed.

(** The handlers never raise a slide flag. *)
Lemma handleLogin_resume_flag (r : reply) (p : Login.state) :
  (isLoginSlideVerified p = false ->
   isLoginSlideVerified (after (handleLogin_resume r p)) = false) /\
  isRegisterSlideVerified (after (handleLogin_resume r p)) =
    isRegisterSlideVerified p.
Proof.
  unfold handleLogin_resume, login_catch.
  destruct r as [|[] message [[[token|]]|]], (loginSlideRef p); simpl; auto.
Qed.

Lemma selectTab_flags (tab : string) (p : Login.state) :
  isLoginSlideVerified (selectTab tab p) = isLoginSlideVerified p /\
  isRegisterSlideVerified (selectTab tab p) = isRegisterSlideVerified p.
Proof.
  unfold selectTab. destruct (String.eqb tab (activeTab p)); [done|].
  destruct (String.eqb tab "login"); [done|].
  by destruct (String.eqb tab "register").
Qed.

Lemma handleRegister_resume_flag (r : reply) (p : Login.state) :
  isLoginSlideVerified (after (handleRegister_resume r p)) =
    isLoginSlideVerified p /\
  (isRegisterSlideVerified p = false ->
   isRegisterSlideVerified (after (handleRegister_resume r p)) = false).
Proof.
  unfold handleRegister_resume, register_catch.
  destruct r as [|[] message data], (registerSlideRef p); simpl;
    rewrite ?(proj1 (selectTab_flags _ _)), ?(proj2 (selectTab_flags _ _));
    auto.
Qed.

Lemma handleLogin_flags (valid : bool) (r : reply) (p : Login.state) :
  (isLoginSlideVerified p = false ->
   isLoginSlideVerified (fst (handleLogin valid r p)) = false) /\
  (isRegisterSlideVerified p = false ->
   isRegisterSlideVerified (fst (handleLogin valid r p)) = false).
Proof.
  unfold handleLogin. split; intros Hoff.
  - by rewrite Hoff.
  - destruct (isLoginSlideVerified p) eqn:E; cbn [negb fst]; [|done].
    destruct (loginFormRef p && valid); cbn [negb fst]; [|done].
    by rewrite (proj2 (handleLogin_resume_flag r _)).
Qed.

Lemma handleRegister_flags (valid : bool) (r : reply) (p : Login.state) :
  (isLoginSlideVerified p = false ->
   isLoginSlideVerified (fst (handleRegister valid r p)) = false) /\
  (isRegisterSlideVerified p = false ->
   isRegisterSlideVerified (fst (handleRegister valid r p)) = false).
Proof.
  unfold handleRegister. split; intros Hoff.
  - destruct (isRegisterSlideVerified p) eqn:E; cbn [negb fst]; [|done].
    destruct (registerFormRef p && valid); cbn [negb fst]; [|done].
    by rewrite (proj1 (handleRegister_resume_flag r _)).
  - by rewrite Hoff.
Qed.

(** The login flag is raised by nothing but the end of a drag of the
    login slider, shown on the page, at or beyond the threshold. *)
Lemma login_flag_raised_by_slide_only (a : action) (p : Login.state) :
  isLoginSlideVerified p = false ->
  isLoginSlideVerified (fst (perform a p)) = true ->
  a = LoginEndSlide /\
  loginSlideRef p = Some (loginSlide p) /\
  isDragging (loginSlide p) = true /\
  trackWidth (loginSlide p) - thumbWidth - 5 <= thumbLeft (loginSlide p).
Proof.
  intros Hoff Hon.
  destruct a as [x|x| |x|x| |valid r|valid r|tab]; simpl in Hon.
  - destruct (loginSlideRef p); simpl in Hon; congruence.
  - destruct (loginSlideRef p); simpl in Hon; congruence.
  - split; [reflexivity|]. unfold loginSlideRef in *.
    destruct (loginFormRef p); simpl in Hon; [|congruence].
    split; [reflexivity|]. unfold endSlide in Hon.
    destruct (isDragging (loginSlide p)); simpl in Hon; [|congruence].
    split; [reflexivity|].
    destruct (_ <=? _) eqn:E; [by apply Z.leb_le in E|].
    rewrite dispatch_one in Hon. simpl in Hon. congruence.
  - destruct (registerSlideRef p); simpl in Hon; congruence.
  - destruct (registerSlideRef p); simpl in Hon; congruence.
  - destruct (registerSlideRef p) as [slide|]; simpl in Hon; [|congruence].
    unfold endSlide in Hon.
    destruct (isDragging slide); simpl in Hon; [|congruence].
    destruct (_ <=? _); rewrite dispatch_one in Hon; simpl in Hon; congruence.
  - rewrite (proj1 (handleLogin_flags valid r p) Hoff) in Hon. discriminate.
  - rewrite (proj1 (handleRegister_flags valid r p) Hoff) in Hon. discriminate.
  - rewrite (proj1 (selectTab_flags tab p)) in Hon. congruence.
Qed.

(** The same for the register flag and the register slider. *)
Lemma register_flag_raised_by_slide_only (a : action) (p : Login.state) :
  isRegisterSlideVerified p = false ->
  isRegisterSlideVerified (fst (perform a p)) = true ->
  a = RegisterEndSlide /\
  registerSlideRef p = Some (registerSlide p) /\
  isDragging (registerSlide p) = true /\
  trackWidth (registerSlide p) - thumbWidth - 5 <= thumbLeft (registerSlide p).
Proof.
  intros Hoff Hon.
  destruct a as [x|x| |x|x| |valid r|valid r|tab]; simpl in Hon.
  - destruct (loginSlideRef p); simpl in Hon; congruence.
  - destruct (loginSlideRef p); simpl in Hon; congruence.
  - destruct (loginSlideRef p) as [slide|]; simpl in Hon; [|congruence].
    unfold endSlide in Hon.
    destruct (isDragging slide); simpl in Hon; [|congruence].
    destruct (_ <=? _); rewrite dispatch_one in Hon; simpl in Hon; congruence.
  - destruct (registerSlideRef p); simpl in Hon; congruence.
  - destruct (registerSlideRef p); simpl in Hon; congruence.
  - split; [reflexivity|]. unfold registerSlideRef in *.
    destruct (registerFormRef p); simpl in Hon; [|congruence].
    split; [reflexivity|]. unfold endSlide in Hon.
    destruct (isDragging (registerSlide p)); simpl in Hon; [|congruence].
    split; [reflexivity|].
    destruct (_ <=? _) eqn:E; [by apply Z.leb_le in E|].
    rewrite dispatch_one in Hon. simpl in Hon. congruence.
  - rewrite (proj2 (handleLogin_flags valid r p) Hoff) in Hon. discriminate.
  - rewrite (proj2 (handleRegister_flags valid r p) Hoff) in Hon. discriminate.
  - rewrite (proj2 (selectTab_flags tab p)) in Hon. congruence.
Qed.

(** C9: the end of a drag verifies exactly when the thumb is at or
    beyond track width - thumb width - 5: then the thumb snaps to the
    end of the track, the control is verified and emits the success
    event; on a shorter drag the thumb goes back to 0 and the control
    emits the failure event. The login and the register handler send no
    request while their verification flag is down: they only show a
    warning. And among all the things the user and the backend can
    make the page do, the page raises the login flag only on the
    success event of the login slider, and the register flag only on
    the success event of the register slider: at the end of a drag of
    that slider at or beyond the threshold. *)
Theorem slide_verification_gates_login_and_register :
  forall (s : SlideVerify.state) (p : Login.state) (valid : bool)
         (r : reply) (a : action),
    let threshold := trackWidth s - thumbWidth - 5 in
    (isDragging s = true ->
     (threshold <= thumbLeft s ->
      endSlide s =
        (SlideVerify.mkState (trackWidth s) (trackWidth s - thumbWidth)
           false true (startX s),
         [Emit VerifySuccess])) /\
     (thumbLeft s < threshold ->
      endSlide s =
        (SlideVerify.mkState (trackWidth s) 0 false (isVerified s) (startX s),
         [Emit VerifyFail]))) /\
    (isLoginSlideVerified p = false ->
     handleLogin valid r p = (p, [Notify LWarning "请先完成滑块验证"]) /\
     requests (snd (handleLogin valid r p)) = []) /\
    (isRegisterSlideVerified p = false ->
     handleRegister valid r p = (p, [Notify LWarning "请先完成滑块验证"]) /\
     requests (snd (handleRegister valid r p)) = []) /\
    (isLoginSlideVerified p = false ->
     isLoginSlideVerified (fst (perform a p)) = true ->
     a = LoginEndSlide /\
     loginSlideRef p = Some (loginSlide p) /\
     isDragging (loginSlide p) = true /\
     trackWidth (loginSlide p) - thumbWidth - 5 <= thumbLeft (loginSlide p)) /\
    (isRegisterSlideVerified p = false ->
     isRegisterSlideVerified (fst (perform a p)) = true ->
     a = RegisterEndSlide /\
     registerSlideRef p = Some (registerSlide p) /\
     isDragging (registerSlide p) = true /\
     trackWidth (registerSlide p) - thumbWidth - 5
       <= thumbLeft (registerSlide p)).
Proof.
  intros s p valid r a threshold. subst threshold.
  split; [|split; [|split; [|split]]].
  - intros Hd. unfold endSlide. rewrite Hd. simpl. split; intros Hc.
    + by rewrite (proj2 (Z.leb_le _ _) Hc).
    + by rewrite (proj2 (Z.leb_gt _ _) Hc).
  - intros Hoff. unfold handleLogin. by rewrite Hoff.
  - intros Hoff. unfold handleRegister. by rewrite Hoff.
  - apply login_flag_raised_by_slide_only.
  - apply register_flag_raised_by_slide_only.
Qed.

Lemma slide_verification_gates_login_and_register_witness :
  let dragging :=
    performs [SelectTab "register"; RegisterStartSlide 100; RegisterOnSlide 400]
      Login.initial in
  endSlide dragged_to_end =
    (SlideVerify.mkState 300 260 false true 100, [Emit VerifySuccess]) /\
  endSlide dragged_halfway =
    (SlideVerify.mkState 300 0 false false 100, [Emit VerifyFail]) /\
  requests (snd (handleLogin true welcome Login.initial)) = [] /\
  requests (snd (handleRegister true welcome Login.initial)) = [] /\
  isRegisterSlideVerified dragging = false /\
  isRegisterSlideVerified (fst (perform RegisterEndSlide dragging)) = true /\
  255 <= thumbLeft (registerSlide dragging).
Proof.
  intros dragging.
  destruct (slide_verification_gates_login_and_register dragged_to_end
              Login.initial true welcome LoginEndSlide)
    as (Hend & Hlogin & Hregister & _).
  destruct (slide_verification_gates_login_and_register dragged_halfway
              dragging true welcome RegisterEndSlide)
    as (Hhalf & _ & _ & _ & Hraised).
  split; [|split; [|split; [|split; [|split; [|split]]]]].
  - apply (Hend eq_refl). vm_compute. discriminate.
  - apply (Hhalf eq_refl). vm_compute. reflexivity.
  - apply (Hlogin eq_refl).
  - apply (Hregister eq_refl).
  - reflexivity.
  - reflexivity.
  - destruct (Hraised eq_refl eq_refl) as (_ & _ & _ & Hthumb).
    exact Hthumb.
Defined.

End LoginFacts.

(** ** The realtime channel *)

Section RealtimeFacts.
Import Realtime.

Lemma scheduled_app (fx fx' : list effect) :
  scheduled (fx ++ fx') = scheduled fx ++ scheduled fx'.
Proof.
  induction fx as [|e fx IH]; [reflexivity|].
  destruct e; simpl; rewrite ?IH; reflexivity.
Qed.

(** [onclose] registers one timer, whatever the state and the page. *)
Lemma onclose_scheduled (p : page) (c : channel) :
  scheduled (snd (onclose p c)) = [(InitWebSocket, 3000)].
Proof. by destruct p. Qed.

Lemma onclose_keeps_browser_side (p : page) (c : channel) :
  live (fst (onclose p c)) = live c /\ timers (fst (onclose p c)) = timers c.
Proof. by destruct p. Qed.

Lemma balanced_mounted : balanced mounted.
Proof. left. by exists 0%nat. Qed.

Lemma step_balanced (p : page) (e : event) (c c' : channel) (fx : list effect) :
  balanced c -> step p e c = Some (c', fx) ->
  balanced c' /\
  scheduled fx =
    match e with SocketClosed _ => [(InitWebSocket, 3000)] | _ => [] end.
Proof.
  intros Hb Hstep. destruct e as [sock|sock|sock|i]; simpl in Hstep.
  - destruct (is_live sock c); [|done].
    destruct p; simpl in Hstep; injection Hstep as <- <-;
      (split; [exact Hb|reflexivity]).
  - destruct (is_live sock c); [|done].
    destruct p; simpl in Hstep; injection Hstep as <- <-;
      (split; [exact Hb|reflexivity]).
  - unfold is_live in Hstep. case_bool_decide as Hin; [|done].
    destruct Hb as [(k & Hlive & Htimers) | [Hlive _]];
      [|rewrite Hlive in Hin; by apply elem_of_nil in Hin].
    rewrite Hlive in Hin. apply list_elem_of_singleton in Hin. subst k.
    rewrite Hlive, Htimers in Hstep. simpl in Hstep.
    rewrite Nat.eqb_refl in Hstep. simpl in Hstep.
    destruct p; simpl in Hstep; injection Hstep as <- <-;
      (split; [by right|reflexivity]).
  - destruct Hb as [(k & Hlive & Htimers) | [Hlive Htimers]];
      rewrite Htimers in Hstep.
    + by rewrite lookup_nil in Hstep.
    + destruct i as [|i]; simpl in Hstep; [|done].
      injection Hstep as <- <-. split; [|reflexivity].
      left. exists (created c). simpl. by rewrite Hlive.
Qed.

Lemma run_balanced (p : page) (es : list event) :
  forall (c c' : channel) (fx : list effect),
    balanced c -> run p es c = Some (c', fx) ->
    balanced c' /\ scheduled fx = repeat (InitWebSocket, 3000) (closes es).
Proof.
  induction es as [|e es IH]; intros c c' fx Hb Hrun; simpl in Hrun.
  - injection Hrun as <- <-. by split.
  - destruct (step p e c) as [[c1 fx1]|] eqn:Hstep; [|done].
    destruct (run p es c1) as [[c2 fx2]|] eqn:Hrest; [|done].
    injection Hrun as <- <-.
    destruct (step_balanced p e c c1 fx1 Hb Hstep) as [Hb1 Hfx1].
    destruct (IH c1 c2 fx2 Hb1 Hrest) as [Hb2 Hfx2].
    split; [done|]. rewrite scheduled_app, Hfx1, Hfx2.
    unfold closes. by destruct e.
Qed.

(** C4: in every run of a page's channel from mount (sockets opening,
    failing and closing, timers firing, in any order the browser can
    produce), each close event registers exactly one timer, a reconnect
    due after 3000 ms: the timers registered are as many as the closes.
    There is always either one socket or one pending reconnect, never
    two sockets. The handler registers the same timer in every state,
    so the delay does not grow and there is no last attempt: after any
    run the live socket can close and register a reconnect again, and
    the pending reconnect can fire and open one socket again. *)
Theorem reconnect_is_scheduled_once_per_close :
  forall (p : page) (es : list event) (c : channel) (fx : list effect),
    run p es mounted = Some (c, fx) ->
    scheduled fx = repeat (InitWebSocket, 3000) (closes es) /\
    (length (live c) + length (timers c) = 1)%nat /\
    (forall c0 : channel,
       scheduled (snd (onclose p c0)) = [(InitWebSocket, 3000)] /\
       live (fst (onclose p c0)) = live c0) /\
    (forall sock, sock ∈ live c ->
       exists c' fx',
         step p (SocketClosed sock) c = Some (c', fx') /\
         scheduled fx' = [(InitWebSocket, 3000)] /\
         live c' = [] /\ timers c' = [(InitWebSocket, 3000)]) /\
    (timers c <> [] ->
       exists c',
         step p (TimerFired 0) c = Some (c', []) /\
         live c' = [created c] /\ timers c' = []).
Proof.
  intros p es c fx Hrun.
  destruct (run_balanced p es mounted c fx balanced_mounted Hrun) as [Hb Hfx].
  split; [exact Hfx|]. split; [|split; [|split]].
  - destruct Hb as [(k & -> & ->) | [-> ->]]; reflexivity.
  - intros c0. split; [apply onclose_scheduled|apply onclose_keeps_browser_side].
  - intros sock Hin.
    destruct (step p (SocketClosed sock) c) as [[c' fx']|] eqn:Hstep.
    + destruct (step_balanced p _ c c' fx' Hb Hstep) as [Hb' Hfx'].
      exists c', fx'. split; [reflexivity|]. split; [exact Hfx'|].
      simpl in Hstep. destruct (is_live sock c); [|done].
      destruct (onclose p _) as [c1 fx1] eqn:Hclose in Hstep.
      injection Hstep as <- <-.
      pose proof (onclose_keeps_browser_side p
        (mkChannel (wsConnected c) (ws c)
           (List.filter (fun k => negb (Nat.eqb k sock)) (live c))
           (created c) (timers c))) as [Hl Ht].
      pose proof (onclose_scheduled p
        (mkChannel (wsConnected c) (ws c)
           (List.filter (fun k => negb (Nat.eqb k sock)) (live c))
           (created c) (timers c))) as Hs.
      rewrite Hclose in Hl, Ht, Hs. simpl in Hl, Ht, Hs.
      destruct Hb as [(k & Hlive & Htimers) | [Hlive _]];
        [|rewrite Hlive in Hin; by apply elem_of_nil in Hin].
      rewrite Hlive in Hin. apply list_elem_of_singleton in Hin. subst k.
      simpl. rewrite Hl, Ht, Hs, Hlive, Htimers. simpl.
      by rewrite Nat.eqb_refl.
    + simpl in Hstep. unfold is_live in Hstep.
      rewrite bool_decide_eq_true_2 in Hstep by done.
      by destruct (onclose p _).
  - intros Hne. destruct Hb as [(k & Hlive & Htimers) | [Hlive Htimers]];
      [done|].
    eexists. simpl. rewrite Htimers. simpl. split; [reflexivity|].
    by rewrite Hlive.
Qed.

Lemma reconnect_is_scheduled_once_per_close_witness :
  exists c fx,
    run FaceRecognitionPage
      [SocketOpened 0; SocketClosed 0; TimerFired 0; SocketError 1; SocketClosed 1]
      mounted = Some (c, fx) /\
    scheduled fx = [(InitWebSocket, 3000); (InitWebSocket, 3000)] /\
    live c = [] /\ timers c = [(InitWebSocket, 3000)].
Proof.
  eexists _, _. split; [vm_compute; reflexivity|].
  split; [|split; reflexivity].
  exact (proj1 (reconnect_is_scheduled_once_per_close FaceRecognitionPage
    [SocketOpened 0; SocketClosed 0; TimerFired 0; SocketError 1; SocketClosed 1]
    _ _ eq_refl)).
Defined.

End RealtimeFacts.

(** ** Failure handling *)

Section FailureFacts.

Lemma one_shot_intro (fx : list effect) (message : string) :
  toasts fx = [Notify LError message] ->
  timeouts fx = [] ->
  navigations fx = [] ->
  (length (requests fx) <= 1)%nat ->
  one_shot fx.
Proof. intros Ht Hs Hn Hr. unfold one_shot. eauto. Qed.

Lemma silent_intro (fx : list effect) :
  toasts fx = [] ->
  timeouts fx = [] ->
  navigations fx = [] ->
  (length (requests fx) <= 1)%nat ->
  silent fx.
Proof. intros Ht Hs Hn Hr. unfold silent. eauto. Qed.

Ltac one_shot_trace :=
  first [eapply one_shot_intro | apply silent_intro];
  [reflexivity | reflexivity | reflexivity | simpl; lia].

Ltac each_conjunct tac :=
  repeat match goal with
         | |- one_shot _ /\ _ => split; [tac|]
         | |- silent _ /\ _ => split; [tac|]
         end; tac.

(** The retry of the live monitor re-assigns the stream address: on a
    running monitor that already shows the stream it changes nothing. *)
Lemma refreshStream_same_address (m : LiveMonitor.state) :
  LiveMonitor.videoStreamUrl m = LiveMonitor.MJPEG_API ->
  LiveMonitor.refreshStream m = m.
Proof.
  intros Hurl. unfold LiveMonitor.refreshStream.
  destruct (String.eqb _ _); [|reflexivity].
  destruct m. simpl in *. by subst.
Qed.

(** The stream error handler of the live monitor stops retrying after
    three errors. *)
Lemma handleVideoError_retry_bounded (m : LiveMonitor.state) :
  LiveMonitor.videoErrorRetry m <= 3 ->
  LiveMonitor.videoErrorRetry (fst (LiveMonitor.handleVideoError m)) <= 3.
Proof.
  intros Hle. unfold LiveMonitor.handleVideoError.
  destruct (_ <? 3) eqn:E; simpl; [apply Z.ltb_lt in E|]; lia.
Qed.

(** Counterexample to C5 as stated: the first stream error on the live
    monitor shows no notification and registers a retry of the stream
    after 1000 ms; a failed load of the recent events shows no
    notification either. *)
Lemma live_monitor_stream_error_is_retried_silently :
  snd (LiveMonitor.handleVideoError LiveMonitor.sample) =
    [SetTimeout RefreshStream 1000] /\
  ~ one_shot (snd (LiveMonitor.handleVideoError LiveMonitor.sample)) /\
  toasts (EventStore.performed
            (EventStore.fetchRecentEvents Failed EventStore.initial)) = [].
Proof.
  split; [reflexivity|]. split; [|reflexivity].
  intros [[message Htoast] _]. discriminate Htoast.
Qed.

(** What the login and register handlers do with a reply that does not
    log in or register, while their form is on the page. *)
Lemma handleLogin_refused (r : Login.reply) (lg : Login.state) :
  Login.isLoginSlideVerified lg = true ->
  Login.activeTab lg = "login" ->
  Login.granted r = false ->
  one_shot (snd (Login.handleLogin true r lg)).
Proof.
  intros Hflag Htab Hr.
  unfold Login.handleLogin, Login.handleLogin_resume, Login.login_catch,
    Login.loginSlideRef, Login.loginFormRef.
  rewrite Hflag. cbn [Login.activeTab Login.with_loginLoading]. rewrite Htab.
  destruct r as [|[] message [[[token|]]|]]; try discriminate Hr;
    simpl; one_shot_trace.
Qed.

Lemma handleRegister_refused (r : Login.reply) (rg : Login.state) :
  Login.isRegisterSlideVerified rg = true ->
  Login.activeTab rg = "register" ->
  Login.succeeded r = false ->
  one_shot (snd (Login.handleRegister true r rg)).
Proof.
  intros Hflag Htab Hr.
  unfold Login.handleRegister, Login.handleRegister_resume,
    Login.register_catch, Login.registerSlideRef, Login.registerFormRef.
  rewrite Hflag. cbn [Login.activeTab Login.with_registerLoading]. rewrite Htab.
  destruct r as [|[] message data]; try discriminate Hr; simpl; one_shot_trace.
Qed.

(** C5, amended. (1) A request whose promise is rejected (no response,
    or a status outside 200 to 299) or a stream image that fails to
    load is handled in one shot (one error notification, no timer, no
    route change, no further request) by: the stream image of the zone
    editor and of the face-recognition page, the zone list, a zone
    submission, a face status toggle, marking one or all events as
    read, the camera commands of the live monitor, and a login or
    register request answered while its form is on the page. (2) A
    failure the backend reports in a fulfilled reply, with success
    false, is handled that way by the login, the register and the
    camera handlers only, which read the flag (a login reply with
    success true and no token is handled as a network error); the zone
    submission, the face toggle and the two mark-read handlers do not
    read it and take such a reply as a success, and the zone list shows
    nothing. (3) When the user has left the tab of the form before the
    reply arrives, the slider ref is unset and the handler throws: a
    reply with success false is then shown twice and the slide flag
    stays up. (4) A failed load of the recent events, of the system
    status, of the live monitor's camera status and of its danger zones
    is only logged. (5) The live monitor's stream error handler is,
    besides the WebSocket reconnect, the one automatic retry: each of
    the first three stream errors shows nothing and registers a stream
    refresh after 1000 ms times the number of the error; every later
    error is shown by one notification and registers nothing. *)
Theorem failures_are_one_shot_except_the_monitor_stream :
  forall (z : Zones.state) (f : FaceRecognition.state) (m : LiveMonitor.state)
         (p : LiveMonitor.page) (faces : Faces.state) (i : nat)
         (st : EventStore.state) (sy : SystemStore.state) (eventId : Z)
         (lg rg gone : Login.state) (message : string)
         (data : option LoginData.t) (r : Login.reply) (valid : bool)
         (fetched : response (list Zone.t)) (listed : list Zone.t)
         (h : Axios.reply) (status : Z) (c : LiveMonitor.reply),
    Login.isLoginSlideVerified lg = true -> Login.activeTab lg = "login" ->
    Login.isRegisterSlideVerified rg = true ->
    Login.activeTab rg = "register" ->
    Axios.settle h = Rejected ->
    200 <= status < 300 ->
    let refused := Axios.settle (Axios.Response status false) in
    (one_shot (snd (Zones.handleVideoError z)) /\
     one_shot (snd (FaceRecognition.handleVideoError f)) /\
     one_shot (snd (Zones.fetchZones Failed z)) /\
     one_shot (snd (Zones.submitZoneForm valid (Axios.settle h) fetched z)) /\
     one_shot (snd (Faces.toggleUserStatus i (Axios.settle h) faces)) /\
     one_shot (snd (EventsPage.markAsRead eventId (Axios.settle h) st)) /\
     one_shot (snd (EventsPage.markAllAsRead (Axios.settle h) st)) /\
     one_shot (LiveMonitor.did (snd (LiveMonitor.startCamera LiveMonitor.Unreachable p))) /\
     one_shot (LiveMonitor.did (snd (LiveMonitor.stopCamera LiveMonitor.Unreachable p))) /\
     (Login.granted r = false -> one_shot (snd (Login.handleLogin true r lg))) /\
     (Login.succeeded r = false ->
      one_shot (snd (Login.handleRegister true r rg)))) /\
    (one_shot (snd (Login.handleLogin true (Login.Envelope false message data) lg)) /\
     one_shot (snd (Login.handleLogin true (Login.Envelope true message None) lg)) /\
     one_shot (snd (Login.handleRegister true (Login.Envelope false message data) rg)) /\
     one_shot (LiveMonitor.did
                 (snd (LiveMonitor.startCamera (LiveMonitor.Answer false message) p))) /\
     one_shot (LiveMonitor.did
                 (snd (LiveMonitor.stopCamera (LiveMonitor.Answer false message) p))) /\
     LiveMonitor.posts (snd (LiveMonitor.startCamera c p))
       = ["/api/video/camera/start"] /\
     LiveMonitor.posts (snd (LiveMonitor.stopCamera c p))
       = ["/api/video/camera/stop"] /\
     ((3 <= length (ZoneForm.coordinates (Zones.zoneForm z)))%nat ->
      taken_as_success (snd (Zones.submitZoneForm true refused (Ok listed) z)) /\
      Zones.showZoneDialog (fst (Zones.submitZoneForm true refused (Ok listed) z))
        = false) /\
     (is_Some (faces !! i) ->
      taken_as_success (snd (Faces.toggleUserStatus i refused faces)) /\
      fst (Faces.toggleUserStatus i refused faces) = faces) /\
     taken_as_success (snd (EventsPage.markAsRead eventId refused st)) /\
     taken_as_success (snd (EventsPage.markAllAsRead refused st)) /\
     EventStore.unreadCount (fst (EventsPage.markAllAsRead refused st)) = 0 /\
     toasts (snd (Zones.fetchZones (Ok listed) z)) = []) /\
    (Login.loginSlideRef gone = None ->
     let done := Login.handleLogin_resume (Login.Envelope false message data) gone in
     toasts (Login.performed done) =
       [Notify LError (Login.or_message message "登录失败");
        Notify LError "网络错误，请稍后重试"] /\
     Login.how done = Thrown /\
     Login.isLoginSlideVerified (Login.after done)
       = Login.isLoginSlideVerified gone /\
     timeouts (Login.performed done) = [] /\
     navigations (Login.performed done) = []) /\
    (Login.registerSlideRef gone = None ->
     let done :=
       Login.handleRegister_resume (Login.Envelope false message data) gone in
     toasts (Login.performed done) =
       [Notify LError (Login.or_message message "注册失败");
        Notify LError "网络错误，请稍后重试"] /\
     Login.how done = Thrown /\
     Login.isRegisterSlideVerified (Login.after done)
       = Login.isRegisterSlideVerified gone /\
     timeouts (Login.performed done) = [] /\
     navigations (Login.performed done) = []) /\
    (silent (EventStore.performed (EventStore.fetchRecentEvents Failed st)) /\
     silent (snd (SystemStore.fetchSystemStatus (SystemStore.Broke message) sy)) /\
     silent (snd (LiveMonitor.checkCameraStatus Failed m)) /\
     silent (snd (LiveMonitor.loadDangerZones Failed m))) /\
    (LiveMonitor.videoErrorRetry m < 3 ->
     LiveMonitor.handleVideoError m =
       (LiveMonitor.with_videoErrorRetry (LiveMonitor.videoErrorRetry m + 1) m,
        [SetTimeout RefreshStream (1000 * (LiveMonitor.videoErrorRetry m + 1))])) /\
    (3 <= LiveMonitor.videoErrorRetry m ->
     LiveMonitor.handleVideoError m = (m, [Notify LError "视频流连接失败，请稍后重试"]) /\
     one_shot (snd (LiveMonitor.handleVideoError m))).
Proof.
  intros z f m p faces i st sy eventId lg rg gone message data r valid fetched
    listed h status c Hlogin Hltab Hregister Hrtab Hh Hstatus refused.
  assert (Hrefused : refused = Resolved).
  { subst refused. unfold Axios.settle.
    rewrite (proj2 (Z.leb_le _ _)), (proj2 (Z.ltb_lt _ _)) by lia.
    reflexivity. }
  rewrite Hh, Hrefused. clear Hrefused refused.
  assert (Hsubmit : one_shot (snd (Zones.submitZoneForm valid Rejected fetched z))).
  { unfold Zones.submitZoneForm, Zones.failure_message.
    destruct valid; simpl;
      [destruct (_ <? 3); simpl|]; destruct (Zones.editingZone z);
      one_shot_trace. }
  split; [|split; [|split; [|split; [|split; [|split]]]]].
  - do 9 (split; [first [exact Hsubmit | one_shot_trace]|]).
    split; intros Hr;
      [by apply handleLogin_refused | by apply handleRegister_refused].
  - split; [by apply handleLogin_refused|].
    split; [by apply handleLogin_refused|].
    split; [by apply handleRegister_refused|].
    split; [one_shot_trace|]. split; [one_shot_trace|].
    split; [by destruct c as [|[] text]|].
    split; [by destruct c as [|[] text]|].
    split; [|split; [|split; [|split; [|split]]]].
    + intros Hlen. unfold Zones.submitZoneForm, taken_as_success.
      rewrite (proj2 (Z.ltb_ge _ _)) by lia. simpl.
      destruct (Zones.editingZone z); simpl;
        (split; [by eexists|]);
        by rewrite (proj1 (resetZoneForm_fields _)).
    + intros [user Huser]. unfold Faces.toggleUserStatus, taken_as_success.
      rewrite Huser. simpl. split; [by eexists|reflexivity].
    + unfold taken_as_success. by eexists.
    + unfold taken_as_success. by eexists.
    + reflexivity.
    + reflexivity.
  - intros Hgone done. subst done.
    unfold Login.handleLogin_resume, Login.login_catch. rewrite Hgone.
    simpl. repeat split.
  - intros Hgone done. subst done.
    unfold Login.handleRegister_resume, Login.register_catch. rewrite Hgone.
    simpl. repeat split.
  - each_conjunct one_shot_trace.
  - intros Hlt. unfold LiveMonitor.handleVideoError.
    by rewrite (proj2 (Z.ltb_lt _ _) Hlt).
  - intros Hge. unfold LiveMonitor.handleVideoError.
    rewrite (proj2 (Z.ltb_ge _ _) Hge). split; [reflexivity|]. one_shot_trace.
Qed.

Lemma failures_are_one_shot_except_the_monitor_stream_witness :
  (Login.isLoginSlideVerified Login.verified = true /\
   Login.activeTab Login.verified = "login" /\
   Login.isRegisterSlideVerified Login.verified_register = true /\
   Login.activeTab Login.verified_register = "register" /\
   Axios.settle (Axios.Response 500 false) = Rejected) /\
  one_shot (snd (Login.handleLogin true Login.NetworkError Login.verified)) /\
  taken_as_success
    (snd (Faces.toggleUserStatus 0 (Axios.settle (Axios.Response 200 false))
            Faces.sample)) /\
  length
    (toasts (Login.performed
               (Login.handleLogin_resume (Login.Envelope false "" None)
                  Login.verified_register))) = 2%nat /\
  LiveMonitor.handleVideoError LiveMonitor.sample =
    (LiveMonitor.with_videoErrorRetry 1 LiveMonitor.sample,
     [SetTimeout RefreshStream 1000]).
Proof.
  split; [repeat split|].
  destruct (failures_are_one_shot_except_the_monitor_stream
              Zones.sample FaceRecognition.sample LiveMonitor.sample
              LiveMonitor.initial Faces.sample 0 EventStore.sample
              SystemStore.sample 1 Login.verified Login.verified_register
              Login.verified_register "" None Login.NetworkError true Failed []
              (Axios.Response 500 false) 200 LiveMonitor.Unreachable
              eq_refl eq_refl eq_refl eq_refl eq_refl)
    as ((_ & _ & _ & _ & _ & _ & _ & _ & _ & Hlogin & _) &
        (_ & _ & _ & _ & _ & _ & _ & _ & Htoggle & _) & Hgone & _ & _ &
        Hretry & _);
    [lia|].
  split; [exact (Hlogin eq_refl)|].
  split; [apply Htoggle; by eexists|].
  split; [destruct (Hgone eq_refl) as [-> _]; reflexivity|].
  apply Hretry. vm_compute. reflexivity.
Defined.

End FailureFacts.

(** ** More on the stores *)

Section StoreRuns.
Import EventStore.

(** Cutting an array to [n + 1] entries after a push at the front. *)
Lemma cut_front {A : Type} (n : nat) (x : A) (l : list A) :
  (if Z.of_nat (S n) <? Z.of_nat (length (x :: l))
   then take (S n) (x :: l) else x :: l) = x :: take n l.
Proof.
  destruct (Z.of_nat (S n) <? _) eqn:E; [done|].
  apply Z.ltb_ge in E. simpl in E. rewrite take_ge by lia. done.
Qed.

Lemma recentEvents_addRealtimeEvent (event : Event) (s : state) :
  recentEvents (addRealtimeEvent event s) =
  alloc (heap s) :: take 49 (recentEvents s).
Proof. unfold addRealtimeEvent. simpl. apply (cut_front 49). Qed.

Lemma has_id_alter_mark (h : gmap positive Event) (k : loc) (eventId : Z) (l : loc) :
  has_id (alter mark k h) eventId l = has_id h eventId l.
Proof.
  unfold has_id. rewrite lookup_alter. case_decide as Hk; [subst k|done].
  by destruct (h !! l).
Qed.

(** Marking does not change which slot [find] returns. *)
Lemma find_set_read (h : gmap positive Event) (o : option loc)
    (arr : list loc) (eventId : Z) :
  find (set_read h o) arr eventId = find h arr eventId.
Proof.
  unfold find. destruct o as [k|]; simpl; [|done].
  induction arr as [|a arr IH]; simpl; [done|].
  by rewrite has_id_alter_mark, IH.
Qed.

Lemma apply_sane_unreadCount (a : action) (s : state) :
  sane a -> 0 <= unreadCount s -> 0 <= unreadCount (apply a s).
Proof.
  intros Hsane Hpos. destruct a as [event|eventId r|r|r]; simpl.
  - by apply unreadCount_nonneg_addRealtimeEvent.
  - by apply unreadCount_nonneg_markEventAsRead.
  - by apply unreadCount_nonneg_markAllAsRead.
  - destruct r as [[evs [n|]]|]; simpl in *; [| |done].
    + destruct (store_all evs (heap s)). simpl. destruct (n =? 0); lia.
    + destruct (store_all evs (heap s)). simpl. lia.
Qed.

Lemma apply_wf (a : action) (s : state) : wf s -> wf (apply a s).
Proof.
  destruct a; simpl;
    auto using wf_addRealtimeEvent, wf_markEventAsRead, wf_markAllAsRead,
               wf_fetchRecentEvents.
Qed.

(** X1: in every state the store reaches from its initial state by
    realtime pushes, completed read requests (successful or not) and
    completed recent-events requests whose unread count is not
    negative, the unread count is not negative, and every slot of the
    two arrays refers to a stored event. *)
Theorem unread_count_is_never_negative :
  forall acts : list action,
    Forall sane acts ->
    0 <= unreadCount (run acts initial) /\ wf (run acts initial).
Proof.
  intros acts. unfold run.
  assert (Hgen : forall s, Forall sane acts -> 0 <= unreadCount s -> wf s ->
    0 <= unreadCount (fold_left (fun s a => apply a s) acts s) /\
    wf (fold_left (fun s a => apply a s) acts s)).
  { induction acts as [|a acts IH]; intros s Hs Hpos Hwf; simpl; [done|].
    apply Forall_cons in Hs as [Ha Hs].
    apply IH; [done| by apply apply_sane_unreadCount | by apply apply_wf]. }
  intros Hs. apply Hgen; [done|reflexivity|]. unfold wf. simpl. constructor.
Qed.

Lemma unread_count_is_never_negative_witness :
  Forall sane sample_run /\
  0 <= unreadCount (run sample_run initial) /\
  unreadCount (run sample_run initial) = 0.
Proof.
  assert (Hs : Forall sane sample_run) by (repeat constructor).
  split; [exact Hs|]. split; [|reflexivity].
  exact (proj1 (unread_count_is_never_negative sample_run Hs)).
Defined.

(** X2: a successful [markEventAsRead] leaves the first event with the
    id in the events array, and the first one in the recent-events
    array, read; every other stored event, also a later one with the
    same id, is left as it was; the arrays are unchanged. *)
Theorem markEventAsRead_marks_the_first_match :
  forall (s : state) (eventId : Z),
    let s' := after (markEventAsRead eventId Resolved s) in
    (forall l, find (heap s) (events s) eventId = Some l ->
               read_at (heap s') l = Some true) /\
    (forall l, find (heap s) (recentEvents s) eventId = Some l ->
               read_at (heap s') l = Some true) /\
    (forall l, find (heap s) (events s) eventId <> Some l ->
               find (heap s) (recentEvents s) eventId <> Some l ->
               heap s' !! l = heap s !! l) /\
    events s' = events s /\ recentEvents s' = recentEvents s.
Proof.
  intros s eventId s'. subst s'. simpl. rewrite find_set_read.
  assert (Hmarked : forall (h : gmap positive Event) (o : option loc) (l : loc),
            read_at h l = Some true -> read_at (set_read h o) l = Some true).
  { intros h o l. unfold read_at. destruct o as [k|]; simpl; [|done].
    rewrite lookup_alter. case_decide as Hk; [subst k|done].
    destruct (h !! l) as [e|]; simpl; [|done]. done. }
  assert (Hfound : forall (h : gmap positive Event) (arr : list loc) (l : loc),
            find h arr eventId = Some l ->
            read_at (set_read h (Some l)) l = Some true).
  { intros h arr l Hf. apply find_Some in Hf as (_ & e & He & _).
    unfold read_at. simpl. by rewrite lookup_alter_eq, He. }
  split; [|split; [|split; [|done]]].
  - intros l Hf. apply Hmarked. rewrite Hf. by eapply Hfound.
  - intros l Hf. rewrite Hf.
    unfold read_at. simpl. rewrite lookup_alter_eq.
    apply find_Some in Hf as (_ & e & He & _).
    destruct (find (heap s) (events s) eventId) as [k|]; simpl.
    + rewrite lookup_alter. case_decide as Hk; [subst k|]; by rewrite He.
    + by rewrite He.
  - intros l Hev Hrec.
    destruct (find (heap s) (recentEvents s) eventId) as [k|]; simpl.
    + rewrite lookup_alter_ne by congruence.
      destruct (find (heap s) (events s) eventId) as [j|]; simpl; [|done].
      rewrite lookup_alter_ne by congruence. done.
    + destruct (find (heap s) (events s) eventId) as [j|]; simpl; [|done].
      rewrite lookup_alter_ne by congruence. done.
Qed.

Lemma markEventAsRead_marks_the_first_match_witness :
  find (heap sample) (events sample) 1 = Some 1%positive /\
  read_at (heap sample) 1%positive = Some false /\
  read_at (heap (after (markEventAsRead 1 Resolved sample))) 1%positive
    = Some true.
Proof.
  split; [reflexivity|]. split; [reflexivity|].
  exact (proj1 (markEventAsRead_marks_the_first_match sample 1) 1%positive eq_refl).
Defined.

(** X3: after a successful [markAllAsRead] the [unreadEvents] getter is
    empty; after the push of an unread event the getter starts with
    that event. *)
Theorem unreadEvents_getter_follows_the_flags :
  forall (s : state) (event : Event),
    unreadEvents (after (markAllAsRead Resolved s)) = [] /\
    (is_read event = false ->
     head (unreadEvents (addRealtimeEvent event s)) = Some (alloc (heap s))).
Proof.
  intros s event. split.
  - unfold unreadEvents. simpl.
    assert (Hall : forall arr : list loc,
      (forall l, l ∈ arr -> l ∈ recentEvents s) ->
      List.filter
        (fun l => match forEach_mark (recentEvents s)
                          (forEach_mark (events s) (heap s)) !! l with
                  | Some event => negb (is_read event)
                  | None => false
                  end) arr = []).
    { induction arr as [|l arr IH]; intros Hsub; [done|]. simpl.
      rewrite IH by (intros k Hk; apply Hsub; by apply elem_of_cons; right).
      rewrite forEach_mark_lookup.
      rewrite bool_decide_eq_true_2 by (apply Hsub; by apply elem_of_cons; left).
      by destruct (_ !! l). }
    by apply Hall.
  - intros Hunread. unfold unreadEvents.
    rewrite recentEvents_addRealtimeEvent.
    cbn [List.filter]. unfold addRealtimeEvent. cbn [heap].
    by rewrite lookup_insert_eq, Hunread.
Qed.

Lemma unreadEvents_getter_follows_the_flags_witness :
  unreadEvents (after (markAllAsRead Resolved sample)) = [] /\
  head (unreadEvents (addRealtimeEvent (mkEvent 3 false "high") sample))
    = Some (alloc (heap sample)).
Proof.
  destruct (unreadEvents_getter_follows_the_flags sample (mkEvent 3 false "high"))
    as [Hall Hpush].
  split; [exact Hall | exact (Hpush eq_refl)].
Defined.

Lemma length_recentEvents_addRealtimeEvent (event : Event) (s : state) :
  length (recentEvents (addRealtimeEvent event s)) =
  S (Nat.min 49 (length (recentEvents s))).
Proof. rewrite recentEvents_addRealtimeEvent. simpl. by rewrite length_take. Qed.

(** X4: a series of realtime pushes lengthens the events array by one
    per push, without any cap, and raises the unread count by the
    number of unread events pushed; the recent-events array, when it
    held at most 50 entries, holds the total capped at 50. *)
Theorem pushes_grow_events_and_cap_recent :
  forall (evs : list Event) (s : state),
    length (events (pushes evs s)) = (length evs + length (events s))%nat /\
    unreadCount (pushes evs s) = unreadCount s + unread_pushes evs /\
    ((length (recentEvents s) <= 50)%nat ->
     length (recentEvents (pushes evs s)) =
       Nat.min 50 (length evs + length (recentEvents s))).
Proof.
  induction evs as [|e evs IH]; intros s.
  - unfold pushes, unread_pushes. cbn [fold_left List.filter length Nat.add].
    split; [done|]. split; lia.
  - change (pushes (e :: evs) s) with (pushes evs (addRealtimeEvent e s)).
    destruct (IH (addRealtimeEvent e s)) as (Hev & Hcount & Hrec).
    split; [|split].
    + rewrite Hev. unfold addRealtimeEvent. simpl. lia.
    + rewrite Hcount. unfold addRealtimeEvent, unread_pushes. simpl.
      destruct (is_read e); simpl; lia.
    + intros Hle. rewrite Hrec; rewrite length_recentEvents_addRealtimeEvent;
        cbn [length]; lia.
Qed.

Lemma pushes_grow_events_and_cap_recent_witness :
  let evs := replicate 60 (mkEvent 5 false "low") in
  (length (recentEvents sample) <= 50)%nat /\
  length (recentEvents (pushes evs sample)) = 50%nat /\
  length (events (pushes evs sample)) = 62%nat /\
  unreadCount (pushes evs sample) = 61.
Proof.
  intros evs.
  destruct (pushes_grow_events_and_cap_recent evs sample) as (Hev & Hcount & Hrec).
  assert (Hle : (length (recentEvents sample) <= 50)%nat) by (vm_compute; lia).
  split; [exact Hle|]. split; [|split].
  - rewrite (Hrec Hle). reflexivity.
  - rewrite Hev. reflexivity.
  - rewrite Hcount. reflexivity.
Defined.

End StoreRuns.

Section SystemStoreFacts.
Import SystemStore.

(** X5: [updateSystemStatus] overwrites the properties the payload
    carries and keeps the others; two updates in a row are the update
    by the second payload laid over the first, so an update applied
    twice is the update applied once, and an empty payload changes
    nothing; the loading flag and the error are never touched. *)
Theorem updateSystemStatus_payloads_compose :
  forall (p q : StatusPatch.t) (s : state),
    updateSystemStatus q (updateSystemStatus p s)
      = updateSystemStatus (over q p) s /\
    updateSystemStatus p (updateSystemStatus p s) = updateSystemStatus p s /\
    updateSystemStatus StatusPatch.empty s = s /\
    loading (updateSystemStatus p s) = loading s /\
    error (updateSystemStatus p s) = error s.
Proof.
  intros [p1 p2 p3 p4 p5] [q1 q2 q3 q4 q5] [[o v a d u] ld er].
  unfold updateSystemStatus, merge, over. simpl.
  repeat split.
  - destruct p1, p2, p3, p4, p5, q1, q2, q3, q4, q5; reflexivity.
  - destruct p1, p2, p3, p4, p5; reflexivity.
Qed.

Lemma apply_quiet_overall_status (a : action) (s : state) :
  quiet a ->
  SystemStatus.overall_status (systemStatus (apply a s)) =
  SystemStatus.overall_status (systemStatus s).
Proof. destruct a as [|p]; simpl; [done|]. by intros ->. Qed.

(** X6: a failed status request sets only the overall status to
    "error", records the error message and shows no notification. The
    store is then unhealthy and stays so, whatever errors are cleared
    and whatever status frames arrive, as long as no frame carries an
    overall status: [clearError] removes the error without making the
    store healthy again. A successful request replaces the whole
    status and leaves no error, whatever the error before. *)
Theorem failed_status_request_keeps_the_store_unhealthy :
  forall (s : state) (message : string) (data : SystemStatus.t)
         (acts : list action),
    Forall quiet acts ->
    let failed := fst (fetchSystemStatus (Broke message) s) in
    let loaded := fst (fetchSystemStatus (Body data) s) in
    systemStatus failed = with_overall_status "error" (systemStatus s) /\
    error failed = Some message /\
    toasts (snd (fetchSystemStatus (Broke message) s)) = [] /\
    isSystemHealthy (run acts failed) = false /\
    hasError (clearError failed) = false /\
    systemStatus loaded = data /\
    hasError loaded = false /\
    loading failed = false /\ loading loaded = false.
Proof.
  intros s message data acts Hq failed loaded.
  split; [done|]. split; [done|]. split; [done|].
  split; [|by repeat split].
  assert (Hgen : forall t,
    SystemStatus.overall_status (systemStatus (run acts t)) =
    SystemStatus.overall_status (systemStatus t)).
  { induction Hq as [|a acts Ha Hq IH]; intros t; [done|].
    change (run (a :: acts) t) with (run acts (apply a t)).
    rewrite IH. by apply apply_quiet_overall_status. }
  unfold isSystemHealthy. rewrite Hgen. reflexivity.
Qed.

Lemma failed_status_request_keeps_the_store_unhealthy_witness :
  let acts := [ClearError;
               Update (StatusPatch.mk None (Some "running") None None (Some "t1"))] in
  isSystemHealthy sample = true /\
  isSystemHealthy (run acts (fst (fetchSystemStatus (Broke "timeout") sample)))
    = false.
Proof.
  intros acts. split; [reflexivity|].
  destruct (failed_status_request_keeps_the_store_unhealthy sample "timeout"
              (systemStatus sample) acts) as (_ & _ & _ & H & _).
  - repeat constructor.
  - exact H.
Defined.

End SystemStoreFacts.

Section AppShellFacts.
Import AppShell.

(** X7: whatever frames the shell receives, its unread badge ends at
    the old count plus the number of unread [event_alert] frames:
    frames of the other types, and read alerts, do not move it. *)
Theorem shell_badge_counts_unread_alerts :
  forall (ms : list message) (s : state),
    unreadEvents (receive ms s) = unreadEvents s + unread_alerts ms.
Proof.
  induction ms as [|m ms IH]; intros s.
  - unfold receive, unread_alerts. simpl. lia.
  - change (receive (m :: ms) s) with (receive ms (onmessage m s)).
    rewrite IH. unfold unread_alerts, unreadEvents.
    destruct m as [data|data|]; simpl; [|lia|lia].
    unfold EventStore.addRealtimeEvent. simpl.
    destruct (EventStore.is_read data); simpl; lia.
Qed.

End AppShellFacts.

(** ** More on the slide control, the login page and the channel *)

Section SlideRuns.
Import SlideVerify.

Lemma act_settled (g : gesture) (s : state) : settled s -> settled (act g s).
Proof.
  intros (Htw & Hthumb & Hver).
  assert (Hs : settled s) by (unfold settled; auto).
  unfold settled. destruct g as [x|x| |]; simpl.
  - unfold startSlide. destruct (isVerified s) eqn:E; [exact Hs|]. simpl.
    split; [done|]. split; [done|]. congruence.
  - unfold onSlide. destruct (isDragging s) eqn:E; simpl; [|exact Hs].
    split; [done|]. unfold thumbWidth. rewrite Htw. split; [lia|].
    intros Hv. destruct (Hver Hv) as [_ Hd]. congruence.
  - unfold endSlide. destruct (isDragging s) eqn:E; simpl; [|exact Hs].
    destruct (_ <=? _) eqn:Ethr; simpl.
    + unfold thumbWidth. rewrite Htw. split; [done|]. split; [lia|]. done.
    + split; [done|]. split; [lia|].
      intros Hv. destruct (Hver Hv) as [_ Hd]. congruence.
  - split; [done|]. split; [lia|]. discriminate.
Qed.

Lemma gestures_settled (gs : list gesture) :
  forall s, settled s -> settled (gestures gs s).
Proof.
  induction gs as [|g gs IH]; intros s Hs; [done|].
  apply (IH (act g s)). by apply act_settled.
Qed.

Lemma settled_initial : settled initial.
Proof. unfold settled. simpl. split; [done|]. split; [lia|]. discriminate. Qed.

(** X8: whatever gestures the control receives from its initial state
    (presses, moves, releases and resets, in any order), the thumb
    stays on the track (offset between 0 and 260) and the progress bar
    within the 300 of the track; and once the control is verified, only
    a reset changes it: presses, moves and releases leave it as it is
    and emit nothing. *)
Theorem slider_stays_on_track_and_verified_is_final :
  forall (gs : list gesture),
    let s := gestures gs initial in
    0 <= thumbLeft s <= trackWidth s - thumbWidth /\
    thumbWidth <= progressWidth s <= trackWidth s /\
    (isVerified s = true ->
     thumbLeft s = trackWidth s - thumbWidth /\
     forall x,
       startSlide x s = s /\ onSlide x s = s /\ endSlide s = (s, [])).
Proof.
  intros gs s.
  destruct (gestures_settled gs initial settled_initial)
    as (Htw & Hthumb & Hver). fold s in Htw, Hthumb, Hver.
  unfold progressWidth, thumbWidth. rewrite Htw.
  split; [lia|]. split; [lia|].
  intros Hv. destruct (Hver Hv) as [H260 Hd]. split; [lia|].
  intros x. unfold startSlide, onSlide, endSlide. by rewrite Hv, Hd.
Qed.

Lemma slider_stays_on_track_and_verified_is_final_witness :
  let s := gestures [Press 100; Move 900; Release; Press 5; Move 1] initial in
  isVerified s = true /\ thumbLeft s = 260 /\ endSlide s = (s, []).
Proof.
  intros s.
  destruct (slider_stays_on_track_and_verified_is_final
              [Press 100; Move 900; Release; Press 5; Move 1])
    as (_ & _ & Hv).
  destruct (Hv eq_refl) as [H260 Hfinal].
  split; [reflexivity|]. split; [exact H260|].
  exact (proj2 (proj2 (Hfinal 0))).
Defined.

(** X9: a drag of an unverified control (press at x0, last move at x1,
    release), on a track wider than 45, verifies exactly when the
    pointer has travelled at least track width - 45 to the right; a
    press and release without a move in between ends as the thumb
    stood before, so from the rest position it fails. *)
Theorem drag_verifies_iff_far_enough :
  forall (s : state) (x0 x1 : Z),
    isVerified s = false ->
    45 < trackWidth s ->
    (snd (endSlide (onSlide x1 (startSlide x0 s))) = [Emit VerifySuccess] <->
     trackWidth s - 45 <= x1 - x0) /\
    (snd (endSlide (onSlide x1 (startSlide x0 s))) = [Emit VerifyFail] <->
     x1 - x0 < trackWidth s - 45) /\
    (thumbLeft s = 0 ->
     snd (endSlide (startSlide x0 s)) = [Emit VerifyFail]).
Proof.
  intros s x0 x1 Hv Htw.
  unfold startSlide, onSlide, endSlide, thumbWidth. rewrite Hv. simpl.
  split; [|split].
  - destruct (_ <=? _) eqn:E; simpl.
    + apply Z.leb_le in E. split; [lia|done].
    + apply Z.leb_gt in E. split; [discriminate|lia].
  - destruct (_ <=? _) eqn:E; simpl.
    + apply Z.leb_le in E. split; [discriminate|lia].
    + apply Z.leb_gt in E. split; [lia|done].
  - intros H0. rewrite H0.
    destruct (_ <=? _) eqn:E; simpl; [|done].
    apply Z.leb_le in E. lia.
Qed.

Lemma drag_verifies_iff_far_enough_witness :
  snd (endSlide (onSlide 355 (startSlide 100 initial))) = [Emit VerifySuccess] /\
  snd (endSlide (onSlide 354 (startSlide 100 initial))) = [Emit VerifyFail].
Proof.
  destruct (drag_verifies_iff_far_enough initial 100 355 eq_refl)
    as (Hyes & _); [simpl; lia|].
  destruct (drag_verifies_iff_far_enough initial 100 354 eq_refl)
    as (_ & Hno & _); [simpl; lia|].
  split; [apply Hyes | apply Hno]; simpl; lia.
Defined.

End SlideRuns.

Section LoginRuns.
Import Login.

(** X10: the login handler stores the token and the administrator,
    and navigates (to /live), exactly when the reply grants the login:
    success is true and the envelope carries a token. This holds of
    the handler as a whole, which sends the request only with the slide
    flag up, the login form on the page and the form valid, and of the
    part of the handler that runs when the reply arrives, whatever the
    page then looks like. The register handler never navigates and
    never stores anything. *)
Theorem login_navigates_only_on_success :
  forall (valid : bool) (r : reply) (s arrived : state),
    let go := isLoginSlideVerified s && loginFormRef s && valid && granted r in
    let keys := [StorageSet "admin_token"; StorageSet "admin_info"] in
    navigations (snd (handleLogin valid r s)) =
      (if go then [Navigate "/live"] else []) /\
    stored (snd (handleLogin valid r s)) = (if go then keys else []) /\
    navigations (performed (handleLogin_resume r arrived)) =
      (if granted r then [Navigate "/live"] else []) /\
    stored (performed (handleLogin_resume r arrived)) =
      (if granted r then keys else []) /\
    navigations (snd (handleRegister valid r s)) = [] /\
    stored (snd (handleRegister valid r s)) = [] /\
    navigations (performed (handleRegister_resume r arrived)) = [] /\
    stored (performed (handleRegister_resume r arrived)) = [].
Proof.
  intros valid r s arrived go keys. subst go keys.
  assert (Hlogin : forall t,
    navigations (performed (handleLogin_resume r t)) =
      (if granted r then [Navigate "/live"] else []) /\
    stored (performed (handleLogin_resume r t)) =
      (if granted r
       then [StorageSet "admin_token"; StorageSet "admin_info"] else [])).
  { intros t. unfold handleLogin_resume, login_catch.
    destruct r as [|[] message [[[token|]]|]], (loginSlideRef t); by simpl. }
  assert (Hregister : forall t,
    navigations (performed (handleRegister_resume r t)) = [] /\
    stored (performed (handleRegister_resume r t)) = []).
  { intros t. unfold handleRegister_resume, register_catch.
    destruct r as [|[] message data], (registerSlideRef t); by simpl. }
  split; [|split; [|split; [|split; [|split; [|split; [|split]]]]]];
    try apply Hlogin; try apply Hregister.
  - unfold handleLogin.
    destruct (isLoginSlideVerified s), (loginFormRef s), valid;
      cbn [negb andb snd]; try by destruct (granted r).
    apply (Hlogin (with_loginLoading true s)).
  - unfold handleLogin.
    destruct (isLoginSlideVerified s), (loginFormRef s), valid;
      cbn [negb andb snd]; try by destruct (granted r).
    apply (Hlogin (with_loginLoading true s)).
  - unfold handleRegister.
    destruct (isRegisterSlideVerified s), (registerFormRef s), valid;
      cbn [negb andb snd]; try done.
    apply (Hregister (with_registerLoading true s)).
  - unfold handleRegister.
    destruct (isRegisterSlideVerified s), (registerFormRef s), valid;
      cbn [negb andb snd]; try done.
    apply (Hregister (with_registerLoading true s)).
Qed.

(** X11: a login request that does not log in (it fails in transport,
    is answered with success false, or with success true and no token)
    and is answered while the login form is on the page lowers the
    slide flag and resets the slider, so the next click on the button
    sends nothing until the slider has been dragged again; a login that
    is granted leaves the flag up. When the user has left the login tab
    before the reply arrives, the slider ref is unset: the handler
    throws on a reply that does not log in, and the flag stays as it
    is. The loading flag is lowered in every case. *)
Theorem failed_login_requires_a_new_slide :
  forall (s gone : state) (r r' : reply) (valid : bool),
    isLoginSlideVerified s = true ->
    activeTab s = "login" ->
    let s1 := fst (handleLogin true r s) in
    let late := handleLogin_resume r gone in
    (granted r = false ->
     isLoginSlideVerified s1 = false /\
     loginSlide s1 = SlideVerify.reset (loginSlide s) /\
     requests (snd (handleLogin valid r' s1)) = []) /\
    (granted r = true -> isLoginSlideVerified s1 = true) /\
    loginLoading s1 = false /\
    length (requests (snd (handleLogin true r s))) = 1%nat /\
    (loginSlideRef gone = None ->
     isLoginSlideVerified (after late) = isLoginSlideVerified gone /\
     loginLoading (after late) = false /\
     (granted r = false -> how late = Thrown)).
Proof.
  intros s gone r r' valid Hflag Htab s1 late. subst s1 late.
  unfold handleLogin, handleLogin_resume, login_catch, loginSlideRef,
    loginFormRef.
  rewrite Hflag. cbn [activeTab with_loginLoading]. rewrite Htab.
  cbn [String.eqb Ascii.eqb Bool.eqb andb negb].
  split; [|split; [|split; [|split]]].
  - intros Hr. destruct r as [|[] message [[[token|]]|]];
      try discriminate Hr; by simpl.
  - intros Hr. destruct r as [|[] message [[[token|]]|]];
      try discriminate Hr; by simpl.
  - by destruct r as [|[] message [[[token|]]|]].
  - by destruct r as [|[] message [[[token|]]|]].
  - intros Hgone. destruct (String.eqb (activeTab gone) "login");
      [discriminate Hgone|].
    by destruct r as [|[] message [[[token|]]|]].
Qed.

Lemma failed_login_requires_a_new_slide_witness :
  isLoginSlideVerified verified = true /\
  requests
    (snd (handleLogin true welcome
            (fst (handleLogin true (Envelope true "" None) verified)))) = [] /\
  loginSlideRef verified_register = None /\
  isLoginSlideVerified
    (after (handleLogin_resume NetworkError verified_register)) = true.
Proof.
  split; [reflexivity|].
  destruct (failed_login_requires_a_new_slide verified verified_register
              (Envelope true "" None) welcome true eq_refl eq_refl)
    as (Hfail & _).
  split; [exact (proj2 (proj2 (Hfail eq_refl)))|].
  split; [reflexivity|].
  destruct (failed_login_requires_a_new_slide verified verified_register
              NetworkError welcome true eq_refl eq_refl)
    as (_ & _ & _ & _ & Hgone).
  destruct (Hgone eq_refl) as [-> _]. reflexivity.
Defined.

(** X12: the slide flags belong to the page, the sliders to the forms:
    leaving the login tab and coming back re-creates the login slider
    unverified but leaves the login flag up, so the login request is
    still sent without a new drag. A click on the tab already shown
    changes nothing. *)
Theorem slide_flag_survives_a_tab_switch :
  forall (s : state) (r : reply),
    activeTab s = "login" ->
    isLoginSlideVerified s = true ->
    let s' := selectTab "login" (selectTab "register" s) in
    activeTab s' = "login" /\
    isLoginSlideVerified s' = true /\
    loginSlide s' = SlideVerify.initial /\
    SlideVerify.isVerified (loginSlide s') = false /\
    length (requests (snd (handleLogin true r s'))) = 1%nat /\
    selectTab "login" s = s.
Proof.
  intros s r Htab Hflag s'. subst s'. unfold selectTab.
  rewrite Htab. simpl. repeat split; try exact Hflag.
  all: unfold handleLogin, handleLogin_resume, login_catch, loginSlideRef,
         loginFormRef; simpl; rewrite Hflag; simpl;
    by destruct r as [|[] message [[[token|]]|]].
Qed.

Lemma slide_flag_survives_a_tab_switch_witness :
  let s' := selectTab "login" (selectTab "register" verified) in
  SlideVerify.isVerified (loginSlide verified) = true /\
  SlideVerify.isVerified (loginSlide s') = false /\
  length (requests (snd (handleLogin true NetworkError s'))) = 1%nat.
Proof.
  intros s'. split; [reflexivity|].
  destruct (slide_flag_survives_a_tab_switch verified NetworkError
              eq_refl eq_refl) as (_ & _ & _ & Hv & Hreq & _).
  split; [exact Hv | exact Hreq].
Defined.

End LoginRuns.

Section ChannelRuns.
Import Realtime.

Lemma linked_mounted (p : page) : linked p mounted.
Proof.
  unfold linked. split; [apply balanced_mounted|]. simpl.
  split; [lia|]. split; [done|]. split; [|discriminate].
  intros sock Hin. by apply list_elem_of_singleton in Hin.
Qed.

Lemma live_member_nonempty (sock : nat) (c : channel) :
  sock ∈ live c -> live c <> [].
Proof. intros Hin E. rewrite E in Hin. by apply elem_of_nil in Hin. Qed.

Lemma step_linked (p : page) (e : event) (c c' : channel) (fx : list effect) :
  linked p c -> step p e c = Some (c', fx) ->
  linked p c' /\
  created c' =
    (created c + match e with TimerFired _ => 1 | _ => 0 end)%nat.
Proof.
  intros (Hb & Hpos & Hws & Hlive & Hflag) Hstep.
  destruct (step_balanced p e c c' fx Hb Hstep) as [Hb' _].
  destruct e as [sock|sock|sock|i]; simpl in Hstep.
  - unfold is_live in Hstep. case_bool_decide as Hin; [|done].
    pose proof (live_member_nonempty sock c Hin) as Hne.
    destruct p; simpl in Hstep; injection Hstep as <- <-;
      (split; [|simpl; lia]); unfold linked; simpl;
      repeat (split; [done|]); auto.
  - unfold is_live in Hstep. case_bool_decide as Hin; [|done].
    destruct p; simpl in Hstep; injection Hstep as <- <-;
      (split; [|simpl; lia]); unfold linked; simpl;
      repeat (split; [done|]); auto; discriminate.
  - unfold is_live in Hstep. case_bool_decide as Hin; [|done].
    assert (Hgone : List.filter (fun k => negb (Nat.eqb k sock)) (live c) = []).
    { destruct Hb as [(k & Hl & _) | [Hl _]]; rewrite Hl in Hin |- *.
      - apply list_elem_of_singleton in Hin. subst k. simpl.
        by rewrite Nat.eqb_refl.
      - done. }
    destruct p; simpl in Hstep; injection Hstep as <- <-;
      (split; [|simpl; lia]); unfold linked;
      (split; [exact Hb'|]); simpl; rewrite Hgone; repeat (split; [done|]);
      (split; [intros k Hk; by apply elem_of_nil in Hk|]).
    + intros Hc. by destruct (Hflag Hc).
    + intros Hc. by destruct (Hflag Hc).
    + discriminate.
  - destruct (timers c !! i) as [[[] ms]|] eqn:Ht; try done.
    injection Hstep as <- <-. split; [|simpl; lia].
    assert (Hl : live c = []).
    { destruct Hb as [(k & _ & Htm) | [Hl _]]; [|done].
      rewrite Htm in Ht. by rewrite lookup_nil in Ht. }
    unfold linked. split; [exact Hb'|]. simpl. rewrite Hl.
    split; [lia|]. split; [done|]. split.
    + intros k Hk. by apply list_elem_of_singleton in Hk.
    + intros Hc. destruct (Hflag Hc) as [Hp Hne]. by rewrite Hl in Hne.
Qed.

Lemma run_linked (p : page) (es : list event) :
  forall (c c' : channel) (fx : list effect),
    linked p c -> run p es c = Some (c', fx) ->
    linked p c' /\ created c' = (created c + fires es)%nat.
Proof.
  induction es as [|e es IH]; intros c c' fx Hl Hrun; simpl in Hrun.
  - injection Hrun as <- <-. split; [done|]. unfold fires. simpl. lia.
  - destruct (step p e c) as [[c1 fx1]|] eqn:Hstep; [|done].
    destruct (run p es c1) as [[c2 fx2]|] eqn:Hrest; [|done].
    injection Hrun as <- <-.
    destruct (step_linked p e c c1 fx1 Hl Hstep) as [Hl1 Hc1].
    destruct (IH c1 c2 fx2 Hl1 Hrest) as [Hl2 Hc2].
    split; [done|]. rewrite Hc2, Hc1. unfold fires. destruct e; simpl; lia.
Qed.

(** X13: in every run of a channel from mount, the [ws] variable holds
    the socket created last, and that socket is the only one that can
    be live; the sockets created are one more than the timers that
    fired; and the connection flag of the face-recognition page is up
    only while a socket is live (the other pages never raise it). *)
Theorem ws_holds_the_only_live_socket :
  forall (p : page) (es : list event) (c : channel) (fx : list effect),
    run p es mounted = Some (c, fx) ->
    created c = S (fires es) /\
    ws c = Some (fires es) /\
    (forall sock, sock ∈ live c -> ws c = Some sock) /\
    (wsConnected c = true -> p = FaceRecognitionPage /\ live c = [fires es]).
Proof.
  intros p es c fx Hrun.
  destruct (run_linked p es mounted c fx (linked_mounted p) Hrun)
    as [(Hb & Hpos & Hws & Hlive & Hflag) Hcreated].
  simpl in Hcreated. rewrite Hcreated in Hws, Hlive. simpl in Hws, Hlive.
  split; [exact Hcreated|]. split; [exact Hws|]. split.
  - intros sock Hin. rewrite Hws. f_equal. symmetry. by apply Hlive.
  - intros Hc. destruct (Hflag Hc) as [Hp Hne]. split; [exact Hp|].
    destruct Hb as [(k & Hl & _) | [Hl _]]; [|done].
    rewrite Hl. f_equal. apply Hlive. rewrite Hl. by apply list_elem_of_singleton.
Qed.

Lemma ws_holds_the_only_live_socket_witness :
  exists c fx,
    run FaceRecognitionPage
      [SocketClosed 0; TimerFired 0; SocketOpened 1] mounted = Some (c, fx) /\
    ws c = Some 1%nat /\ wsConnected c = true /\ live c = [1%nat].
Proof.
  eexists _, _. split; [vm_compute; reflexivity|].
  destruct (ws_holds_the_only_live_socket FaceRecognitionPage
              [SocketClosed 0; TimerFired 0; SocketOpened 1] _ _ eq_refl)
    as (_ & Hws & _ & Hflag).
  split; [exact Hws|]. split; [reflexivity|]. exact (proj2 (Hflag eq_refl)).
Defined.

(** X14: tearing the page down does not end the channel. [onUnmounted]
    calls [close] on the socket [ws] holds; the close event that
    follows registers a reconnect like any other close, and a reconnect
    that was already pending is not cancelled: once the browser has
    delivered what is pending, a new socket, which [onUnmounted] did
    not close, is live and held by [ws]. *)
Theorem teardown_is_followed_by_a_reconnect :
  forall (p : page) (es : list event) (c : channel) (fx : list effect),
    run p es mounted = Some (c, fx) ->
    (forall sock, sock ∈ live c -> onUnmounted c = Some sock) /\
    exists c' fx',
      run p (after_teardown c) c = Some (c', fx') /\
      live c' = [created c] /\
      ws c' = Some (created c) /\
      ws c' <> onUnmounted c /\
      timers c' = [].
Proof.
  intros p es c fx Hrun.
  destruct (run_linked p es mounted c fx (linked_mounted p) Hrun)
    as [(Hb & Hpos & Hws & Hlive & Hflag) Hcreated].
  split.
  { intros sock Hin. unfold onUnmounted. rewrite Hws. f_equal. symmetry.
    by apply Hlive. }
  assert (Hfresh : Some (created c) <> onUnmounted c).
  { unfold onUnmounted. rewrite Hws. intros [= E]. lia. }
  unfold after_teardown.
  destruct Hb as [(k & Hl & Htm) | [Hl Htm]]; rewrite Hl.
  - simpl. unfold is_live. rewrite Hl.
    rewrite bool_decide_eq_true_2 by (by apply list_elem_of_singleton).
    simpl. rewrite Nat.eqb_refl. simpl.
    destruct p; simpl; rewrite Htm; simpl; eexists _, _;
      (split; [reflexivity|]); simpl; by repeat split.
  - simpl. rewrite Htm. simpl. eexists _, _. split; [reflexivity|]. simpl.
    rewrite Hl. by repeat split.
Qed.

Lemma teardown_is_followed_by_a_reconnect_witness :
  onUnmounted mounted = Some 0%nat /\
  exists c' fx',
    run LiveMonitorPage (after_teardown mounted) mounted = Some (c', fx') /\
    live c' = [1%nat].
Proof.
  split; [reflexivity|].
  destruct (teardown_is_followed_by_a_reconnect LiveMonitorPage [] mounted []
              eq_refl) as (_ & c' & fx' & Hrun & Hlive & _).
  exists c', fx'. split; [exact Hrun | exact Hlive].
Defined.

End ChannelRuns.

(** ** More on the live monitor and the face-recognition page *)

Section MonitorFacts.
Import LiveMonitor.

Lemma filter_partition_permutation {A : Type} (f : A -> bool) (l : list A) :
  Permutation (List.filter (fun a => negb (f a)) l ++ List.filter f l) l.
Proof.
  induction l as [|a l IH]; simpl; [done|].
  destruct (f a); simpl.
  - rewrite <- Permutation_middle. by constructor.
  - by constructor.
Qed.

Lemma filter_Forall_true {A : Type} (f : A -> bool) (l : list A) :
  Forall (fun a => f a = true) (List.filter f l).
Proof.
  induction l as [|a l IH]; simpl; [constructor|].
  destruct (f a) eqn:E; [by constructor|done].
Qed.

(** X15: a [face_detection] frame replaces the detected faces by the
    faces of the frame and splits them in two: the recognized faces are
    the faces that are no strangers, the strangers are the others, and
    together they are the detected faces (none lost, none twice). The
    alerts are not touched, and a redraw is requested. *)
Theorem face_detection_splits_the_faces :
  forall (faces : list Face.t) (s : state),
    let s' := fst (onmessage (face_detection faces) s) in
    detectedFaces s' = faces /\
    Permutation (recognizedFaces s' ++ strangers s') faces /\
    Forall (fun f => Face.is_stranger f = false) (recognizedFaces s') /\
    Forall (fun f => Face.is_stranger f = true) (strangers s') /\
    (length (recognizedFaces s') + length (strangers s'))%nat = length faces /\
    realtimeAlerts s' = realtimeAlerts s /\
    snd (onmessage (face_detection faces) s) = [NextTick DrawVideoFrame].
Proof.
  intros faces s s'. subst s'. simpl.
  split; [done|]. split; [apply filter_partition_permutation|].
  split; [|split; [apply filter_Forall_true|split; [|done]]].
  - eapply Forall_impl; [apply filter_Forall_true|].
    intros f Hf. by apply negb_true_iff.
  - rewrite <- length_app.
    apply Permutation_length, filter_partition_permutation.
Qed.

Lemma handleVideoError_step (s : state) :
  0 <= videoErrorRetry s <= 3 ->
  let r := Z.to_nat (videoErrorRetry s) in
  let (s', fx) := handleVideoError s in
  videoErrorRetry s' = Z.of_nat (Nat.min (S r) 3) /\
  timeouts fx = take 1 (drop r retry_plan) /\
  length (toasts fx) = (1 - (3 - r))%nat /\
  videoStreamUrl s' = videoStreamUrl s /\
  cameraStatus s' = cameraStatus s.
Proof.
  intros Hr. unfold handleVideoError.
  assert (Hcases : videoErrorRetry s = 0 \/ videoErrorRetry s = 1 \/
                   videoErrorRetry s = 2 \/ videoErrorRetry s = 3) by lia.
  destruct Hcases as [E|[E|[E|E]]]; rewrite E; simpl; by repeat split.
Qed.

Lemma stream_errors_from (n : nat) :
  forall s : state,
    0 <= videoErrorRetry s <= 3 ->
    let r := Z.to_nat (videoErrorRetry s) in
    videoErrorRetry (fst (stream_errors n s)) = Z.of_nat (Nat.min (n + r) 3) /\
    timeouts (snd (stream_errors n s)) = take n (drop r retry_plan) /\
    length (toasts (snd (stream_errors n s))) = (n - (3 - r))%nat /\
    videoStreamUrl (fst (stream_errors n s)) = videoStreamUrl s /\
    cameraStatus (fst (stream_errors n s)) = cameraStatus s.
Proof.
  induction n as [|n IH]; intros s Hr r.
  - simpl. subst r. repeat split; try done.
    rewrite Nat.min_l by lia. lia.
  - simpl. pose proof (handleVideoError_step s Hr) as Hstep.
    destruct (handleVideoError s) as [s1 fx1].
    destruct Hstep as (Hr1 & Ht1 & Hn1 & Hu1 & Hc1). fold r in Hr1, Ht1, Hn1.
    assert (Hr1' : 0 <= videoErrorRetry s1 <= 3) by lia.
    specialize (IH s1 Hr1'). simpl in IH.
    destruct (stream_errors n s1) as [s2 fx2]. simpl in *.
    destruct IH as (Hr2 & Ht2 & Hn2 & Hu2 & Hc2).
    rewrite Hr1 in Hr2, Ht2, Hn2. rewrite Nat2Z.id in Hr2, Ht2, Hn2.
    unfold timeouts, toasts in *. rewrite !List.filter_app, length_app.
    rewrite Ht1, Ht2, Hn1, Hn2, Hr2, Hu2, Hc2.
    assert (Hcases : (r = 0 \/ r = 1 \/ r = 2 \/ r = 3)%nat) by lia.
    repeat split; try done.
    + f_equal. lia.
    + destruct Hcases as [E|[E|[E|E]]]; rewrite E; simpl;
        destruct n as [|[|[|n]]]; reflexivity.
    + lia.
Qed.

(** X16: a series of [n] stream errors on a monitor that has not
    retried yet registers a stream refresh for each of the first three
    errors only, due after 1000, 2000 and 3000 ms, and shows one
    notification for each error from the fourth on; the retry counter
    ends at the smaller of [n] and 3 and nothing resets it. The refresh
    itself assigns the address the stream already has: it changes
    nothing. *)
Theorem stream_errors_are_retried_three_times :
  forall (n : nat) (s : state),
    videoErrorRetry s = 0 ->
    let s' := fst (stream_errors n s) in
    let fx := snd (stream_errors n s) in
    videoErrorRetry s' = Z.of_nat (Nat.min n 3) /\
    timeouts fx = take n retry_plan /\
    length (toasts fx) = (n - 3)%nat /\
    (videoStreamUrl s = MJPEG_API -> refreshStream s' = s').
Proof.
  intros n s H0 s' fx. subst s' fx.
  destruct (stream_errors_from n s) as (Hr & Ht & Hn & Hu & Hc); [lia|].
  rewrite H0 in Hr, Ht, Hn. simpl in Hr, Ht, Hn.
  rewrite Nat.add_0_r in Hr.
  split; [exact Hr|]. split; [exact Ht|]. split; [rewrite Hn; lia|].
  intros Hurl. apply refreshStream_same_address. by rewrite Hu.
Qed.

Lemma stream_errors_are_retried_three_times_witness :
  timeouts (snd (stream_errors 5 sample)) = retry_plan /\
  length (toasts (snd (stream_errors 5 sample))) = 2%nat /\
  videoErrorRetry (fst (stream_errors 5 sample)) = 3.
Proof.
  destruct (stream_errors_are_retried_three_times 5 sample eq_refl)
    as (Hr & Ht & Hn & _).
  split; [exact Ht|]. split; [exact Hn | exact Hr].
Defined.

Lemma frameUpdate_keeps_the_stream (broken : bool) (s : state) :
  running (fst (frameUpdate broken s)) = running s /\
  videoStream (fst (frameUpdate broken s)) = videoStream s.
Proof.
  unfold frameUpdate, drawVideoFrame.
  destruct (running s) eqn:Hr; simpl; [|by rewrite Hr].
  destruct (videoCanvas s) as [c|], (videoStream s) as [video|] eqn:Hv;
    simpl; try (by rewrite Hr, ?Hv).
  destruct (negb (Img.complete video) || (Img.naturalWidth video =? 0));
    simpl; [by rewrite Hr, Hv|].
  by destruct broken.
Qed.

(** X29: the live monitor never fits its canvas to the image. On a
    running monitor every tick over a loaded image assigns the
    fallback size, since the size is read from [videoWidth] and
    [videoHeight], which an image element does not have: after any
    number of ticks (one at least) the backing store is 640x480
    whatever the natural size of the image, and it has been assigned,
    and so reset, twice per tick, also on the ticks whose drawing
    failed. *)
Theorem live_monitor_canvas_is_reassigned_on_every_tick :
  forall (bs : list bool) (s : state) (canvas : Canvas.t) (video : Img.t),
    running s = true ->
    videoCanvas s = Some canvas ->
    videoStream s = Some video ->
    Img.complete video = true ->
    Img.naturalWidth video <> 0 ->
    bs <> [] ->
    videoCanvas (ticks bs s) =
      Some (Canvas.mk 640 480 (2 * length bs + Canvas.resets canvas)).
Proof.
  intros bs s canvas video Hr Hc Hv Hcomplete Hw Hbs.
  destruct bs as [|b bs]; [done|]. clear Hbs.
  revert b s canvas Hr Hc Hv.
  induction bs as [|b' bs IH]; intros b s canvas Hr Hc Hv.
  - simpl. by rewrite (live_monitor_canvas_size b s canvas video).
  - change (ticks (b :: b' :: bs) s)
      with (ticks (b' :: bs) (fst (frameUpdate b s))).
    destruct (frameUpdate_keeps_the_stream b s) as [Hr' Hv'].
    rewrite (IH b' (fst (frameUpdate b s))
               (Canvas.mk 640 480 (S (S (Canvas.resets canvas)))));
      [|by rewrite Hr' | by apply (live_monitor_canvas_size b s canvas video)
       | by rewrite Hv'].
    f_equal. f_equal. cbn [Canvas.resets length]. lia.
Qed.

Lemma live_monitor_canvas_is_reassigned_on_every_tick_witness :
  videoCanvas (ticks [false; true; false] sample) = Some (Canvas.mk 640 480 6).
Proof.
  apply (live_monitor_canvas_is_reassigned_on_every_tick [false; true; false]
           sample (Canvas.mk 300 150 0) (Img.mk true 1280 720));
    try reflexivity; [simpl; lia | discriminate].
Defined.

Lemma operate_coupled (k : control) (p : page) :
  coupled (core p) /\ controlLoading p = false ->
  coupled (core (operate k p)) /\ controlLoading (operate k p) = false.
Proof.
  intros [Hc Hl]. unfold coupled in *.
  destruct k as [r|r|r| | |m|r]; simpl.
  - destruct r as [|[] message]; simpl; by split.
  - destruct r as [|[] message]; simpl; by split.
  - destruct r as [status|]; simpl; [|by split]. split; [|done].
    by destruct (String.eqb status "running").
  - split; [|done]. unfold refreshStream.
    destruct (String.eqb (cameraStatus (core p)) "running") eqn:E; simpl;
      rewrite E; [done|exact Hc].
  - split; [|done]. unfold handleVideoError.
    by destruct (videoErrorRetry (core p) <? 3).
  - split; [|done]. by destruct m.
  - destruct r; simpl; by split.
Qed.

(** X17: whatever the controls, replies, frames and stream errors, the
    stream address of the live monitor goes with the camera status: it
    is the MJPEG address while the status is "running" and empty
    otherwise, so the drawing loop runs exactly while the status is
    "running"; and no completed camera command leaves the controls in
    the loading state. *)
Theorem stream_address_goes_with_camera_status :
  forall ks : list control,
    let p := operations ks initial in
    coupled (core p) /\
    controlLoading p = false /\
    running (core p) = String.eqb (cameraStatus (core p)) "running".
Proof.
  intros ks p. subst p.
  assert (Hgen : forall p, coupled (core p) /\ controlLoading p = false ->
            coupled (core (operations ks p)) /\
            controlLoading (operations ks p) = false).
  { induction ks as [|k ks IH]; intros p Hp; [done|].
    apply (IH (operate k p)). by apply operate_coupled. }
  destruct (Hgen initial) as [Hc Hl]; [by split|].
  split; [exact Hc|]. split; [exact Hl|].
  unfold running. unfold coupled in Hc. rewrite Hc.
  by destruct (String.eqb _ "running").
Qed.

End MonitorFacts.

Section RecognitionFacts.
Import FaceRecognition.

(** X18: the background of a face label is clamped to the canvas on
    three sides. Whatever the location of the face, the width of the
    text and the width of the canvas, the left edge of the label is
    not left of 0, its top edge not above 0 and its right edge not
    right of the canvas width, each of them unless it is [NaN]; the
    label is 25 high, and the width handed to [fillRect] is the right
    edge less the left edge. Nothing clamps the left edge to the
    canvas width: for a face that starts right of the canvas the left
    edge of the label is the left edge of the face, and the right edge
    of the label lies left of it. *)
Theorem face_label_stays_inside_the_canvas_width :
  forall (location : Box.t) (textWidth : number) (canvasWidth : Z),
    let label := label_box location textWidth canvasWidth in
    let right := labelRight location textWidth canvasWidth in
    (Label.x label = S754_nan \/ num_le (int 0) (Label.x label) = true) /\
    (Label.y label = S754_nan \/ num_le (int 0) (Label.y label) = true) /\
    (right = S754_nan \/ num_le right (int canvasWidth) = true) /\
    Label.w label = num_sub right (Label.x label) /\
    Label.h label = int 25 /\
    (num_le (int 0) (int canvasWidth) = true ->
     num_lt (int canvasWidth) (Box.left location) = true ->
     Label.x label = Box.left location /\
     (right = S754_nan \/ num_lt right (Label.x label) = true)).
Proof.
  intros location textWidth canvasWidth label right. subst label right.
  unfold label_box. cbn [Label.x Label.y Label.w Label.h].
  split; [apply Math_max_zero|]. split; [apply Math_max_zero|].
  split; [apply Math_min_right|]. split; [reflexivity|].
  split; [reflexivity|].
  intros Hwidth Hout.
  assert (Hleft : labelLeft location = Box.left location).
  { apply Math_max_positive. by apply (num_le_lt_trans _ (int canvasWidth)). }
  split; [exact Hleft|]. rewrite Hleft.
  destruct (Math_min_right
              (num_add (num_add (labelLeft location) textWidth) (int 20))
              (int canvasWidth)) as [Hnan|Hle]; [by left|right].
  by apply (num_le_lt_trans _ (int canvasWidth)).
Qed.

Lemma face_label_stays_inside_the_canvas_width_witness :
  let location := Box.mk (int 700) (int 10) (int 760) (int 90) in
  let label := label_box location (int 80) 640 in
  Label.x label = int 700 /\
  labelRight location (int 80) 640 = int 640 /\
  num_lt (labelRight location (int 80) 640) (Label.x label) = true.
Proof.
  intros location label.
  destruct (face_label_stays_inside_the_canvas_width location (int 80) 640)
    as (_ & _ & _ & _ & _ & Hout).
  destruct Hout as [Hx Hright]; [reflexivity|reflexivity|].
  split; [exact Hx|]. split; [vm_compute; reflexivity|].
  destruct Hright as [Hnan|Hlt]; [|exact Hlt].
  vm_compute in Hnan. discriminate Hnan.
Defined.


(** X19: on the face-recognition page, a second tick over the same
    loaded image of non-zero size leaves the canvas exactly as the
    first tick left it: the backing store is assigned, and so reset,
    on the first tick only. *)
Theorem second_tick_does_not_reset_the_canvas :
  forall (b1 b2 : bool) (s : state) (canvas : Canvas.t) (video : Img.t),
    cameraStatus s = "running" ->
    videoCanvas s = Some canvas ->
    videoStream s = Some video ->
    Img.complete video = true ->
    Img.naturalWidth video <> 0 ->
    Img.naturalHeight video <> 0 ->
    let s1 := fst (frameUpdate b1 s) in
    let s2 := fst (frameUpdate b2 s1) in
    videoCanvas s2 = videoCanvas s1 /\
    videoCanvas s1 = Some (fit video canvas) /\
    (Canvas.resets (fit video canvas) <= 2 + Canvas.resets canvas)%nat.
Proof.
  intros b1 b2 s canvas video Hrun Hc Hv Hcomplete Hw Hh s1 s2.
  assert (Hready : negb (Img.complete video) || (Img.naturalWidth video =? 0) = false).
  { rewrite Hcomplete. simpl. by apply Z.eqb_neq. }
  assert (Htick : forall b t c,
    cameraStatus t = "running" -> videoCanvas t = Some c ->
    videoStream t = Some video ->
    let t' := fst (frameUpdate b t) in
    videoCanvas t' = Some (fit video c) /\ cameraStatus t' = "running" /\
    videoStream t' = Some video).
  { intros b t c Ht Htc Htv. unfold frameUpdate, drawVideoFrame.
    rewrite Ht, Htc, Htv, Hready. simpl. by destruct b. }
  destruct (Htick b1 s canvas Hrun Hc Hv) as (Hc1 & Hrun1 & Hv1).
  fold s1 in Hc1, Hrun1, Hv1.
  destruct (Htick b2 s1 _ Hrun1 Hc1 Hv1) as (Hc2 & _). fold s2 in Hc2.
  split; [|split; [exact Hc1|]].
  - rewrite Hc2, Hc1. f_equal. apply fit_unchanged. by apply fit_sized.
  - unfold fit.
    case (negb (Canvas.width canvas =? Img.naturalWidth video)
          || negb (Canvas.height canvas =? Img.naturalHeight video));
      cbn [Canvas.resets Canvas.set_width Canvas.set_height]; lia.
Qed.

Lemma second_tick_does_not_reset_the_canvas_witness :
  videoCanvas (fst (frameUpdate false (fst (frameUpdate true sample))))
    = Some (Canvas.mk 1280 720 2).
Proof.
  destruct (second_tick_does_not_reset_the_canvas true false sample
              (Canvas.mk 300 150 0) (Img.mk true 1280 720))
    as (H2 & H1 & _);
    [reflexivity | reflexivity | reflexivity | reflexivity
    | simpl; lia | simpl; lia |].
  rewrite H2, H1. reflexivity.
Defined.

End RecognitionFacts.

(** ** More on the zone editor *)

Section EditorRuns.
Import Zones.

(** A frame changes the canvas only, and leaves it at 640x480. *)
Lemma drawFrame_only_canvas (broken : bool) (s : state) :
  exists canvas,
    fst (drawFrame broken s) = with_videoCanvas canvas s /\
    (forall c, videoCanvas s = Some c ->
       canvas = Some (Canvas.mk 640 480 (S (S (Canvas.resets c))))) /\
    (videoCanvas s = None -> canvas = None).
Proof.
  unfold drawFrame. destruct (videoCanvas s) as [c|] eqn:Hc.
  - eexists. split; [|split; [intros c' [= <-]; reflexivity|discriminate]].
    repeat match goal with |- context [if ?b then _ else _] => destruct b end;
      reflexivity.
  - exists None. split; [|split; [discriminate|done]].
    destruct s; simpl in *; by subst.
Qed.

Lemma feed_one_points (i : input) (s : state) (c : Canvas.t) :
  drawMode s = true ->
  videoCanvas s = Some c -> Canvas.width c = 640 -> Canvas.height c = 480 ->
  let s' := feed_one i s in
  currentPoints s' = currentPoints s ++ clicked [i] /\
  drawMode s' = true /\
  zoneForm s' = zoneForm s /\ editingZone s' = editingZone s /\
  exists c', videoCanvas s' = Some c' /\
             Canvas.width c' = 640 /\ Canvas.height c' = 480.
Proof.
  intros Hmode Hc Hw Hh. destruct i as [event rect|broken]; simpl.
  - unfold handleCanvasClick. rewrite Hmode, Hc, Hw, Hh. simpl.
    repeat split; try done. by exists c.
  - destruct (drawFrame_only_canvas broken s) as (canvas & -> & Hsome & _).
    rewrite (Hsome c Hc). simpl. rewrite app_nil_r.
    repeat split; try done. by eexists.
Qed.

Lemma feed_points (ins : list input) :
  forall (s : state) (c : Canvas.t),
    drawMode s = true ->
    videoCanvas s = Some c -> Canvas.width c = 640 -> Canvas.height c = 480 ->
    currentPoints (feed ins s) = currentPoints s ++ clicked ins /\
    drawMode (feed ins s) = true /\
    zoneForm (feed ins s) = zoneForm s /\
    editingZone (feed ins s) = editingZone s.
Proof.
  induction ins as [|i ins IH]; intros s c Hmode Hc Hw Hh.
  - simpl. by rewrite app_nil_r.
  - change (feed (i :: ins) s) with (feed ins (feed_one i s)).
    destruct (feed_one_points i s c Hmode Hc Hw Hh)
      as (Hp & Hm & Hf & He & c' & Hc' & Hw' & Hh').
    destruct (IH (feed_one i s) c' Hm Hc' Hw' Hh') as (Hp2 & Hm2 & Hf2 & He2).
    rewrite Hp2, Hp, Hf2, Hf, He2, He. split; [|done].
    rewrite <- app_assoc. f_equal. by destruct i.
Qed.

(** X20: from "add zone" to the dialog. After [startDrawing], on a
    canvas whose backing store is 640x480, any series of clicks and
    frames collects exactly the clicked points, each rescaled to
    640x480, in the order of the clicks (frames add nothing and leave
    the size); the finishing right-click then hands exactly these
    points to the form, opens the dialog and leaves drawing mode, when
    there are at least 3 of them. *)
Theorem drawing_collects_the_clicked_points :
  forall (ins : list input) (s : state) (c : Canvas.t),
    videoCanvas s = Some c -> Canvas.width c = 640 -> Canvas.height c = 480 ->
    let drawn := feed ins (startDrawing s) in
    currentPoints drawn = clicked ins /\
    ((3 <= length (clicked ins))%nat ->
     let s' := fst (handleRightClick drawn) in
     ZoneForm.coordinates (zoneForm s') = clicked ins /\
     showZoneDialog s' = true /\
     drawMode s' = false /\
     snd (handleRightClick drawn) = [PreventDefault]).
Proof.
  intros ins s c Hc Hw Hh drawn.
  destruct (feed_points ins (startDrawing s) c eq_refl Hc Hw Hh)
    as (Hp & Hm & _). fold drawn in Hp, Hm. simpl in Hp.
  split; [exact Hp|]. intros Hlen. unfold handleRightClick.
  rewrite Hm, Hp. rewrite (proj2 (Z.ltb_ge _ _)) by lia.
  cbn [negb orb fst snd].
  match goal with
  | |- context [rendered ?t] => destruct (rendered_as_update t) as [ref ->]
  end.
  by simpl.
Qed.

Lemma drawing_collects_the_clicked_points_witness :
  let drawn := feed sample_inputs (startDrawing sample) in
  let s0 := fst (drawFrame false sample) in
  currentPoints (feed sample_inputs (startDrawing s0)) = clicked sample_inputs /\
  length (clicked sample_inputs) = 3%nat /\
  showZoneDialog
    (fst (handleRightClick (feed sample_inputs (startDrawing s0)))) = true.
Proof.
  intros drawn s0.
  destruct (drawing_collects_the_clicked_points sample_inputs s0
              (Canvas.mk 640 480 2) eq_refl eq_refl eq_refl) as [Hp Hfinish].
  split; [exact Hp|]. split; [reflexivity|].
  assert (Hlen : (3 <= length (clicked sample_inputs))%nat) by (simpl; lia).
  exact (proj1 (proj2 (Hfinish Hlen))).
Defined.

(** X21: a submission of a valid form with at least 3 points sends one
    request: a PUT to the zone being edited, else a POST. When it
    succeeds the dialog is closed, the form holds no points and is
    active, the buffer is empty, no zone is being edited, and the zone
    list is the list just fetched (the old list when that fetch fails).
    When it fails nothing of what the user entered is lost: form,
    buffer, dialog and edited zone are as before. Neither outcome
    leaves the submitting or the loading flag up. After a success the
    name and the threshold of the form are what [resetFields] puts
    back: the values they had when the dialog was first rendered (the
    name of the zone edited then, if an edit opened it), and the
    defaults "" and 10 only where there is no form yet. *)
Theorem submission_outcomes :
  forall (s : state) (fetched : response (list Zone.t)),
    (3 <= length (ZoneForm.coordinates (zoneForm s)))%nat ->
    let done := submitZoneForm true Resolved fetched s in
    let failed := submitZoneForm true Rejected fetched s in
    requests (snd done) = [submission s; Request GET ApiZone NoBody] /\
    showZoneDialog (fst done) = false /\
    ZoneForm.coordinates (zoneForm (fst done)) = [] /\
    ZoneForm.is_active (zoneForm (fst done)) = true /\
    zoneForm (fst done) =
      match zoneFormRef s with
      | Some (name, stay_threshold) => ZoneForm.mk name stay_threshold true []
      | None => ZoneForm.mk "" 10 true []
      end /\
    currentPoints (fst done) = [] /\
    editingZone (fst done) = None /\
    zones (fst done) =
      match fetched with Ok data => data | Failed => zones s end /\
    submitting (fst done) = false /\ loading (fst done) = false /\
    requests (snd failed) = [submission s] /\
    fst failed = with_submitting false s.
Proof.
  intros s fetched Hlen done failed. subst done failed.
  unfold submitZoneForm, submission.
  rewrite (proj2 (Z.ltb_ge _ _)) by lia. simpl.
  destruct (resetZoneForm_fields
              (with_showZoneDialog false (with_submitting true s)))
    as (Hd & Hp & He & Hz & Hc & Ha). simpl in Hd, Hz.
  assert (Hform :
    zoneForm (resetZoneForm
                (with_showZoneDialog false (with_submitting true s))) =
    match zoneFormRef s with
    | Some (name, stay_threshold) => ZoneForm.mk name stay_threshold true []
    | None => ZoneForm.mk "" 10 true []
    end).
  { unfold resetZoneForm, resetFields. simpl.
    by destruct (zoneFormRef s) as [[name threshold]|]. }
  destruct fetched as [data|]; simpl; destruct (editingZone s); simpl;
    rewrite ?Hd, ?Hp, ?He, ?Hz, ?Hc, ?Ha; repeat split; exact Hform.
Qed.

Lemma submission_outcomes_witness :
  requests (snd (submitZoneForm true Resolved (Ok [pool]) (editZone pool sample)))
    = [Request PUT (ApiZoneId 7)
         (ZoneData "Pool" "polygon" (Zone.coordinates pool) 10 true);
       Request GET ApiZone NoBody] /\
  zones (fst (submitZoneForm true Resolved (Ok [pool]) (editZone pool sample)))
    = [pool] /\
  zoneForm (fst (submitZoneForm true Resolved (Ok [pool]) (editZone pool sample)))
    = ZoneForm.mk "Pool" 10 true [].
Proof.
  destruct (submission_outcomes (editZone pool sample) (Ok [pool]))
    as (Hreq & _ & _ & _ & Hform & _ & _ & Hzones & _); [simpl; lia|].
  split; [exact Hreq|]. split; [exact Hzones | exact Hform].
Defined.

(** X22: clearing never talks to the backend. [clearDrawing],
    [resetView] and [clearCoordinates] empty the point buffer and send
    nothing; [startDrawing] empties it and enters drawing mode; leaving
    drawing mode by the toggle empties it. After [clearCoordinates]
    the form holds no points, so a submission is refused without a
    request. None of them changes the zone being edited. *)
Theorem clearing_empties_the_buffer_without_requests :
  forall (broken valid : bool) (r : outcome)
         (fetched : response (list Zone.t)) (s : state),
    let cleared := [clearDrawing broken s; resetView broken s;
                    clearCoordinates broken s] in
    Forall (fun out => currentPoints (fst out) = [] /\
                       requests (snd out) = [] /\
                       toasts (snd out) = [] /\
                       editingZone (fst out) = editingZone s) cleared /\
    currentPoints (startDrawing s) = [] /\ drawMode (startDrawing s) = true /\
    (drawMode s = true -> currentPoints (toggleDrawMode s) = [] /\
                          drawMode (toggleDrawMode s) = false) /\
    (drawMode s = false -> currentPoints (toggleDrawMode s) = currentPoints s /\
                           drawMode (toggleDrawMode s) = true) /\
    ZoneForm.coordinates (zoneForm (fst (clearCoordinates broken s))) = [] /\
    requests
      (snd (submitZoneForm valid r fetched (fst (clearCoordinates broken s)))) = [].
Proof.
  intros broken valid r fetched s cleared. subst cleared.
  assert (Hframe : forall t,
    currentPoints (fst (drawFrame broken t)) = currentPoints t /\
    requests (snd (drawFrame broken t)) = [] /\
    toasts (snd (drawFrame broken t)) = [] /\
    editingZone (fst (drawFrame broken t)) = editingZone t /\
    zoneForm (fst (drawFrame broken t)) = zoneForm t).
  { intros t. destruct (drawFrame_only_canvas broken t) as (canvas & -> & _).
    simpl. unfold drawFrame. destruct (videoCanvas t); [|done].
    repeat match goal with |- context [if ?b then _ else _] => destruct b end;
      done. }
  split; [|split; [done|split; [done|split; [|split; [|split]]]]].
  - assert (Hout : forall t,
      currentPoints t = [] -> editingZone t = editingZone s ->
      currentPoints (fst (drawFrame broken t)) = [] /\
      requests (snd (drawFrame broken t)) = [] /\
      toasts (snd (drawFrame broken t)) = [] /\
      editingZone (fst (drawFrame broken t)) = editingZone s).
    { intros t Hp He. destruct (Hframe t) as (-> & -> & -> & -> & _). done. }
    unfold clearDrawing, resetView, clearCoordinates.
    constructor; [by apply Hout|]. constructor; [by apply Hout|].
    constructor; [by apply Hout|]. constructor.
  - intros Hm. unfold toggleDrawMode. simpl. by rewrite Hm.
  - intros Hm. unfold toggleDrawMode. simpl. by rewrite Hm.
  - unfold clearCoordinates.
    match goal with |- context [drawFrame broken ?t] =>
      destruct (Hframe t) as (_ & _ & _ & _ & ->) end. done.
  - unfold clearCoordinates.
    match goal with |- context [drawFrame broken ?t] =>
      destruct (Hframe t) as (_ & _ & _ & _ & Hform) end.
    unfold submitZoneForm. rewrite Hform. simpl. by destruct valid.
Qed.

Lemma clearing_empties_the_buffer_without_requests_witness :
  drawMode sample = true /\
  currentPoints sample <> [] /\
  currentPoints (toggleDrawMode sample) = [] /\
  currentPoints (fst (clearDrawing false sample)) = [].
Proof.
  destruct (clearing_empties_the_buffer_without_requests false true Resolved
              Failed sample) as (Hall & _ & _ & Htoggle & _).
  split; [reflexivity|]. split; [discriminate|].
  split; [exact (proj1 (Htoggle eq_refl))|].
  apply Forall_cons in Hall as [(Hp & _) _]. exact Hp.
Defined.

(** X23: the zone being edited is forgotten only by a successful
    submission. Cancelling the dialog of an edit, starting a new
    drawing and collecting a new polygon all keep it, and the form
    keeps the name of the edited zone: the submission that follows is a
    PUT to the edited zone, carrying its name with the new points, not
    the creation of a new zone. *)
Theorem cancelled_edit_turns_the_next_zone_into_an_update :
  forall (zone : Zone.t) (ins : list input) (s : state) (c : Canvas.t)
         (r : outcome) (fetched : response (list Zone.t)),
    videoCanvas s = Some c -> Canvas.width c = 640 -> Canvas.height c = 480 ->
    (3 <= length (clicked ins))%nat ->
    let s1 := cancelDialog (editZone zone s) in
    let s2 := fst (handleRightClick (feed ins (startDrawing s1))) in
    editingZone s2 = Some zone /\
    showZoneDialog s1 = false /\
    showZoneDialog s2 = true /\
    requests (snd (submitZoneForm true r fetched s2)) =
      Request PUT (ApiZoneId (Zone.id zone))
        (ZoneData (Zone.name zone) "polygon" (clicked ins)
           (Zone.stay_threshold zone) (Zone.is_active zone))
      :: match r with
         | Resolved => [Request GET ApiZone NoBody]
         | Rejected => []
         end.
Proof.
  intros zone ins s c r fetched Hc Hw Hh Hlen s1 s2.
  assert (Hedit : videoCanvas s1 = Some c /\
                  editingZone s1 = Some zone /\
                  showZoneDialog s1 = false /\
                  zoneForm s1 =
                    ZoneForm.mk (Zone.name zone) (Zone.stay_threshold zone)
                      (Zone.is_active zone) (Zone.coordinates zone)).
  { subst s1. unfold cancelDialog, editZone.
    match goal with
    | |- context [rendered ?t] => destruct (rendered_as_update t) as [ref' ->]
    end.
    by simpl. }
  destruct Hedit as (Hc1 & He1 & Hd1 & Hf1). clearbody s1.
  assert (Hc2 : videoCanvas (startDrawing s1) = Some c) by exact Hc1.
  destruct (feed_points ins (startDrawing s1) c eq_refl Hc2 Hw Hh)
    as (Hp & Hm & Hf & He). simpl in Hp, Hf, He.
  assert (Hs2 : exists ref, s2 =
    with_zoneFormRef ref
      (with_drawMode false (with_showZoneDialog true
         (with_zoneForm (with_coordinates (clicked ins)
                           (zoneForm (feed ins (startDrawing s1))))
            (feed ins (startDrawing s1)))))).
  { subst s2. unfold handleRightClick.
    rewrite Hm, Hp. rewrite (proj2 (Z.ltb_ge _ _)) by lia.
    cbn [negb orb fst]. apply rendered_as_update. }
  destruct Hs2 as [ref Hs2]. rewrite Hs2. simpl. rewrite He, Hf, He1, Hf1.
  split; [done|]. split; [exact Hd1|]. split; [done|].
  unfold submitZoneForm. simpl.
  rewrite (proj2 (Z.ltb_ge _ _)) by lia. rewrite ?He, ?Hf, ?He1, ?Hf1. simpl.
  destruct r; [destruct fetched|]; reflexivity.
Qed.

Lemma cancelled_edit_turns_the_next_zone_into_an_update_witness :
  let s0 := fst (drawFrame false sample) in
  let s2 := fst (handleRightClick
                   (feed sample_inputs
                      (startDrawing (cancelDialog (editZone pool s0))))) in
  requests (snd (submitZoneForm true Rejected Failed s2)) =
    [Request PUT (ApiZoneId 7)
       (ZoneData "Pool" "polygon" (clicked sample_inputs) 10 true)].
Proof.
  intros s0 s2.
  destruct (cancelled_edit_turns_the_next_zone_into_an_update pool
              sample_inputs s0 (Canvas.mk 640 480 2) Rejected Failed
              eq_refl eq_refl eq_refl) as (_ & _ & _ & Hreq); [simpl; lia|].
  exact Hreq.
Defined.

End EditorRuns.

(** ** More on the face registry, and the router *)

Section RegistryFacts.
Import Faces.

Lemma two_megabytes (size : Z) :
  Qle_bool 2 (inject_Z size / 1024 / 1024) = (2097152 <=? size).
Proof.
  unfold Qle_bool, Qdiv, Qmult, Qinv, inject_Z. simpl.
  destruct (2097152 <=? size) eqn:E.
  - apply Z.leb_le in E. apply Z.leb_le. lia.
  - apply Z.leb_gt in E. apply Z.leb_gt. lia.
Qed.

(** X24: [beforeUpload] lets a file through exactly when its type is
    image/jpeg or image/png and its size is below 2 MiB (2097152
    bytes); it then shows nothing. A refused file gets exactly one
    error message, about the type when the type is wrong, whatever the
    size. *)
Theorem beforeUpload_accepts_small_jpeg_or_png :
  forall file : UploadFile.t,
    let typed := UploadFile.type file = "image/jpeg" \/
                 UploadFile.type file = "image/png" in
    (fst (beforeUpload file) = true <->
     typed /\ UploadFile.size file < 2097152) /\
    (fst (beforeUpload file) = true -> snd (beforeUpload file) = []) /\
    (fst (beforeUpload file) = false ->
     exists message, snd (beforeUpload file) = [Notify LError message]) /\
    (~ typed ->
     snd (beforeUpload file) = [Notify LError "上传头像图片只能是 JPG/PNG 格式!"]).
Proof.
  intros file typed. subst typed. unfold beforeUpload.
  rewrite two_megabytes.
  destruct (String.eqb_spec (UploadFile.type file) "image/jpeg") as [Hj|Hj];
    destruct (String.eqb_spec (UploadFile.type file) "image/png") as [Hp|Hp];
    destruct (2097152 <=? UploadFile.size file) eqn:E;
    [apply Z.leb_le in E | apply Z.leb_gt in E | apply Z.leb_le in E
    | apply Z.leb_gt in E | apply Z.leb_le in E | apply Z.leb_gt in E
    | apply Z.leb_le in E | apply Z.leb_gt in E];
    cbn [negb orb fst snd];
    (split; [split; [intros H|intros [Ht Hs]]|
     split; [intros H|split; [intros H|intros Hn]]]);
    try discriminate H; try reflexivity; try lia; try tauto;
    try (by eexists); try (split; [tauto|lia]).
Qed.

Lemma beforeUpload_accepts_small_jpeg_or_png_witness :
  fst (beforeUpload (UploadFile.mk "image/png" 2097151)) = true /\
  fst (beforeUpload (UploadFile.mk "image/png" 2097152)) = false /\
  fst (beforeUpload (UploadFile.mk "image/gif" 10)) = false.
Proof.
  split; [|split; reflexivity].
  apply (proj1 (beforeUpload_accepts_small_jpeg_or_png
                  (UploadFile.mk "image/png" 2097151))).
  simpl. split; [by right|lia].
Defined.

(** X25: after a successful upload the form holds the file path of the
    response and an image address that starts with "http": the address
    of the response when that one starts with "http", else the backend
    origin followed by it. Name and description are kept. An upload
    answered with success false, or with no response, leaves the form
    as it was and shows one error message. *)
Theorem handleUploadSuccess_makes_the_address_absolute :
  forall (r : UploadResponse.t) (addForm : AddForm.t),
    (UploadResponse.success r = true ->
     let form := fst (handleUploadSuccess (Some r) addForm) in
     String.prefix "http" (AddForm.imageUrl form) = true /\
     (String.prefix "http" (UploadResponse.url r) = true ->
      AddForm.imageUrl form = UploadResponse.url r) /\
     (String.prefix "http" (UploadResponse.url r) = false ->
      AddForm.imageUrl form =
        String.append "http://localhost:8000" (UploadResponse.url r)) /\
     AddForm.image form = UploadResponse.file_path r /\
     AddForm.name form = AddForm.name addForm /\
     AddForm.description form = AddForm.description addForm) /\
    (UploadResponse.success r = false ->
     fst (handleUploadSuccess (Some r) addForm) = addForm /\
     exists message,
       snd (handleUploadSuccess (Some r) addForm) = [Notify LError message]) /\
    handleUploadSuccess None addForm = (addForm, [Notify LError "图片上传失败"]).
Proof.
  intros r addForm. split; [|split; [|reflexivity]].
  - intros Hs. unfold handleUploadSuccess. rewrite Hs. simpl.
    destruct (String.prefix "http" (UploadResponse.url r)) eqn:E; simpl;
      repeat split; try done; try discriminate.
  - intros Hs. unfold handleUploadSuccess. rewrite Hs. simpl.
    split; [done|by eexists].
Qed.

Lemma handleUploadSuccess_makes_the_address_absolute_witness :
  AddForm.imageUrl
    (fst (handleUploadSuccess
            (Some (UploadResponse.mk true "" "/media/a.png" "media/a.png"))
            (AddForm.mk "Ann" "" "" "")))
  = "http://localhost:8000/media/a.png".
Proof.
  destruct (handleUploadSuccess_makes_the_address_absolute
              (UploadResponse.mk true "" "/media/a.png" "media/a.png")
              (AddForm.mk "Ann" "" "" "")) as (Hok & _).
  destruct (Hok eq_refl) as (_ & _ & Hrel & _). exact (Hrel eq_refl).
Defined.

Lemma filter_sublist {A : Type} (f : A -> bool) (l : list A) :
  sublist (List.filter f l) l.
Proof.
  induction l as [|a l IH]; simpl; [constructor|].
  destruct (f a); by constructor.
Qed.

Lemma filter_Forall_keeps {A : Type} (P : A -> Prop) (f : A -> bool)
    (l : list A) :
  Forall P l -> Forall P (List.filter f l).
Proof.
  induction 1 as [|a l Ha Hl IH]; simpl; [constructor|].
  destruct (f a); [by constructor|exact IH].
Qed.

(** X26: the filtered table is the table with rows left out, in the
    same order. Without filters it is the whole table. With a name
    filter the lowered name of every row shown includes the lowered
    filter. With the status filter "active" every row shown is active;
    with any other non-empty status every row shown is inactive. The
    active faces are rows of the table too. This holds whatever
    function of the string [toLowerCase] is. *)
Theorem filteredFaces_leaves_rows_out :
  forall (toLowerCase : string -> string) (filters : Filters.t)
         (faces : state),
    let shown := filteredFaces toLowerCase filters faces in
    sublist shown faces /\
    (Filters.name filters = "" -> Filters.status filters = "" ->
     shown = faces) /\
    (Filters.name filters <> "" ->
     Forall (fun face =>
               includes (toLowerCase (FaceRecord.name face))
                 (toLowerCase (Filters.name filters)) = true) shown) /\
    (Filters.status filters = "active" ->
     Forall (fun face => FaceRecord.is_active face = true) shown) /\
    (Filters.status filters <> "" -> Filters.status filters <> "active" ->
     Forall (fun face => FaceRecord.is_active face = false) shown) /\
    sublist (activeFaces faces) faces.
Proof.
  intros toLowerCase [name status] faces shown. subst shown.
  unfold filteredFaces. simpl.
  split; [|split; [|split; [|split; [|split]]]].
  - destruct (String.eqb name ""), (String.eqb status ""); simpl;
      try reflexivity; try apply filter_sublist.
    etransitivity; apply filter_sublist.
  - intros -> ->. reflexivity.
  - intros Hne. rewrite (proj2 (String.eqb_neq name "") Hne). simpl.
    destruct (String.eqb status ""); simpl.
    + apply filter_Forall_true.
    + apply filter_Forall_keeps, filter_Forall_true.
  - intros ->. simpl.
    eapply Forall_impl; [apply filter_Forall_true|].
    intros face Hf. simpl in Hf. by destruct (FaceRecord.is_active face).
  - intros Hne Hna.
    rewrite (proj2 (String.eqb_neq status "") Hne).
    rewrite (proj2 (String.eqb_neq status "active") Hna). simpl.
    eapply Forall_impl; [apply filter_Forall_true|].
    intros face Hf. simpl in Hf. by destruct (FaceRecord.is_active face).
  - apply filter_sublist.
Qed.

Lemma filteredFaces_leaves_rows_out_witness :
  filteredFaces ascii_toLowerCase (Filters.mk "" "disabled") sample
    = [FaceRecord.mk 2 "Bob" false] /\
  Forall (fun face => FaceRecord.is_active face = false)
    (filteredFaces ascii_toLowerCase (Filters.mk "" "disabled") sample) /\
  filteredFaces ascii_toLowerCase (Filters.mk "AN" "") sample
    = [FaceRecord.mk 1 "Ann" true] /\
  Forall (fun face =>
            includes (ascii_toLowerCase (FaceRecord.name face)) "an" = true)
    (filteredFaces ascii_toLowerCase (Filters.mk "AN" "") sample).
Proof.
  split; [reflexivity|].
  destruct (filteredFaces_leaves_rows_out ascii_toLowerCase
              (Filters.mk "" "disabled") sample)
    as (_ & _ & _ & _ & Hinactive & _).
  split; [apply Hinactive; discriminate|].
  split; [reflexivity|].
  destruct (filteredFaces_leaves_rows_out ascii_toLowerCase
              (Filters.mk "AN" "") sample)
    as (_ & _ & Hname & _).
  apply Hname. discriminate.
Defined.

End RegistryFacts.

Section RouterFacts.
Import Router.



(** X28: what a granted login writes, the logout removes. A login
    that is granted (the reply has success true and carries a token),
    sent from the login form, leaves the keys admin_token and
    admin_info in local storage and the browser on /live; the logout
    entry of the menu removes these two keys, leaves every other key as
    it was, and goes to /login. A reply that does not grant the login,
    also one with success true and no token, leaves storage and path
    as they were. Any other menu entry leaves storage, title and path
    to the menu. *)
Theorem logout_removes_what_login_stored :
  forall (s : Login.state) (r refused : Login.reply) (b : browser)
         (index : string),
    Login.isLoginSlideVerified s = true ->
    Login.activeTab s = "login" ->
    Login.granted r = true ->
    Login.granted refused = false ->
    let logged := perform (snd (Login.handleLogin true r s)) b in
    let out := handleMenuSelect "/logout" logged in
    ("admin_token" ∈ storage logged) /\
    ("admin_info" ∈ storage logged) /\
    current logged = "/live" /\
    ("admin_token" ∉ storage out) /\
    ("admin_info" ∉ storage out) /\
    (forall key, key <> "admin_token" -> key <> "admin_info" ->
       (key ∈ storage out <-> key ∈ storage b)) /\
    current out = "/login" /\
    perform (snd (Login.handleLogin true refused s)) b = b /\
    (index <> "/logout" -> handleMenuSelect index logged = logged).
Proof.
  intros s r refused b index Hflag Htab Hr Hrefused logged out.
  subst out logged.
  unfold Login.handleLogin, Login.handleLogin_resume, Login.login_catch,
    Login.loginSlideRef, Login.loginFormRef.
  rewrite Hflag. cbn [Login.activeTab Login.with_loginLoading]. rewrite Htab.
  destruct r as [|[] message [[[token|]]|]]; try discriminate Hr.
  simpl. unfold handleMenuSelect. simpl.
  rewrite !elem_of_difference, !elem_of_union, !elem_of_singleton.
  split; [tauto|]. split; [tauto|]. split; [done|].
  split; [tauto|]. split; [tauto|]. split; [|split; [done|split]].
  - intros key H1 H2.
    rewrite !elem_of_difference, !elem_of_union, !elem_of_singleton. tauto.
  - destruct refused as [|[] message' [[[token'|]]|]];
      try discriminate Hrefused; by destruct b.
  - intros Hne. by rewrite (proj2 (String.eqb_neq index "/logout") Hne).
Qed.

Lemma logout_removes_what_login_stored_witness :
  let b := mkBrowser "" {[ "theme" ]} "/login" in
  let logged := perform (snd (Login.handleLogin true Login.welcome Login.verified)) b in
  ("admin_token" ∈ storage logged) /\
  ("admin_token" ∉ storage (handleMenuSelect "/logout" logged)) /\
  ("theme" ∈ storage (handleMenuSelect "/logout" logged)) /\
  perform
    (snd (Login.handleLogin true (Login.Envelope true "" None) Login.verified)) b
    = b.
Proof.
  intros b logged.
  destruct (logout_removes_what_login_stored Login.verified Login.welcome
              (Login.Envelope true "" None) b "/live"
              eq_refl eq_refl eq_refl eq_refl)
    as (Hin & _ & _ & Hgone & _ & Hkeep & _ & Hrefused & _).
  split; [exact Hin|]. split; [exact Hgone|].
  split; [|exact Hrefused].
  apply Hkeep; [discriminate|discriminate|]. simpl.
  by apply elem_of_singleton.
Defined.

End RouterFacts.

